(** * JourneyWorks analysis service: a shallow embedding and its properties

    The development follows [python/analysis-service/app]: the three field
    analyzers ([statistical_analyzer.py], [categorical_analyzer.py],
    [temporal_analyzer.py]), the orchestration in [datacard_generator.py]
    and the sanitisation pass of [main.py].

    Conventions of the embedding.
    - A Python [float] is a [pyfloat]: NaN, an infinity, or a finite number.
      Finite numbers are exact rationals ([Q]); rounding error and overflow
      of binary64 arithmetic are not modelled.  Results are compared with
      [==] on [Q].
    - A pandas [Series] taken from a data frame is the list of its cells in
      row order, [None] standing for a missing cell (NaN / None); the index
      label of a cell is its row number.
    - A Python [dict] is an association list in insertion order.
    - Library routines that the service only calls (square root, date
      parsing and printing, the mean of time differences, Pearson's r,
      [np.histogram], number printing) are section variables. *)

From Stdlib Require Import String Ascii.
From Stdlib Require Import ZArith QArith Qround Qabs Qminmax Lqa Lia Bool.
From Stdlib Require Import List Permutation Sorted.
Import ListNotations.

Open Scope string_scope.
Open Scope list_scope.
Open Scope Q_scope.

Set Warnings "-register-all".

(** ** Python values *)

Inductive pyfloat : Type :=
| NaN
| PInf
| NInf
| Fin (q : Q).

Definition is_nan (f : pyfloat) : bool :=
  match f with NaN => true | _ => false end.

Definition is_inf (f : pyfloat) : bool :=
  match f with PInf | NInf => true | _ => false end.

(** Number of an integer count. *)
Definition Qn (n : nat) : Q := inject_Z (Z.of_nat n).

Fixpoint Qsum (l : list Q) : Q :=
  match l with
  | [] => 0
  | x :: t => x + Qsum t
  end.

(** [round(x, ndigits)] of Python on an exact value: to the nearest
    multiple of [10^-ndigits], a tie going to the even neighbour. *)
Definition rint (x : Q) : Z :=
  let f := Qfloor x in
  match Qcompare (x - inject_Z f) (1 # 2) with
  | Lt => f
  | Gt => (f + 1)%Z
  | Eq => if Z.even f then f else (f + 1)%Z
  end.

Definition py_round (x : Q) (ndigits : nat) : Q :=
  let scale := inject_Z (10 ^ Z.of_nat ndigits) in
  inject_Z (rint (x * scale)) / scale.

(** ** Series helpers (pandas) *)

(** [Series.dropna()]: the present cells, each with its index label. *)
Fixpoint dropna_from {A : Type} (i : nat) (s : list (option A)) : list (nat * A) :=
  match s with
  | [] => []
  | None :: t => dropna_from (S i) t
  | Some x :: t => (i, x) :: dropna_from (S i) t
  end.

Definition dropna {A : Type} (s : list (option A)) : list (nat * A) :=
  dropna_from 0 s.

Definition values {A : Type} (s : list (nat * A)) : list A := map snd s.

(** [obj.head(n)]: the first [n] rows, or all but the last [|n|] rows when
    [n] is negative. *)
Definition head {A : Type} (n : Z) (l : list A) : list A :=
  if (0 <=? n)%Z then firstn (Z.to_nat n) l
  else firstn (length l - Z.to_nat (- n)) l.

(** ** Categorical analyzer ([categorical_analyzer.py]) *)

Record top_entry : Type := {
  te_value : string;
  te_count : nat;
  te_percent : Q
}.

Record CategoricalStats : Type := {
  unique_count : nat;
  top_n : list top_entry;
  concentration_risk : Q;
  rare_categories : list string
}.

Section Categorical.

(** The type of the cells of the analysed column, Python's [==] on it
    and [str]. *)
Context {V : Type}.
Variable V_eq_dec : forall x y : V, {x = y} + {x <> y}.
Variable py_str : V -> string.

(** Frequency table in order of first appearance. *)
Fixpoint bump (v : V) (acc : list (V * nat)) : list (V * nat) :=
  match acc with
  | [] => [(v, 1%nat)]
  | (w, c) :: rest =>
      if V_eq_dec v w then (w, S c) :: rest else (w, c) :: bump v rest
  end.

Definition tally (l : list V) : list (V * nat) :=
  fold_left (fun acc v => bump v acc) l [].

(** Stable sort by decreasing count. *)
Fixpoint insert_desc (e : V * nat) (l : list (V * nat)) : list (V * nat) :=
  match l with
  | [] => [e]
  | h :: t =>
      if (snd h <=? snd e)%nat then e :: h :: t else h :: insert_desc e t
  end.

Definition sort_desc (l : list (V * nat)) : list (V * nat) :=
  fold_right insert_desc [] l.

(** [Series.value_counts()]: distinct values with their counts, most
    frequent first, ties in order of first appearance. *)
Definition value_counts (l : list V) : list (V * nat) :=
  sort_desc (tally l).

Definition _empty_categorical_stats : CategoricalStats :=
  {| unique_count := 0;
     top_n := [];
     concentration_risk := 0;
     rare_categories := [] |}.

Definition top_category (total_count : nat) (vc : V * nat) : top_entry :=
  let percent := (Qn (snd vc) / Qn total_count) * 100 in
  {| te_value := py_str (fst vc);
     te_count := snd vc;
     te_percent := py_round percent 2 |}.

Definition analyze_categorical_field
           (series : list (option V)) (top_n : Z) : CategoricalStats :=
  let clean_data := values (dropna series) in
  if (length clean_data =? 0)%nat then _empty_categorical_stats
  else
    let value_counts := value_counts clean_data in
    let total_count := length clean_data in
    let unique_count := length value_counts in
    let top_categories := map (top_category total_count) (head top_n value_counts) in
    let proportions := map (fun vc => Qn (snd vc) / Qn total_count) value_counts in
    let hhi := Qsum (map (fun p => p ^ 2) proportions) in
    let rare_threshold := Qn total_count * (1 # 100) in
    let rare_categories :=
      map (fun vc => py_str (fst vc))
          (filter (fun vc => if Qlt_le_dec (Qn (snd vc)) rare_threshold
                             then true else false) value_counts) in
    {| unique_count := unique_count;
       top_n := top_categories;
       concentration_risk := hhi;
       rare_categories := firstn 50 rare_categories |}.

(** The sum of squared proportions as the specification words it: over
    the distinct values of the population, each with its share. *)
Definition proportion (l : list V) (v : V) : Q :=
  Qn (count_occ V_eq_dec l v) / Qn (length l).

Definition sum_squared_proportions (l : list V) : Q :=
  Qsum (map (fun v => proportion l v ^ 2) (nodup V_eq_dec l)).

(** The count a table records for a value, 0 when it has no row. *)
Fixpoint count_of (u : V) (acc : list (V * nat)) : nat :=
  match acc with
  | [] => 0
  | (w, c) :: rest => if V_eq_dec u w then c else count_of u rest
  end.

(** Well-formed frequency table: one row per value, no empty row. *)
Definition table_ok (acc : list (V * nat)) : Prop :=
  NoDup (map fst acc) /\ Forall (fun e => (1 <= snd e)%nat) acc.

End Categorical.

(** ** Numeric analyzer ([statistical_analyzer.py]) *)

(** The [outliers] dictionary.  Its keys are known; a key that the
    dictionary does not hold is [None].  [o_max_zscore] holds a float, the
    integer 0 of the source's fallback being written [Fin 0]. *)
Record OutlierInfo : Type := {
  o_method : option string;
  o_threshold : option Q;
  o_count : option nat;
  o_indices : option (list nat);
  o_values : option (list Q);
  o_max_zscore : option pyfloat;
  o_bounds : option (Q * Q)
}.

Record NumericStats : Type := {
  count : nat;
  mean : pyfloat;
  median : pyfloat;
  std : pyfloat;
  min : pyfloat;
  max : pyfloat;
  q25 : pyfloat;
  q50 : pyfloat;
  q75 : pyfloat;
  skewness : option pyfloat;
  kurtosis : option pyfloat;
  outliers : OutlierInfo
}.

(** Division of floats: a zero divisor gives NaN or an infinity. *)
Definition fdiv (a b : Q) : pyfloat :=
  if Qeq_bool b 0 then
    if Qeq_bool a 0 then NaN
    else if Qle_bool 0 a then PInf else NInf
  else Fin (a / b).

Definition fabs (f : pyfloat) : pyfloat :=
  match f with
  | NaN => NaN
  | PInf | NInf => PInf
  | Fin q => Fin (Qabs q)
  end.

(** [f > t] for a float [f] and a finite [t]; false on NaN. *)
Definition fgt (f : pyfloat) (t : Q) : bool :=
  match f with
  | NaN | NInf => false
  | PInf => true
  | Fin q => negb (Qle_bool q t)
  end.

(** The larger of two floats, NaN winning as in [ndarray.max]. *)
Definition fmax2 (a b : pyfloat) : pyfloat :=
  match a, b with
  | NaN, _ | _, NaN => NaN
  | PInf, _ | _, PInf => PInf
  | NInf, x | x, NInf => x
  | Fin x, Fin y => if Qle_bool x y then Fin y else Fin x
  end.

Definition Qlt_bool (a b : Q) : bool := negb (Qle_bool b a).

Section Numeric.

(** The square root of the numeric library. *)
Variable fsqrt : Q -> Q.

(** Floats are canonical values: the library sees the reduced fraction. *)
Definition lib_sqrt (x : Q) : Q := fsqrt (Qred x).

(** [Series.mean()] in exact arithmetic: the sum over the count.  The
    binary64 mean of pandas agrees with it up to rounding only, and can
    land just outside the range of the values. *)
Definition series_mean (l : list Q) : Q := Qsum l / Qn (length l).

Fixpoint insert_asc (x : Q) (l : list Q) : list Q :=
  match l with
  | [] => [x]
  | h :: t => if Qle_bool x h then x :: h :: t else h :: insert_asc x t
  end.

(** [Series.sort_values()] on the values. *)
Definition sort_values (l : list Q) : list Q := fold_right insert_asc [] l.

(** [Series.median()]: the middle order statistic, or the mean of the
    two middle ones. *)
Definition series_median (l : list Q) : Q :=
  let s := sort_values l in
  let n := length l in
  if Nat.even n then (nth (n / 2 - 1) s 0 + nth (n / 2) s 0) / 2
  else nth (n / 2) s 0.

(** Linear interpolation between the order statistics around a
    fractional position. *)
Definition interpolate (s : list Q) (pos : Q) : Q :=
  let lo := Z.to_nat (Qfloor pos) in
  let hi := Z.to_nat (Qceiling pos) in
  let frac := pos - inject_Z (Qfloor pos) in
  nth lo s 0 + (nth hi s 0 - nth lo s 0) * frac.

(** [Series.quantile(q)] with the default linear interpolation. *)
Definition quantile (l : list Q) (q : Q) : Q :=
  interpolate (sort_values l) (q * Qn (length l - 1)).

Definition series_min (l : list Q) : Q :=
  match l with
  | [] => 0
  | h :: t => fold_left Qmin t h
  end.

Definition series_max (l : list Q) : Q :=
  match l with
  | [] => 0
  | h :: t => fold_left Qmax t h
  end.

(** The [k]-th central moment, denominator N. *)
Definition moment (k : positive) (l : list Q) : Q :=
  Qsum (map (fun x => Qpower_positive (x - series_mean l) k) l) / Qn (length l).

(** [Series.std()]: denominator N - 1, NaN on a single value. *)
Definition series_std (l : list Q) : pyfloat :=
  if (length l <=? 1)%nat then NaN
  else Fin (lib_sqrt (Qsum (map (fun x => (x - series_mean l) ^ 2) l)
                      / Qn (length l - 1))).

(** [scipy.stats.skew]: m3 / m2^1.5, NaN when the values do not vary. *)
Definition scipy_skew (l : list Q) : pyfloat :=
  let m2 := moment 2 l in
  if Qeq_bool m2 0 then NaN
  else Fin (moment 3 l / (m2 * lib_sqrt m2)).

(** [scipy.stats.kurtosis]: m4 / m2^2 - 3, NaN when the values do not vary. *)
Definition scipy_kurtosis (l : list Q) : pyfloat :=
  let m2 := moment 2 l in
  if Qeq_bool m2 0 then NaN
  else Fin (moment 4 l / (m2 * m2) - 3).

(** [scipy.stats.zscore]: distance to the mean over the population
    standard deviation. *)
Definition scipy_zscore (l : list Q) : list pyfloat :=
  let mn := series_mean l in
  let sd := lib_sqrt (moment 2 l) in
  map (fun x => fdiv (x - mn) sd) l.

Definition ndarray_max (l : list pyfloat) : pyfloat :=
  match l with
  | [] => NaN
  | h :: t => fold_left fmax2 t h
  end.

(** Rows of a series selected by a boolean mask. *)
Fixpoint select {A : Type} (rows : list A) (mask : list bool) : list A :=
  match rows, mask with
  | r :: rows', m :: mask' =>
      if m then r :: select rows' mask' else select rows' mask'
  | _, _ => []
  end.

Definition _detect_outliers
           (series : list (nat * Q)) (method : string) (threshold : Q)
  : OutlierInfo :=
  if String.eqb method "zscore" then
    let z_scores := map fabs (scipy_zscore (values series)) in
    let outlier_mask := map (fun z => fgt z threshold) z_scores in
    let outlier_indices := map fst (select series outlier_mask) in
    let outlier_values := map snd (select series outlier_mask) in
    {| o_method := Some "zscore"%string;
       o_threshold := Some threshold;
       o_count := Some (length outlier_indices);
       o_indices := Some (firstn 100 outlier_indices);
       o_values := Some (firstn 100 outlier_values);
       o_max_zscore :=
         Some (if (0 <? length z_scores)%nat then ndarray_max z_scores
               else Fin 0);
       o_bounds := None |}
  else if String.eqb method "iqr" then
    let q1 := quantile (values series) (25 # 100) in
    let q3 := quantile (values series) (75 # 100) in
    let iqr := q3 - q1 in
    let lower_bound := q1 - threshold * iqr in
    let upper_bound := q3 + threshold * iqr in
    let outlier_mask :=
      map (fun x => Qlt_bool x lower_bound || Qlt_bool upper_bound x)
          (values series) in
    let outlier_indices := map fst (select series outlier_mask) in
    let outlier_values := map snd (select series outlier_mask) in
    {| o_method := Some "iqr"%string;
       o_threshold := Some threshold;
       o_count := Some (length outlier_indices);
       o_indices := Some (firstn 100 outlier_indices);
       o_values := Some (firstn 100 outlier_values);
       o_max_zscore := None;
       o_bounds := Some (lower_bound, upper_bound) |}
  else
    {| o_method := Some method;
       o_threshold := None;
       o_count := Some 0%nat;
       o_indices := None;
       o_values := None;
       o_max_zscore := None;
       o_bounds := None |}.

Definition _empty_numeric_stats : NumericStats :=
  {| count := 0;
     mean := Fin 0; median := Fin 0; std := Fin 0;
     min := Fin 0; max := Fin 0;
     q25 := Fin 0; q50 := Fin 0; q75 := Fin 0;
     skewness := None; kurtosis := None;
     outliers := {| o_method := None; o_threshold := None;
                    o_count := Some 0%nat; o_indices := None;
                    o_values := None; o_max_zscore := None;
                    o_bounds := None |} |}.

Definition analyze_numeric_field
           (series : list (option Q))
           (outlier_method : string) (outlier_threshold : Q)
  : NumericStats :=
  let clean_data := dropna series in
  if (length clean_data =? 0)%nat then _empty_numeric_stats
  else
    let xs := values clean_data in
    {| count := length clean_data;
       mean := Fin (series_mean xs);
       median := Fin (series_median xs);
       std := series_std xs;
       min := Fin (series_min xs);
       max := Fin (series_max xs);
       q25 := Fin (quantile xs (25 # 100));
       q50 := Fin (quantile xs (50 # 100));
       q75 := Fin (quantile xs (75 # 100));
       skewness := Some (scipy_skew xs);
       kurtosis := Some (scipy_kurtosis xs);
       outliers := _detect_outliers clean_data outlier_method outlier_threshold |}.

End Numeric.

(** A square root on rationals for evaluating the model: exact on the
    squares of rationals, otherwise rounded down to a multiple of 2^-52. *)
Definition Qsqrt_approx (x : Q) : Q :=
  let scale := (2 ^ 52)%Z in
  Qred (Z.sqrt (Qnum x * Zpos (Qden x) * scale * scale)
        # (Qden x * Z.to_pos scale)).


Definition feq (a b : pyfloat) : Prop :=
  match a, b with
  | Fin x, Fin y => x == y
  | NaN, NaN | PInf, PInf | NInf, NInf => True
  | _, _ => False
  end.


(** The number of non-missing cells of a series. *)
Definition non_missing {A : Type} (series : list (option A)) : nat :=
  length (filter (fun c => match c with Some _ => true | None => false end) series).


(** Two results agree on every descriptive statistic. *)
Definition descriptive_equal (a b : NumericStats) : Prop :=
  count a = count b /\ mean a = mean b /\ median a = median b /\
  std a = std b /\ min a = min b /\ max a = max b /\
  q25 a = q25 b /\ q50 a = q50 b /\ q75 a = q75 b /\
  skewness a = skewness b /\ kurtosis a = kurtosis b.

(** ** Result trees ([model_dump]) and the sanitisation pass ([main.py]) *)

Inductive pykey : Type :=
| KStr (s : string)
| KInt (z : Z).

Inductive pyval : Type :=
| VNone
| VBool (b : bool)
| VInt (z : Z)
| VFloat (f : pyfloat)
| VStr (s : string)
| VList (l : list pyval)
| VDict (d : list (pykey * pyval)).

Definition pydict : Type := list (pykey * pyval).

Definition Vnat (n : nat) : pyval := VInt (Z.of_nat n).
Definition Vnum (q : Q) : pyval := VFloat (Fin q).

(** [clean_nan_values]: [math.isnan(obj) or math.isinf(obj)] on floats,
    recursion through dict values and list items, anything else as is. *)
Fixpoint clean_nan_values (obj : pyval) : pyval :=
  match obj with
  | VDict d =>
      VDict (map (fun kv => match kv with (k, v) => (k, clean_nan_values v) end) d)
  | VList l => VList (map clean_nan_values l)
  | VFloat f => if is_nan f || is_inf f then VNone else VFloat f
  | _ => obj
  end.

(** A float that JSON cannot carry. *)
Definition non_finite (f : pyfloat) : Prop :=
  match f with Fin _ => False | _ => True end.

(** No NaN and no infinity anywhere in a tree. *)
Fixpoint all_finite (t : pyval) : Prop :=
  match t with
  | VFloat f => ~ non_finite f
  | VList l => fold_right (fun v acc => all_finite v /\ acc) True l
  | VDict d => fold_right (fun kv acc => all_finite (snd kv) /\ acc) True d
  | _ => True
  end.

(** [sanitised t t']: [t'] is [t] with every non-finite float replaced by
    [None]; same containers, same keys, same order, other leaves equal. *)
Inductive sanitised : pyval -> pyval -> Prop :=
| san_none : sanitised VNone VNone
| san_bool b : sanitised (VBool b) (VBool b)
| san_int z : sanitised (VInt z) (VInt z)
| san_str s : sanitised (VStr s) (VStr s)
| san_finite q : sanitised (VFloat (Fin q)) (VFloat (Fin q))
| san_non_finite f : non_finite f -> sanitised (VFloat f) VNone
| san_list l l' : Forall2 sanitised l l' -> sanitised (VList l) (VList l')
| san_dict d d' :
    Forall2 (fun kv kv' => fst kv = fst kv' /\ sanitised (snd kv) (snd kv')) d d' ->
    sanitised (VDict d) (VDict d').

(** ** Temporal analyzer ([temporal_analyzer.py]) *)

Record TemporalStats : Type := {
  t_range : pydict;
  gaps : option pydict;
  distribution : option pydict
}.

(** Timestamps and time differences are counts of nanoseconds. *)
Definition ns_per_day : Z := 86400000000000.
Definition ns_per_hour : Z := 3600000000000.
Definition ns_per_minute : Z := 60000000000.

(** [Timedelta.days]. *)
Definition days (delta : Z) : Z := (delta / ns_per_day)%Z.

Definition dt_hour (t : Z) : Z := ((t / ns_per_hour) mod 24)%Z.
Definition dt_minute (t : Z) : Z := ((t / ns_per_minute) mod 60)%Z.
(** [dt.date], as the number of the day. *)
Definition dt_date (t : Z) : Z := (t / ns_per_day)%Z.

Fixpoint insert_Z (x : Z) (l : list Z) : list Z :=
  match l with
  | [] => [x]
  | h :: t => if (x <=? h)%Z then x :: h :: t else h :: insert_Z x t
  end.

Definition sort_Z (l : list Z) : list Z := fold_right insert_Z [] l.

(** [Series.diff()[1:]]: each value minus the one before it. *)
Fixpoint diff (l : list Z) : list Z :=
  match l with
  | a :: (b :: _) as t => (b - a)%Z :: diff t
  | _ => []
  end.

Fixpoint Zsum (l : list Z) : Z :=
  match l with
  | [] => 0%Z
  | x :: t => (x + Zsum t)%Z
  end.

Definition Zmaximum (l : list Z) : Z :=
  match l with
  | [] => 0%Z
  | h :: t => fold_left Z.max t h
  end.

(** The exact mean of time differences, rounded down to the nanosecond.
    It is not what pandas computes ([Series.mean()] sums in binary64 and
    may land a few nanoseconds away); it only serves to run examples, as
    the mean of [demo_lib]. *)
Definition exact_timedelta_mean (l : list Z) : Z :=
  (Zsum l / Z.of_nat (length l))%Z.

Fixpoint insert_key {B : Type} (e : Z * B) (l : list (Z * B)) : list (Z * B) :=
  match l with
  | [] => [e]
  | h :: t => if (fst e <=? fst h)%Z then e :: h :: t else h :: insert_key e t
  end.

(** [Series.sort_index()] on integer labels. *)
Definition sort_index {B : Type} (l : list (Z * B)) : list (Z * B) :=
  fold_right insert_key [] l.

(** [timedelta_mean] is [Series.mean()] of pandas on time differences: a
    [Timedelta], in nanoseconds.  pandas adds the differences up in
    binary64, so it is a library routine here and no formula is given for
    it. *)
Definition _analyze_gaps (timedelta_mean : list Z -> Z)
    (sorted_dates : list Z) : pydict :=
  if (length sorted_dates <? 2)%nat then
    [(KStr "count", VInt 0); (KStr "max_gap_days", VInt 0)]
  else
    let diffs := diff sorted_dates in
    let gaps := filter (fun d => (ns_per_day <? d)%Z) diffs in
    if (length gaps =? 0)%nat then
      [(KStr "count", VInt 0); (KStr "max_gap_days", VInt 0)]
    else
      let max_gap := Zmaximum gaps in
      [(KStr "count", Vnat (length gaps));
       (KStr "max_gap_days", VInt (days max_gap));
       (KStr "avg_gap_days",
        if (0 <? length gaps)%nat then VInt (days (timedelta_mean gaps))
        else VInt 0)].

Section Temporal.

(** Cells of the analysed column. *)
Context {C : Type}.
(** [pd.to_datetime(series, errors="coerce")]: a timestamp or NaT for
    every cell. *)
Variable to_datetime : list (option C) -> list (option Z).
(** [Timestamp.isoformat()] and [str] of a date. *)
Variable isoformat : Z -> string.
Variable date_str : Z -> string.
(** [Series.mean()] of time differences. *)
Variable timedelta_mean : list Z -> Z.

Definition _analyze_distribution (dates : list Z) : pydict :=
  let has_time :=
    existsb (fun t => negb (dt_hour t =? 0)%Z) dates
    || existsb (fun t => negb (dt_minute t =? 0)%Z) dates in
  if has_time then
    let hourly := sort_index (value_counts Z.eq_dec (map dt_hour dates)) in
    [(KStr "type", VStr "hourly");
     (KStr "data", VDict (map (fun hc => (KInt (fst hc), Vnat (snd hc))) hourly))]
  else
    let daily := sort_index (value_counts Z.eq_dec (map dt_date dates)) in
    [(KStr "type", VStr "daily");
     (KStr "data",
      VDict (map (fun dc => (KStr (date_str (fst dc)), Vnat (snd dc)))
                 (head 100 daily)))].

Definition _empty_temporal_stats : TemporalStats :=
  {| t_range := [(KStr "start", VNone); (KStr "end", VNone); (KStr "days", VInt 0)];
     gaps := None;
     distribution := None |}.

Definition analyze_temporal_field (series : list (option C)) : TemporalStats :=
  let clean_data := values (dropna (to_datetime series)) in
  if (length clean_data =? 0)%nat then _empty_temporal_stats
  else
    let sorted_dates := sort_Z clean_data in
    let start_date := nth 0 sorted_dates 0%Z in
    let end_date := last sorted_dates 0%Z in
    let time_range :=
      [(KStr "start", VStr (isoformat start_date));
       (KStr "end", VStr (isoformat end_date));
       (KStr "days", VInt (days (end_date - start_date)))] in
    {| t_range := time_range;
       gaps := Some (_analyze_gaps timedelta_mean sorted_dates);
       distribution := Some (_analyze_distribution clean_data) |}.

End Temporal.


(** ** Requests, data frames and the report ([data_card.py]) *)

(** A value of a record: a number or a string; a missing or null value is
    [None]. *)
Inductive scalar : Type :=
| SNum (q : Q)
| SStr (s : string).

Definition Q_eq_dec (x y : Q) : {x = y} + {x <> y}.
Proof. decide equality; [apply Pos.eq_dec | apply Z.eq_dec]. Defined.

Definition scalar_eq_dec (x y : scalar) : {x = y} + {x <> y}.
Proof. decide equality; [apply Q_eq_dec | apply string_dec]. Defined.

Definition record : Type := list (string * option scalar).

Record AnalysisOptions : Type := {
  opt_compute_correlations : bool;
  opt_outlier_method : string;
  opt_outlier_threshold : Q;
  opt_top_n : Z;
  opt_include_distributions : bool
}.

Definition default_options : AnalysisOptions :=
  {| opt_compute_correlations := true;
     opt_outlier_method := "zscore";
     opt_outlier_threshold := 3;
     opt_top_n := 10;
     opt_include_distributions := true |}.

Record SchemaInfo : Type := {
  numeric : list string;
  categorical : list string;
  temporal : list string
}.

Record AnalysisRequest : Type := {
  req_data : list record;
  req_schema : option SchemaInfo;
  req_options : AnalysisOptions
}.

Record Anomaly : Type := {
  a_type : string;
  a_field : string;
  a_severity : string;
  a_description : string;
  a_affected_records : list nat;
  a_details : pydict
}.

Record ChartData : Type := {
  c_type : string;
  c_field : string;
  c_data : pydict
}.

Record DataCard : Type := {
  summary : pydict;
  numeric_stats : list (string * NumericStats);
  categorical_stats : list (string * CategoricalStats);
  temporal_stats : list (string * TemporalStats);
  correlations : pydict;
  anomalies : list Anomaly;
  chart_data : list ChartData
}.

(** A call either returns or raises. *)
Inductive result (A : Type) : Type :=
| Ok (a : A)
| Raise.
Arguments Ok {A} a.
Arguments Raise {A}.

Definition bind {A B : Type} (r : result A) (k : A -> result B) : result B :=
  match r with
  | Ok a => k a
  | Raise => Raise
  end.

Notation "x <- r ;; k" := (bind r (fun x => k))
  (at level 61, r at next level, right associativity).

(** Dictionaries with string keys. *)
Fixpoint dict_get {B : Type} (k : string) (d : list (string * B)) : option B :=
  match d with
  | [] => None
  | (k', v) :: rest => if String.eqb k k' then Some v else dict_get k rest
  end.

(** [d[k] = v]: a known key keeps its place, a new key goes last. *)
Fixpoint dict_set {B : Type} (k : string) (v : B) (d : list (string * B))
  : list (string * B) :=
  match d with
  | [] => [(k, v)]
  | (k', v') :: rest =>
      if String.eqb k k' then (k, v) :: rest else (k', v') :: dict_set k v rest
  end.

Definition mem (k : string) (l : list string) : bool := existsb (String.eqb k) l.

(** A data frame: the number of rows and the columns in order. *)
Record DataFrame : Type := {
  df_len : nat;
  df_data : list (string * list (option scalar))
}.

Definition columns (df : DataFrame) : list string := map fst (df_data df).

(** Keys of the records in order of first appearance. *)
Definition all_keys (data : list record) : list string :=
  fold_left
    (fun seen r =>
       fold_left (fun seen k => if mem k seen then seen else seen ++ [k])
                 (map fst r) seen)
    data [].

(** A cell as the frame stores it: numbers as canonical values. *)
Definition cell_of (v : option (option scalar)) : option scalar :=
  match v with
  | Some (Some (SNum q)) => Some (SNum (Qred q))
  | Some (Some (SStr s)) => Some (SStr s)
  | _ => None
  end.

(** [pd.DataFrame(data)] for a list of records. *)
Definition pd_DataFrame (data : list record) : DataFrame :=
  {| df_len := length data;
     df_data :=
       map (fun k => (k, map (fun r => cell_of (dict_get k r)) data))
           (all_keys data) |}.

(** [df.empty]: no row or no column. *)
Definition df_empty (df : DataFrame) : bool :=
  (df_len df =? 0)%nat || (length (columns df) =? 0)%nat.

Definition is_str (c : option scalar) : bool :=
  match c with Some (SStr _) => true | _ => false end.

Definition is_num (c : option scalar) : bool :=
  match c with Some (SNum _) => true | _ => false end.

(** The column holds floats (NaN for missing cells); otherwise it holds
    Python objects.  This reads the dtype off the cells, and is the dtype
    pandas infers on the columns of a [plain_frame] (below); elsewhere
    pandas decides on more than the cells kept here. *)
Definition is_numeric_dtype (col : list (option scalar)) : bool :=
  existsb is_num col && negb (existsb is_str col).

(** A number that fits a signed 64-bit integer. *)
Definition int64_number (c : option scalar) : bool :=
  match c with
  | Some (SNum q) =>
      Qle_bool (inject_Z (- 9223372036854775808)) q
      && Qle_bool q (inject_Z 9223372036854775807)
  | _ => true
  end.

(** Frames on which the cells decide the dtype: every column holds at
    least one value, and every number fits a signed 64-bit integer.  (A
    column without any value is float64 for pandas as soon as one record
    lacks the key, and a column with an integer beyond 64 bits is a column
    of objects.) *)
Definition plain_column (col : list (option scalar)) : bool :=
  (1 <=? non_missing col)%nat && forallb int64_number col.

Definition plain_frame (df : DataFrame) : bool :=
  forallb (fun c => plain_column (snd c)) (df_data df).

(** The numbers of a column; arithmetic on a column that holds a string
    raises. *)
Definition as_numbers (col : list (option scalar)) : result (list (option Q)) :=
  if existsb is_str col then Raise
  else Ok (map (fun c => match c with Some (SNum q) => Some q | _ => None end) col).

(** The libraries behind the service. *)
Record PyLib : Type := {
  (** [sqrt] of the numeric library *)
  np_sqrt : Q -> Q;
  (** [pd.to_datetime(series, errors="coerce")] *)
  pd_to_datetime : list (option scalar) -> list (option Z);
  (** whether [pd.to_datetime(sample)] returns rather than raises *)
  pd_to_datetime_ok : list scalar -> bool;
  (** [Timestamp.isoformat()], [str(date)] *)
  ts_isoformat : Z -> string;
  date_to_str : Z -> string;
  (** [Series.mean()] of time differences, in nanoseconds *)
  pd_timedelta_mean : list Z -> Z;
  (** an entry of [DataFrame.corr(method="pearson")]: Pearson's r of two
      columns, a number in [-1, 1] or NaN ([None]) *)
  pd_corr : list (option scalar) -> list (option scalar) -> option Q;
  (** [np.histogram(data, bins)]: counts and bin edges, or an exception *)
  np_histogram : list scalar -> nat -> result (list Z * list Q);
  (** [str] of a float and of an int, and the format [.3f] *)
  str_float : Q -> string;
  str_int : Z -> string;
  format_3f : Q -> string
}.


(** ** Correlations ([StatisticalAnalyzer.compute_correlations]) *)

Record Significant : Type := {
  field1 : string;
  field2 : string;
  r : Q;
  strength : string
}.

Record Correlations : Type := {
  pearson : list (string * Q);
  significant : list Significant
}.

Definition no_correlations : Correlations := {| pearson := []; significant := [] |}.

(** [enumerate(l)]. *)
Definition enumerate {A : Type} (l : list A) : list (nat * A) :=
  combine (seq 0 (length l)) l.

Section Correlation.

(** Pearson's r of two columns as [DataFrame.corr] computes it. *)
Variable corr : list (option scalar) -> list (option scalar) -> option Q.

(** [df[fields]]: a missing label raises. *)
Fixpoint select_columns (df : DataFrame) (fields : list string)
  : result (list (string * list (option scalar))) :=
  match fields with
  | [] => Ok []
  | f :: rest =>
      match dict_get f (df_data df) with
      | None => Raise
      | Some col =>
          cols <- select_columns df rest ;;
          Ok ((f, col) :: cols)
      end
  end.

(** [corr_matrix.loc[col1, col2]] used as a scalar: a label that names
    two columns gives a table, whose truth value raises. *)
Definition corr_entry (numeric_df : list (string * list (option scalar)))
           (col1 col2 : string * list (option scalar)) : result (option Q) :=
  let labels := map fst numeric_df in
  if ((1 <? count_occ string_dec labels (fst col1))
      || (1 <? count_occ string_dec labels (fst col2)))%nat
  then Raise
  else Ok (corr (snd col1) (snd col2)).

(** The body of the two nested loops for one pair of positions. *)
Definition correlation_step
           (numeric_df : list (string * list (option scalar)))
           (state : result Correlations)
           (ij : (nat * (string * list (option scalar)))
                 * (nat * (string * list (option scalar))))
  : result Correlations :=
  st <- state ;;
  let '((i, col1), (j, col2)) := ij in
  if (i <? j)%nat then
    r_value <- corr_entry numeric_df col1 col2 ;;
    match r_value with
    | None => Ok st
    | Some rv =>
        let key := (fst col1 ++ "_" ++ fst col2)%string in
        let pearson' := dict_set key rv (pearson st) in
        if Qlt_bool (7 # 10) (Qabs rv) then
          Ok {| pearson := pearson';
                significant :=
                  significant st ++
                    [{| field1 := fst col1;
                        field2 := fst col2;
                        r := rv;
                        strength := if Qlt_bool (9 # 10) (Qabs rv)
                                    then "strong" else "moderate" |}] |}
        else Ok {| pearson := pearson'; significant := significant st |}
    end
  else Ok st.

Definition compute_correlations (df : DataFrame) (numeric_fields : list string)
  : result Correlations :=
  if (length numeric_fields <? 2)%nat then Ok no_correlations
  else
    selected <- select_columns df numeric_fields ;;
    let numeric_df := filter (fun c => is_numeric_dtype (snd c)) selected in
    if (length numeric_df <? 2)%nat then Ok no_correlations
    else
      fold_left (correlation_step numeric_df)
                (list_prod (enumerate numeric_df) (enumerate numeric_df))
                (Ok no_correlations).

End Correlation.

(** The pairs of the upper triangle: a label with each later label, in
    the order the loops visit them. *)
Fixpoint upper_pairs {A : Type} (l : list A) : list (A * A) :=
  match l with
  | [] => []
  | a :: t => map (fun b => (a, b)) t ++ upper_pairs t
  end.

(** ** Anomaly detection ([DataCardGenerator._detect_anomalies]) *)

Definition option_default {A : Type} (d : A) (o : option A) : A :=
  match o with Some a => a | None => d end.

Definition opt_val {A : Type} (f : A -> pyval) (o : option A) : pyval :=
  match o with Some a => f a | None => VNone end.

Section Anomalies.

Variable str_int : Z -> string.
Variable format_3f : Q -> string.

Definition outlier_anomaly (df_len : nat) (field : string) (stats : NumericStats)
           (outlier_count : nat) : Anomaly :=
  let severity :=
    if Qlt_bool (Qn df_len * (1 # 10)) (Qn outlier_count) then "high" else "medium" in
  {| a_type := "statistical_outlier";
     a_field := field;
     a_severity := severity;
     a_description :=
       (str_int (Z.of_nat outlier_count) ++ " outliers detected in " ++ field
        ++ " using " ++ option_default "unknown" (o_method (outliers stats))
        ++ " method")%string;
     a_affected_records :=
       firstn 100 (option_default [] (o_indices (outliers stats)));
     a_details :=
       [(KStr "method", opt_val VStr (o_method (outliers stats)));
        (KStr "threshold", opt_val Vnum (o_threshold (outliers stats)));
        (KStr "percent_of_total",
         Vnum (py_round (Qn outlier_count / Qn df_len * 100) 2))] |}.

Definition concentration_anomaly (field : string) (stats : CategoricalStats)
  : Anomaly :=
  let top_entity := List.hd_error (top_n stats) in
  {| a_type := "concentration_risk";
     a_field := field;
     a_severity :=
       if Qlt_bool (1 # 2) (concentration_risk stats) then "high" else "medium";
     a_description :=
       ("High concentration detected in " ++ field ++ " (HHI: "
        ++ format_3f (concentration_risk stats) ++ ")")%string;
     a_affected_records := [];
     a_details :=
       [(KStr "hhi", Vnum (concentration_risk stats));
        (KStr "top_entity", opt_val (fun e => VStr (te_value e)) top_entity);
        (KStr "top_entity_percent",
         match top_entity with
         | Some e => Vnum (te_percent e)
         | None => VInt 0
         end)] |}.

(** The first loop; the percentage divides by the number of rows. *)
Fixpoint outlier_anomalies (df_len : nat) (items : list (string * NumericStats))
  : result (list Anomaly) :=
  match items with
  | [] => Ok []
  | (field, stats) :: rest =>
      let outlier_count := option_default 0%nat (o_count (outliers stats)) in
      if (0 <? outlier_count)%nat then
        if (df_len =? 0)%nat then Raise
        else
          more <- outlier_anomalies df_len rest ;;
          Ok (outlier_anomaly df_len field stats outlier_count :: more)
      else outlier_anomalies df_len rest
  end.

(** The second loop. *)
Fixpoint concentration_anomalies (items : list (string * CategoricalStats))
  : list Anomaly :=
  match items with
  | [] => []
  | (field, stats) :: rest =>
      if Qlt_bool (1 # 4) (concentration_risk stats) then
        concentration_anomaly field stats :: concentration_anomalies rest
      else concentration_anomalies rest
  end.

Definition _detect_anomalies
           (df_len : nat)
           (numeric_stats : list (string * NumericStats))
           (categorical_stats : list (string * CategoricalStats))
  : result (list Anomaly) :=
  from_outliers <- outlier_anomalies df_len numeric_stats ;;
  Ok (from_outliers ++ concentration_anomalies categorical_stats).

End Anomalies.


(** ** Schema inference, summary, charts and the generator
    ([schema_inference.py], [datacard_generator.py]) *)

(** [a < b] on floats, false when either is NaN. *)
Definition flt (a b : pyfloat) : bool :=
  match a, b with
  | NaN, _ | _, NaN => false
  | NInf, (Fin _ | PInf) => true
  | Fin _, PInf => true
  | Fin x, Fin y => Qlt_bool x y
  | _, _ => false
  end.

(** Stable sort: [prec h e] says that [h] goes strictly before [e]. *)
Fixpoint insert_by {A : Type} (prec : A -> A -> bool) (e : A) (l : list A) : list A :=
  match l with
  | [] => [e]
  | h :: t => if prec h e then h :: insert_by prec e t else e :: h :: t
  end.

Definition sorted_by {A : Type} (prec : A -> A -> bool) (l : list A) : list A :=
  fold_right (insert_by prec) [] l.

Definition Zminimum (l : list Z) : Z :=
  match l with
  | [] => 0%Z
  | h :: t => fold_left Z.min t h
  end.

Section Generator.

Variable lib : PyLib.

Definition _is_temporal (series : list (option scalar)) : bool :=
  if negb (is_numeric_dtype series) then
    let sample := firstn 10 (values (dropna series)) in
    if (length sample =? 0)%nat then false
    else pd_to_datetime_ok lib sample
  else false.

Definition infer_schema (df : DataFrame) : SchemaInfo :=
  fold_left
    (fun acc c =>
       let '(col, series) := c in
       if String.prefix "_" col then acc
       else if _is_temporal series then
         {| numeric := numeric acc; categorical := categorical acc;
            temporal := temporal acc ++ [col] |}
       else if is_numeric_dtype series then
         {| numeric := numeric acc ++ [col]; categorical := categorical acc;
            temporal := temporal acc |}
       else
         {| numeric := numeric acc; categorical := categorical acc ++ [col];
            temporal := temporal acc |})
    (df_data df)
    {| numeric := []; categorical := []; temporal := [] |}.

(** [df[field].sum()]. *)
Definition column_sum (col : list (option scalar)) : result Q :=
  nums <- as_numbers col ;;
  Ok (Qsum (values (dropna nums))).

Definition _generate_summary (df : DataFrame) (schema : SchemaInfo)
  : result pydict :=
  let summary :=
    [(KStr "record_count", Vnat (df_len df));
     (KStr "field_count", Vnat (length (columns df)));
     (KStr "numeric_fields", Vnat (length (numeric schema)));
     (KStr "categorical_fields", Vnat (length (categorical schema)));
     (KStr "temporal_fields", Vnat (length (temporal schema)))] in
  summary <-
    match find (fun field => mem field (columns df) && mem field (numeric schema))
               ["amount"; "notional"; "value"] with
    | Some field =>
        match dict_get field (df_data df) with
        | Some col =>
            total <- column_sum col ;;
            Ok (summary ++ [(KStr "total_notional", Vnum total)])
        | None => Ok summary
        end
    | None => Ok summary
    end ;;
  match temporal schema with
  | first :: _ =>
      match dict_get first (df_data df) with
      | Some col =>
          let dates := values (dropna (pd_to_datetime lib col)) in
          if (0 <? length dates)%nat then
            Ok (summary ++
                [(KStr "time_range",
                  VDict [(KStr "start", VStr (ts_isoformat lib (Zminimum dates)));
                         (KStr "end", VStr (ts_isoformat lib (Zmaximum dates)))])])
          else Ok summary
      | None => Ok summary
      end
  | [] => Ok summary
  end.

Definition histogram_chart (df : DataFrame) (item : string * NumericStats)
  : list ChartData :=
  let '(field, stats) := item in
  match dict_get field (df_data df) with
  | Some col =>
      let data := values (dropna col) in
      if (0 <? length data)%nat then
        match np_histogram lib data 20 with
        | Ok (hist, bin_edges) =>
            [{| c_type := "histogram";
                c_field := field;
                c_data :=
                  [(KStr "bins", VList (map Vnum bin_edges));
                   (KStr "counts", VList (map VInt hist));
                   (KStr "mean", VFloat (mean stats));
                   (KStr "median", VFloat (median stats))] |}]
        | Raise => []
        end
      else []
  | None => []
  end.

Definition bar_chart (item : string * CategoricalStats) : list ChartData :=
  let '(field, stats) := item in
  match top_n stats with
  | [] => []
  | _ :: _ =>
      [{| c_type := "bar";
          c_field := field;
          c_data :=
            [(KStr "labels", VList (map (fun e => VStr (te_value e)) (top_n stats)));
             (KStr "values", VList (map (fun e => Vnat (te_count e)) (top_n stats)));
             (KStr "percentages",
              VList (map (fun e => Vnum (te_percent e)) (top_n stats)))] |}]
  end.

Definition _generate_chart_data
           (df : DataFrame) (schema : SchemaInfo)
           (numeric_stats : list (string * NumericStats))
           (categorical_stats : list (string * CategoricalStats))
  : list ChartData :=
  let numeric_fields_sorted :=
    sorted_by (fun h e => flt (std (snd e)) (std (snd h))) numeric_stats in
  let categorical_fields_sorted :=
    sorted_by (fun h e => (unique_count (snd h) <? unique_count (snd e))%nat)
              categorical_stats in
  flat_map (histogram_chart df) numeric_fields_sorted
  ++ flat_map bar_chart categorical_fields_sorted.

Definition _empty_data_card : DataCard :=
  {| summary := [(KStr "record_count", VInt 0)];
     numeric_stats := [];
     categorical_stats := [];
     temporal_stats := [];
     correlations := [];
     anomalies := [];
     chart_data := [] |}.

(** [str(value)] of a cell. *)
Definition str_of_scalar (v : scalar) : string :=
  match v with
  | SStr s => s
  | SNum q => str_float lib q
  end.

Definition dump_significant (s : Significant) : pyval :=
  VDict [(KStr "field1", VStr (field1 s)); (KStr "field2", VStr (field2 s));
         (KStr "r", Vnum (r s)); (KStr "strength", VStr (strength s))].

Definition dump_correlations (c : Correlations) : pydict :=
  [(KStr "pearson", VDict (map (fun kv => (KStr (fst kv), Vnum (snd kv))) (pearson c)));
   (KStr "significant", VList (map dump_significant (significant c)))].

Definition generate (request : AnalysisRequest) : result DataCard :=
  let df := pd_DataFrame (req_data request) in
  if df_empty df then Ok _empty_data_card
  else
    let options := req_options request in
    let schema :=
      match req_schema request with
      | Some s => s
      | None => infer_schema df
      end in
    summary <- _generate_summary df schema ;;
    numeric_stats <-
      fold_left
        (fun acc field =>
           stats <- acc ;;
           match dict_get field (df_data df) with
           | Some col =>
               nums <- as_numbers col ;;
               Ok (dict_set field
                     (analyze_numeric_field (np_sqrt lib) nums
                        (opt_outlier_method options)
                        (opt_outlier_threshold options))
                     stats)
           | None => Ok stats
           end)
        (numeric schema) (Ok []) ;;
    let categorical_stats :=
      fold_left
        (fun stats field =>
           match dict_get field (df_data df) with
           | Some col =>
               dict_set field
                 (analyze_categorical_field scalar_eq_dec str_of_scalar col
                    (opt_top_n options))
                 stats
           | None => stats
           end)
        (categorical schema) [] in
    let temporal_stats :=
      fold_left
        (fun stats field =>
           match dict_get field (df_data df) with
           | Some col =>
               dict_set field
                 (analyze_temporal_field (pd_to_datetime lib) (ts_isoformat lib)
                    (date_to_str lib) (pd_timedelta_mean lib) col)
                 stats
           | None => stats
           end)
        (temporal schema) [] in
    correlations <-
      (if opt_compute_correlations options && (2 <=? length (numeric schema))%nat
       then
         c <- compute_correlations (pd_corr lib) df (numeric schema) ;;
         Ok (dump_correlations c)
       else Ok []) ;;
    anomalies <-
      _detect_anomalies (str_int lib) (format_3f lib) (df_len df)
                        numeric_stats categorical_stats ;;
    let chart_data :=
      if opt_include_distributions options then
        _generate_chart_data df schema numeric_stats categorical_stats
      else [] in
    Ok {| summary := summary;
          numeric_stats := numeric_stats;
          categorical_stats := categorical_stats;
          temporal_stats := temporal_stats;
          correlations := correlations;
          anomalies := anomalies;
          chart_data := chart_data |}.

End Generator.

(** ** [DataCard.model_dump()] *)

Definition present {A : Type} (key : string) (f : A -> pyval) (o : option A)
  : pydict :=
  match o with
  | Some a => [(KStr key, f a)]
  | None => []
  end.

Definition dump_outliers (o : OutlierInfo) : pyval :=
  VDict (present "method" VStr (o_method o)
         ++ present "threshold" Vnum (o_threshold o)
         ++ present "count" Vnat (o_count o)
         ++ present "indices" (fun l => VList (map Vnat l)) (o_indices o)
         ++ present "values" (fun l => VList (map Vnum l)) (o_values o)
         ++ present "max_zscore" VFloat (o_max_zscore o)
         ++ present "bounds"
              (fun b => VDict [(KStr "lower", Vnum (fst b));
                               (KStr "upper", Vnum (snd b))])
              (o_bounds o)).

Definition dump_numeric (s : NumericStats) : pyval :=
  VDict [(KStr "count", Vnat (count s));
         (KStr "mean", VFloat (mean s));
         (KStr "median", VFloat (median s));
         (KStr "std", VFloat (std s));
         (KStr "min", VFloat (min s));
         (KStr "max", VFloat (max s));
         (KStr "q25", VFloat (q25 s));
         (KStr "q50", VFloat (q50 s));
         (KStr "q75", VFloat (q75 s));
         (KStr "skewness", opt_val VFloat (skewness s));
         (KStr "kurtosis", opt_val VFloat (kurtosis s));
         (KStr "outliers", dump_outliers (outliers s))].

Definition dump_top_entry (e : top_entry) : pyval :=
  VDict [(KStr "value", VStr (te_value e));
         (KStr "count", Vnat (te_count e));
         (KStr "percent", Vnum (te_percent e))].

Definition dump_categorical (s : CategoricalStats) : pyval :=
  VDict [(KStr "unique_count", Vnat (unique_count s));
         (KStr "top_n", VList (map dump_top_entry (top_n s)));
         (KStr "concentration_risk", Vnum (concentration_risk s));
         (KStr "rare_categories", VList (map VStr (rare_categories s)))].

Definition dump_temporal (s : TemporalStats) : pyval :=
  VDict [(KStr "range", VDict (t_range s));
         (KStr "gaps", opt_val VDict (gaps s));
         (KStr "distribution", opt_val VDict (distribution s))].

Definition dump_anomaly (a : Anomaly) : pyval :=
  VDict [(KStr "type", VStr (a_type a));
         (KStr "field", VStr (a_field a));
         (KStr "severity", VStr (a_severity a));
         (KStr "description", VStr (a_description a));
         (KStr "affected_records", VList (map Vnat (a_affected_records a)));
         (KStr "details", VDict (a_details a))].

Definition dump_chart (c : ChartData) : pyval :=
  VDict [(KStr "type", VStr (c_type c));
         (KStr "field", VStr (c_field c));
         (KStr "data", VDict (c_data c))].

Definition dump_map {B : Type} (f : B -> pyval) (d : list (string * B)) : pyval :=
  VDict (map (fun kv => (KStr (fst kv), f (snd kv))) d).

Definition model_dump (card : DataCard) : pyval :=
  VDict [(KStr "summary", VDict (summary card));
         (KStr "numeric_stats", dump_map dump_numeric (numeric_stats card));
         (KStr "categorical_stats", dump_map dump_categorical (categorical_stats card));
         (KStr "temporal_stats", dump_map dump_temporal (temporal_stats card));
         (KStr "correlations", VDict (correlations card));
         (KStr "anomalies", VList (map dump_anomaly (anomalies card)));
         (KStr "chart_data", VList (map dump_chart (chart_data card)))].


(** A stand-in for the libraries, to evaluate the model on examples:
    numbers read as nanosecond timestamps, no string a date, time
    differences averaged exactly, no correlation defined, no histogram. *)
Definition demo_lib : PyLib :=
  {| np_sqrt := Qsqrt_approx;
     pd_to_datetime :=
       map (fun c => match c with Some (SNum q) => Some (Qfloor q) | _ => None end);
     pd_to_datetime_ok := fun _ => false;
     ts_isoformat := fun _ => "";
     date_to_str := fun _ => "";
     pd_timedelta_mean := exact_timedelta_mean;
     pd_corr := fun _ _ => None;
     np_histogram := fun _ _ => Raise;
     str_float := fun _ => "";
     str_int := fun _ => "";
     format_3f := fun _ => "" |}.

(** What identifies an anomaly in the rules: type, field and severity. *)
Definition anomaly_key (a : Anomaly) : string * string * string :=
  (a_type a, a_field a, a_severity a).

Definition outlier_count_of (stats : NumericStats) : nat :=
  option_default 0%nat (o_count (outliers stats)).


(** [df[field]] for a label of the frame. *)
Definition column (df : DataFrame) (field : string) : list (option scalar) :=
  option_default [] (dict_get field (df_data df)).

(** [enumerate] from a first position. *)
Definition enum_from {A : Type} (k : nat) (l : list A) : list (nat * A) :=
  combine (seq k (length l)) l.

(** The test [i < j] of the loops on a pair of enumerated columns. *)
Definition above_diagonal {A : Type} (ij : (nat * A) * (nat * A)) : bool :=
  (fst (fst ij) <? fst (snd ij))%nat.

(** What one pair with a defined coefficient adds to the result. *)
Definition emit (a b : string) (rv : Q) (st : Correlations) : Correlations :=
  {| pearson := dict_set (a ++ "_" ++ b)%string rv (pearson st);
     significant :=
       if Qlt_bool (7 # 10) (Qabs rv) then
         significant st ++
           [{| field1 := a; field2 := b; r := rv;
               strength := if Qlt_bool (9 # 10) (Qabs rv)
                           then "strong" else "moderate" |}]
       else significant st |}.


(** The loop body on a pair of labelled columns whose coefficient is read
    without an exception. *)
Definition visit (corr : list (option scalar) -> list (option scalar) -> option Q)
           (st : Correlations)
           (p : (string * list (option scalar)) * (string * list (option scalar)))
  : Correlations :=
  match corr (snd (fst p)) (snd (snd p)) with
  | Some rv => emit (fst (fst p)) (fst (snd p)) rv st
  | None => st
  end.


(** A column with its label. *)
Definition labelled : Type := (string * list (option scalar))%type.

(** [visit] in terms of labels, [rho a b] being the coefficient of the
    columns labelled [a] and [b]. *)
Definition visit_labels (rho : string -> string -> option Q)
           (st : Correlations) (ab : string * string) : Correlations :=
  match rho (fst ab) (snd ab) with
  | Some rv => emit (fst ab) (snd ab) rv st
  | None => st
  end.

(** The class [infer_schema] gives a column: skipped, temporal, numeric or
    categorical, tried in this order. *)
Inductive field_class : Type :=
| Skipped
| IsTemporal
| IsNumeric
| IsCategorical.

Definition field_class_eqb (a b : field_class) : bool :=
  match a, b with
  | Skipped, Skipped | IsTemporal, IsTemporal
  | IsNumeric, IsNumeric | IsCategorical, IsCategorical => true
  | _, _ => false
  end.

Definition classify (lib : PyLib) (c : string * list (option scalar)) : field_class :=
  if String.prefix "_" (fst c) then Skipped
  else if _is_temporal lib (snd c) then IsTemporal
  else if is_numeric_dtype (snd c) then IsNumeric
  else IsCategorical.

(** The columns of a class, in the order of the frame. *)
Definition fields_of (lib : PyLib) (cls : field_class)
           (cols : list (string * list (option scalar))) : list string :=
  map fst (filter (fun c => field_class_eqb (classify lib c) cls) cols).


(** ** The endpoint ([analyze_dataset] in [main.py]) *)

(** The exceptions the handler tells apart: [ValueError], the framework's
    [HTTPException], and any other [Exception]. *)
Inductive exn : Type :=
| ValueError (msg : string)
| HTTPException (status_code : nat) (detail : string)
| OtherException (msg : string).

Inductive outcome (A : Type) : Type :=
| Returned (a : A)
| Raised (e : exn).
Arguments Returned {A} a.
Arguments Raised {A} e.

Section Endpoint.

Variable lib : PyLib.
(** The exception behind a [Raise] of the generator, and [str(e)]. *)
Variable raised_by_generate : AnalysisRequest -> exn.
Variable exn_text : exn -> string.

(** The body of the [try] block. *)
Definition analyze_dataset_body (request : AnalysisRequest) : outcome pyval :=
  match req_data request with
  | [] => Raised (HTTPException 400 "Empty dataset provided")
  | _ :: _ =>
      match generate lib request with
      | Ok data_card => Returned (clean_nan_values (model_dump data_card))
      | Raise => Raised (raised_by_generate request)
      end
  end.

(** The handlers: [except ValueError], then [except Exception]. *)
Definition analyze_dataset (request : AnalysisRequest) : outcome pyval :=
  match analyze_dataset_body request with
  | Returned cleaned_data => Returned cleaned_data
  | Raised (ValueError msg) =>
      Raised (HTTPException 400 (exn_text (ValueError msg)))
  | Raised e =>
      Raised (HTTPException 500 ("Analysis failed: " ++ exn_text e)%string)
  end.

End Endpoint.

(** The value of a string key of a dictionary. *)
Fixpoint pydict_get (k : string) (d : pydict) : option pyval :=
  match d with
  | [] => None
  | (KStr k', v) :: rest => if String.eqb k k' then Some v else pydict_get k rest
  | (KInt _, _) :: rest => pydict_get k rest
  end.


(* ================================================================= *)
(** * Properties *)

(** ** Arithmetic helpers *)

Lemma Qn_nonneg (n : nat) : 0 <= Qn n.
Proof.
  unfold Qn. replace 0 with (inject_Z 0) by reflexivity.
  rewrite <- Zle_Qle. lia.
Qed.

Lemma Qn_pos (n : nat) : (0 < n)%nat -> 0 < Qn n.
Proof.
  intros H. unfold Qn. replace 0 with (inject_Z 0) by reflexivity.
  rewrite <- Zlt_Qlt. lia.
Qed.

Lemma Qn_le (a b : nat) : (a <= b)%nat -> Qn a <= Qn b.
Proof. intros H. unfold Qn. rewrite <- Zle_Qle. lia. Qed.

Lemma Qn_plus (a b : nat) : Qn (a + b) == Qn a + Qn b.
Proof. unfold Qn. rewrite Nat2Z.inj_add, inject_Z_plus. reflexivity. Qed.

Lemma Qsq (p : Q) : p ^ 2 == p * p.
Proof. simpl. reflexivity. Qed.

Lemma Qsum_app (l1 l2 : list Q) : Qsum (l1 ++ l2) == Qsum l1 + Qsum l2.
Proof.
  induction l1 as [|x l1 IH]; simpl.
  - ring.
  - rewrite IH. ring.
Qed.

Lemma Qsum_perm (l1 l2 : list Q) : Permutation l1 l2 -> Qsum l1 == Qsum l2.
Proof.
  induction 1 as [| x l l' _ IH | x y l | l l' l'' _ IH1 _ IH2]; simpl.
  - reflexivity.
  - rewrite IH. reflexivity.
  - ring.
  - rewrite IH1. exact IH2.
Qed.


(** [rint] is within one half of its argument. *)
Lemma rint_bounds (y : Q) :
  y - (1 # 2) <= inject_Z (rint y) /\ inject_Z (rint y) <= y + (1 # 2).
Proof.
  unfold rint.
  pose proof (Qfloor_le y) as Hlo.
  pose proof (Qlt_floor y) as Hhi.
  rewrite inject_Z_plus in Hhi. change (inject_Z 1) with 1 in Hhi.
  destruct (Qcompare_spec (y - inject_Z (Qfloor y)) (1 # 2)) as [E | L | G].
  - destruct (Z.even (Qfloor y)).
    + split; lra.
    + rewrite inject_Z_plus. change (inject_Z 1) with 1. split; lra.
  - split; lra.
  - rewrite inject_Z_plus. change (inject_Z 1) with 1. split; lra.
Qed.

Lemma py_round_2_upper (x : Q) : py_round x 2 <= x + (1 # 200).
Proof.
  unfold py_round.
  destruct (rint_bounds (x * inject_Z (10 ^ Z.of_nat 2))) as [_ H].
  change (inject_Z (10 ^ Z.of_nat 2)) with 100 in *.
  apply Qle_shift_div_r; [reflexivity | lra].
Qed.

Lemma py_round_2_lower (x : Q) : x - (1 # 200) <= py_round x 2.
Proof.
  unfold py_round.
  destruct (rint_bounds (x * inject_Z (10 ^ Z.of_nat 2))) as [H _].
  change (inject_Z (10 ^ Z.of_nat 2)) with 100 in *.
  apply Qle_shift_div_l; [reflexivity | lra].
Qed.

(** ** Frequency tables *)

Section CategoricalFacts.

Context {V : Type}.
Variable V_eq_dec : forall x y : V, {x = y} + {x <> y}.

Lemma bump_fst_in (v u : V) acc :
  In u (map fst (bump V_eq_dec v acc)) <-> u = v \/ In u (map fst acc).
Proof.
  induction acc as [|[w c] rest IH]; simpl.
  - intuition congruence.
  - destruct (V_eq_dec v w) as [->|Hne]; simpl.
    + intuition congruence.
    + rewrite IH. intuition congruence.
Qed.

Lemma bump_ok (v : V) acc : table_ok acc -> table_ok (bump V_eq_dec v acc).
Proof.
  unfold table_ok.
  induction acc as [|[w c] rest IH]; simpl; intros [Hnd Hpos].
  - split; repeat constructor; auto.
  - inversion Hnd as [|? ? Hnotin Hnd']; subst.
    inversion Hpos as [|? ? Hc Hpos']; subst.
    destruct (V_eq_dec v w) as [->|Hne]; simpl.
    + split; constructor; simpl in *; auto.
    + destruct (IH (conj Hnd' Hpos')) as [IH1 IH2].
      split; constructor; simpl; auto.
      rewrite bump_fst_in. intros [->|Hin]; [congruence | contradiction].
Qed.

Lemma bump_count (v u : V) acc :
  count_of V_eq_dec u (bump V_eq_dec v acc) =
  if V_eq_dec v u then S (count_of V_eq_dec u acc) else count_of V_eq_dec u acc.
Proof.
  induction acc as [|[w c] rest IH]; simpl.
  - destruct (V_eq_dec u v), (V_eq_dec v u); congruence.
  - destruct (V_eq_dec v w) as [->|Hvw]; simpl.
    + destruct (V_eq_dec u w) as [->|Huw].
      * destruct (V_eq_dec w w); congruence.
      * destruct (V_eq_dec w u); congruence.
    + destruct (V_eq_dec u w) as [->|Huw].
      * destruct (V_eq_dec v w); congruence.
      * exact IH.
Qed.

Lemma bump_total (v : V) acc :
  list_sum (map snd (bump V_eq_dec v acc)) = S (list_sum (map snd acc)).
Proof.
  induction acc as [|[w c] rest IH]; simpl.
  - reflexivity.
  - destruct (V_eq_dec v w); simpl; lia.
Qed.

Lemma fold_bump_ok (l : list V) acc :
  table_ok acc -> table_ok (fold_left (fun a v => bump V_eq_dec v a) l acc).
Proof.
  revert acc. induction l as [|v l IH]; simpl; intros acc H.
  - exact H.
  - apply IH, bump_ok, H.
Qed.

Lemma fold_bump_count (u : V) (l : list V) acc :
  count_of V_eq_dec u (fold_left (fun a v => bump V_eq_dec v a) l acc) =
  (count_occ V_eq_dec l u + count_of V_eq_dec u acc)%nat.
Proof.
  revert acc. induction l as [|v l IH]; simpl; intros acc.
  - reflexivity.
  - rewrite IH, bump_count. destruct (V_eq_dec v u); lia.
Qed.

Lemma fold_bump_total (l : list V) acc :
  list_sum (map snd (fold_left (fun a v => bump V_eq_dec v a) l acc)) =
  (length l + list_sum (map snd acc))%nat.
Proof.
  revert acc. induction l as [|v l IH]; simpl; intros acc.
  - reflexivity.
  - rewrite IH, bump_total. lia.
Qed.

Lemma tally_ok (l : list V) : table_ok (tally V_eq_dec l).
Proof. apply fold_bump_ok. split; constructor. Qed.

Lemma tally_count (l : list V) (u : V) :
  count_of V_eq_dec u (tally V_eq_dec l) = count_occ V_eq_dec l u.
Proof. unfold tally. rewrite fold_bump_count. simpl. lia. Qed.

Lemma tally_total (l : list V) :
  list_sum (map snd (tally V_eq_dec l)) = length l.
Proof. unfold tally. rewrite fold_bump_total. simpl. lia. Qed.

(** In a table without repeated keys, a row is found by [count_of]. *)
Lemma count_of_row (u : V) (c : nat) acc :
  NoDup (map fst acc) -> In (u, c) acc -> count_of V_eq_dec u acc = c.
Proof.
  induction acc as [|[w d] rest IH]; simpl; intros Hnd Hin.
  - contradiction.
  - inversion Hnd as [|? ? Hnotin Hnd']; subst.
    destruct Hin as [E | Hin].
    + inversion E; subst. destruct (V_eq_dec u u); congruence.
    + destruct (V_eq_dec u w) as [->|Hne].
      * exfalso. apply Hnotin. apply (in_map fst) in Hin. exact Hin.
      * apply IH; assumption.
Qed.

Lemma row_of_count (u : V) acc :
  (1 <= count_of V_eq_dec u acc)%nat -> In (u, count_of V_eq_dec u acc) acc.
Proof.
  induction acc as [|[w d] rest IH]; simpl; intros H.
  - lia.
  - destruct (V_eq_dec u w) as [->|Hne]; [left; reflexivity | right; auto].
Qed.

Lemma insert_desc_perm (e : V * nat) l : Permutation (e :: l) (insert_desc e l).
Proof.
  induction l as [|h t IH]; simpl.
  - apply Permutation_refl.
  - destruct (snd h <=? snd e)%nat.
    + apply Permutation_refl.
    + eapply perm_trans; [apply perm_swap | apply perm_skip, IH].
Qed.

Lemma sort_desc_perm (l : list (V * nat)) : Permutation l (sort_desc l).
Proof.
  induction l as [|e l IH]; simpl.
  - constructor.
  - eapply perm_trans; [apply perm_skip, IH | apply insert_desc_perm].
Qed.

Lemma value_counts_perm (l : list V) :
  Permutation (tally V_eq_dec l) (value_counts V_eq_dec l).
Proof. apply sort_desc_perm. Qed.

(** The rows of [value_counts] are exactly the distinct values, each
    with its number of occurrences. *)
Lemma value_counts_rows (l : list V) :
  Permutation (value_counts V_eq_dec l)
              (map (fun v => (v, count_occ V_eq_dec l v)) (nodup V_eq_dec l)).
Proof.
  eapply perm_trans; [apply Permutation_sym, value_counts_perm |].
  destruct (tally_ok l) as [Hnd Hpos].
  apply NoDup_Permutation.
  - eapply NoDup_map_inv. exact Hnd.
  - apply Finite.Injective_map_NoDup.
    + intros a b E. inversion E; reflexivity.
    + apply NoDup_nodup.
  - intros [u c]. rewrite in_map_iff. split.
    + intros Hin. exists u.
      pose proof (count_of_row u c _ Hnd Hin) as Hc.
      rewrite tally_count in Hc. split; [congruence |].
      apply nodup_In. apply (count_occ_In V_eq_dec).
      rewrite Forall_forall in Hpos. specialize (Hpos _ Hin). simpl in Hpos. lia.
    + intros [v [E Hin]]. inversion E; subst.
      rewrite <- tally_count. apply row_of_count.
      rewrite tally_count. apply nodup_In in Hin.
      apply (count_occ_In V_eq_dec) in Hin. lia.
Qed.

Lemma value_counts_total (l : list V) :
  list_sum (map snd (value_counts V_eq_dec l)) = length l.
Proof.
  rewrite <- (tally_total l).
  apply Permutation_list_sum, Permutation_map, Permutation_sym, value_counts_perm.
Qed.

Lemma value_counts_pos (l : list V) :
  Forall (fun e => (1 <= snd e)%nat) (value_counts V_eq_dec l).
Proof.
  eapply Permutation_Forall; [apply value_counts_perm | apply tally_ok].
Qed.

Lemma value_counts_nonempty (l : list V) :
  l <> [] -> value_counts V_eq_dec l <> [].
Proof.
  intros Hl E. pose proof (value_counts_total l) as H.
  rewrite E in H. simpl in H. destruct l; [congruence | discriminate].
Qed.

End CategoricalFacts.

(** ** Concentration risk and top-N sums *)

(** Shares of a population: each at most its count over the total. *)
Lemma squares_below_shares (N : nat) (cs : list nat) :
  (0 < N)%nat -> (forall c, In c cs -> (c <= N)%nat) ->
  Qsum (map (fun c => (Qn c / Qn N) ^ 2) cs) <= Qn (list_sum cs) / Qn N.
Proof.
  intros HN. pose proof (Qn_pos N HN) as HNq.
  induction cs as [|c cs IH];
    [change (list_sum []) with 0%nat
    | change (list_sum (c :: cs)) with (c + list_sum cs)%nat];
    cbn [map Qsum]; intros Hle.
  - unfold Qdiv. change (Qn 0) with 0. rewrite Qmult_0_l. apply Qle_refl.
  - assert (Hc : (c <= N)%nat) by (apply Hle; left; reflexivity).
    assert (IH' := IH (fun d Hd => Hle d (or_intror Hd))).
    rewrite Qn_plus, Qsq.
    assert (H0 : 0 <= Qn c / Qn N).
    { apply Qle_shift_div_l; [exact HNq |]. pose proof (Qn_nonneg c). lra. }
    assert (H1 : Qn c / Qn N <= 1).
    { apply Qle_shift_div_r; [exact HNq |]. pose proof (Qn_le c N Hc). lra. }
    assert (E : (Qn c + Qn (list_sum cs)) / Qn N ==
                Qn c / Qn N + Qn (list_sum cs) / Qn N).
    { field. lra. }
    rewrite E. nra.
Qed.

Lemma squares_positive (N : nat) (cs : list nat) :
  (0 < N)%nat -> cs <> [] -> Forall (fun c => (1 <= c)%nat) cs ->
  0 < Qsum (map (fun c => (Qn c / Qn N) ^ 2) cs).
Proof.
  intros HN Hne Hpos. pose proof (Qn_pos N HN) as HNq.
  assert (Hterm : forall c, (1 <= c)%nat -> 0 < (Qn c / Qn N) ^ 2).
  { intros c Hc. rewrite Qsq.
    assert (0 < Qn c / Qn N).
    { apply Qlt_shift_div_l; [exact HNq |]. pose proof (Qn_pos c Hc). lra. }
    nra. }
  assert (Hge : forall ds, Forall (fun c => (1 <= c)%nat) ds ->
                           0 <= Qsum (map (fun c => (Qn c / Qn N) ^ 2) ds)).
  { induction 1 as [|d ds Hd _ IH]; cbn [map Qsum].
    - lra.
    - pose proof (Hterm d Hd). lra. }
  destruct cs as [|c cs]; [congruence |].
  inversion Hpos as [|? ? Hc Hcs]; subst.
  pose proof (Hterm c Hc). pose proof (Hge cs Hcs).
  cbn [map Qsum]. lra.
Qed.

Lemma member_le_list_sum (c : nat) (cs : list nat) :
  In c cs -> (c <= list_sum cs)%nat.
Proof.
  induction cs as [|d cs IH]; simpl; intros H.
  - contradiction.
  - destruct H as [->|H]; [lia | specialize (IH H); lia].
Qed.

Lemma list_sum_firstn (k : nat) (cs : list nat) :
  (list_sum (firstn k cs) <= list_sum cs)%nat.
Proof.
  revert k. induction cs as [|c cs IH]; intros [|k]; simpl; try lia.
  specialize (IH k). lia.
Qed.

Lemma head_counts_le {A : Type} (f : A -> nat) (n : Z) (l : list A) :
  (list_sum (map f (head n l)) <= list_sum (map f l))%nat.
Proof.
  unfold head. destruct (0 <=? n)%Z; rewrite <- firstn_map; apply list_sum_firstn.
Qed.

Section CategoricalClaims.

Context {V : Type}.
Variable V_eq_dec : forall x y : V, {x = y} + {x <> y}.
Variable py_str : V -> string.

Lemma hhi_as_counts (N : nat) (vc : list (V * nat)) :
  map (fun p => p ^ 2) (map (fun e : V * nat => Qn (snd e) / Qn N) vc) =
  map (fun c => (Qn c / Qn N) ^ 2) (map snd vc).
Proof. rewrite !map_map. reflexivity. Qed.

(** What [analyze_categorical_field] returns on a non-empty population. *)
Lemma analyze_categorical_nonempty (series : list (option V)) (n : Z) v l :
  values (dropna series) = v :: l ->
  concentration_risk (analyze_categorical_field V_eq_dec py_str series n) =
  Qsum (map (fun c => (Qn c / Qn (length (v :: l))) ^ 2)
            (map snd (value_counts V_eq_dec (v :: l)))).
Proof.
  intros E. unfold analyze_categorical_field. rewrite E.
  cbn [length Nat.eqb concentration_risk]. rewrite hhi_as_counts. reflexivity.
Qed.

(** C1 (amended).  On a field with at least one non-missing value the
    concentration risk is in (0, 1] and is the sum of the squared shares
    of all distinct non-missing values (the top-N cut plays no part); on
    a field with no non-missing value it is the sentinel 0. *)
Theorem concentration_risk_range_and_sum (series : list (option V)) (n : Z) :
  let cr := concentration_risk (analyze_categorical_field V_eq_dec py_str series n) in
  match values (dropna series) with
  | [] => cr == 0
  | v :: l =>
      0 < cr /\ cr <= 1 /\ cr == sum_squared_proportions V_eq_dec (v :: l)
  end.
Proof.
  intros cr. subst cr.
  destruct (values (dropna series)) as [|v l] eqn:E.
  - unfold analyze_categorical_field. rewrite E. reflexivity.
  - rewrite (analyze_categorical_nonempty series n v l E).
    set (pop := v :: l).
    assert (HN : (0 < length pop)%nat) by (subst pop; simpl; lia).
    pose proof (value_counts_total V_eq_dec pop) as Htot.
    split; [| split].
    + apply squares_positive.
      * exact HN.
      * intros Hnil. apply map_eq_nil in Hnil.
        revert Hnil. apply value_counts_nonempty. subst pop. discriminate.
      * rewrite Forall_map. apply value_counts_pos.
    + eapply Qle_trans.
      * apply squares_below_shares; [exact HN |].
        intros c Hc. rewrite <- Htot. apply member_le_list_sum, Hc.
      * rewrite Htot. apply Qle_shift_div_r; [apply Qn_pos, HN | lra].
    + unfold sum_squared_proportions, proportion.
      rewrite (Qsum_perm _ (map (fun c => (Qn c / Qn (length pop)) ^ 2)
         (map snd (map (fun v0 => (v0, count_occ V_eq_dec pop v0))
                       (nodup V_eq_dec pop))))).
      * rewrite !map_map. simpl. reflexivity.
      * apply Permutation_map, Permutation_map, value_counts_rows.
Qed.

Lemma top_percent_sum (N : nat) (rows : list (V * nat)) :
  (0 < N)%nat ->
  Qsum (map te_percent (map (top_category py_str N) rows)) <=
  Qn (list_sum (map snd rows)) / Qn N * 100 + Qn (length rows) * (1 # 200).
Proof.
  intros HN. pose proof (Qn_pos N HN) as HNq.
  induction rows as [|[v c] rows IH].
  - simpl. change (Qn 0) with 0. unfold Qdiv. rewrite !Qmult_0_l. apply Qle_refl.
  - change (list_sum (map snd ((v, c) :: rows)))
      with (c + list_sum (map snd rows))%nat.
    cbn [map Qsum te_percent top_category fst snd length].
    pose proof (py_round_2_upper (Qn c / Qn N * 100)) as Hr.
    change (S (length rows)) with (1 + length rows)%nat.
    rewrite !Qn_plus. change (Qn 1) with 1.
    assert (E : (Qn c + Qn (list_sum (map snd rows))) / Qn N ==
                Qn c / Qn N + Qn (list_sum (map snd rows)) / Qn N).
    { field. lra. }
    rewrite E. lra.
Qed.

(** C4 (amended).  The top-N counts add up to at most the number of
    non-missing values, and the top-N percentages, each rounded to two
    decimals, add up to at most 100 plus 0.005 for every listed entry. *)
Theorem top_n_sums_bounded (series : list (option V)) (n : Z) :
  let st := analyze_categorical_field V_eq_dec py_str series n in
  Qsum (map te_percent (top_n st)) <= 100 + Qn (length (top_n st)) * (1 # 200)
  /\ (list_sum (map te_count (top_n st)) <= length (values (dropna series)))%nat.
Proof.
  intros st. subst st. unfold analyze_categorical_field.
  destruct (values (dropna series)) as [|v l] eqn:E.
  - simpl. split; [unfold Qle; simpl; lia | lia].
  - set (pop := v :: l).
    assert (HN : (0 < length pop)%nat) by (subst pop; simpl; lia).
    replace (length pop =? 0)%nat with false
      by (symmetry; apply Nat.eqb_neq; lia).
    cbn [top_n].
    pose proof (value_counts_total V_eq_dec pop) as Htot.
    pose proof (head_counts_le snd n (value_counts V_eq_dec pop)) as Hhead.
    rewrite Htot in Hhead.
    split.
    + eapply Qle_trans; [apply top_percent_sum; exact HN |].
      rewrite length_map.
      assert (Qn (list_sum (map snd (head n (value_counts V_eq_dec pop))))
              / Qn (length pop) <= 1).
      { apply Qle_shift_div_r; [apply Qn_pos, HN |].
        pose proof (Qn_le _ _ Hhead). lra. }
      lra.
    + rewrite map_map. cbn [te_count top_category]. exact Hhead.
Qed.

End CategoricalClaims.

(** Nine values out of ten alike: 0.9^2 + 0.1^2 = 0.82. *)
Example concentration_example :
  concentration_risk
    (analyze_categorical_field string_dec (fun s => s)
       [Some "A"; Some "A"; Some "A"; Some "A"; Some "A";
        Some "A"; Some "A"; Some "A"; Some "A"; Some "B"] 10) == 82 # 100.
Proof. vm_compute. reflexivity. Qed.

(** C1, as stated, fails on a field without values: the sentinel's risk is
    0, outside (0, 1]. *)
Lemma concentration_risk_empty_not_positive :
  ~ (0 < concentration_risk
           (analyze_categorical_field string_dec (fun s => s) [None; None] 10)).
Proof. vm_compute. discriminate. Qed.

(** C4, as stated, fails on six values seen once each: every share is
    16.666...%, reported as 16.67, and the six reports add up to 100.02. *)
Lemma top_n_percent_sum_exceeds_100 :
  let series := [Some "a"; Some "b"; Some "c"; Some "d"; Some "e"; Some "f"]%string in
  let st := analyze_categorical_field string_dec (fun s => s) series 10 in
  values (dropna series) <> [] /\
  map te_percent (top_n st) = [16.67; 16.67; 16.67; 16.67; 16.67; 16.67] /\
  ~ (Qsum (map te_percent (top_n st)) <= 100).
Proof.
  split; [discriminate |]. split; [vm_compute; reflexivity |].
  vm_compute. intros H. apply H. reflexivity.
Qed.

(** ** Order statistics *)

Lemma Qle_bool_false (x y : Q) : Qle_bool x y = false -> y <= x.
Proof.
  intros H. destruct (Qlt_le_dec x y) as [L | G]; [| exact G].
  apply Qlt_le_weak in L. apply Qle_bool_iff in L. congruence.
Qed.

Lemma insert_asc_In (x y : Q) (l : list Q) :
  In y (insert_asc x l) <-> y = x \/ In y l.
Proof.
  induction l as [|h t IH]; simpl.
  - intuition.
  - destruct (Qle_bool x h); simpl; [intuition | rewrite IH; intuition].
Qed.

Lemma insert_asc_sorted (x : Q) (l : list Q) :
  StronglySorted Qle l -> StronglySorted Qle (insert_asc x l).
Proof.
  induction 1 as [|h t Hs IH Hall]; simpl.
  - repeat constructor.
  - destruct (Qle_bool x h) eqn:E.
    + apply Qle_bool_iff in E. constructor.
      * constructor; assumption.
      * constructor; [exact E |].
        rewrite Forall_forall in *. intros z Hz.
        eapply Qle_trans; [exact E | apply Hall, Hz].
    + apply Qle_bool_false in E. constructor; [exact IH |].
      rewrite Forall_forall in *. intros z Hz.
      apply insert_asc_In in Hz. destruct Hz as [-> | Hz]; auto.
Qed.


Lemma sort_values_sorted (l : list Q) : StronglySorted Qle (sort_values l).
Proof.
  induction l as [|x l IH]; simpl.
  - constructor.
  - apply insert_asc_sorted, IH.
Qed.



(** In a sorted list the order statistics grow with their rank. *)
Lemma sorted_nth_le (s : list Q) :
  StronglySorted Qle s ->
  forall i j, (i <= j)%nat -> (j < length s)%nat -> nth i s 0 <= nth j s 0.
Proof.
  induction 1 as [|h t Hs IH Hall]; intros i j Hij Hj; simpl in Hj.
  - lia.
  - destruct i as [|i], j as [|j]; simpl; try lia.
    + apply Qle_refl.
    + rewrite Forall_forall in Hall. apply Hall, nth_In. lia.
    + apply IH; lia.
Qed.


Lemma Qfloor_le_ceiling (x : Q) : (Qfloor x <= Qceiling x)%Z.
Proof.
  pose proof (Qfloor_le x) as H1. pose proof (Qle_ceiling x) as H2.
  assert (H : inject_Z (Qfloor x) <= inject_Z (Qceiling x))
    by (eapply Qle_trans; eassumption).
  rewrite <- Zle_Qle in H. exact H.
Qed.

Lemma Qfloor_nonneg (x : Q) : 0 <= x -> (0 <= Qfloor x)%Z.
Proof. intros H. apply (Qfloor_resp_le 0 x) in H. exact H. Qed.

Lemma Qceiling_le_rank (x : Q) (n : nat) : x <= Qn n -> (Qceiling x <= Z.of_nat n)%Z.
Proof.
  intros H. apply Qceiling_resp_le in H. unfold Qn in H.
  rewrite Qceiling_Z in H. exact H.
Qed.

Section Interpolation.

Variable s : list Q.
Hypothesis s_sorted : StronglySorted Qle s.
Hypothesis s_nonempty : (1 <= length s)%nat.

Lemma ranks_in_range (pos : Q) :
  0 <= pos -> pos <= Qn (length s - 1) ->
  (Z.to_nat (Qfloor pos) <= Z.to_nat (Qceiling pos))%nat /\
  (Z.to_nat (Qceiling pos) < length s)%nat.
Proof.
  intros H0 H1. pose proof (Qfloor_nonneg pos H0).
  pose proof (Qfloor_le_ceiling pos).
  pose proof (Qceiling_le_rank pos _ H1). lia.
Qed.

Lemma interpolate_bounds (pos : Q) :
  0 <= pos -> pos <= Qn (length s - 1) ->
  nth (Z.to_nat (Qfloor pos)) s 0 <= interpolate s pos /\
  interpolate s pos <= nth (Z.to_nat (Qceiling pos)) s 0.
Proof.
  intros H0 H1. destruct (ranks_in_range pos H0 H1) as [Hlh Hh].
  pose proof (sorted_nth_le s s_sorted _ _ Hlh Hh) as Hd.
  pose proof (Qfloor_le pos) as Hf. pose proof (Qlt_floor pos) as Hf'.
  rewrite inject_Z_plus in Hf'. change (inject_Z 1) with 1 in Hf'.
  unfold interpolate.
  set (a := nth (Z.to_nat (Qfloor pos)) s 0) in *.
  set (b := nth (Z.to_nat (Qceiling pos)) s 0) in *.
  set (k := inject_Z (Qfloor pos)) in *.
  split; nra.
Qed.


End Interpolation.





(** ** Numeric statistics *)

Lemma dropna_from_length {A : Type} (series : list (option A)) (i : nat) :
  length (dropna_from i series) = non_missing series.
Proof.
  revert i. unfold non_missing.
  induction series as [|[x|] t IH]; intros i; simpl; auto.
Qed.

Lemma dropna_length {A : Type} (series : list (option A)) :
  length (dropna series) = non_missing series.
Proof. apply dropna_from_length. Qed.





(** C10.  With a method other than "zscore" and "iqr" the analysis of a
    non-empty series still returns: the descriptive statistics are those of
    a recognised method and [outliers] holds the method and a zero count,
    and no other key. *)
Theorem unknown_outlier_method_counts_none
        (fsqrt : Q -> Q) (series : list (option Q)) (method : string) (thr : Q) :
  method <> "zscore"%string -> method <> "iqr"%string ->
  (1 <= non_missing series)%nat ->
  let st := analyze_numeric_field fsqrt series method thr in
  outliers st =
    {| o_method := Some method; o_threshold := None; o_count := Some 0%nat;
       o_indices := None; o_values := None; o_max_zscore := None;
       o_bounds := None |} /\
  descriptive_equal st (analyze_numeric_field fsqrt series "zscore" thr) /\
  descriptive_equal st (analyze_numeric_field fsqrt series "iqr" thr).
Proof.
  intros Hz Hi Hn st. subst st. unfold analyze_numeric_field.
  rewrite <- dropna_length in Hn.
  destruct (length (dropna series) =? 0)%nat eqn:E.
  - apply Nat.eqb_eq in E. lia.
  - cbn [outliers]. unfold _detect_outliers at 1.
    apply String.eqb_neq in Hz, Hi. rewrite Hz, Hi.
    unfold descriptive_equal. cbn. repeat split; reflexivity.
Qed.

Lemma unknown_outlier_method_counts_none_witness :
  let series := [Some 10; Some 20; None; Some 30] in
  let st := analyze_numeric_field Qsqrt_approx series "mad" 3 in
  outliers st =
    {| o_method := Some "mad"%string; o_threshold := None; o_count := Some 0%nat;
       o_indices := None; o_values := None; o_max_zscore := None;
       o_bounds := None |} /\
  descriptive_equal st (analyze_numeric_field Qsqrt_approx series "zscore" 3) /\
  descriptive_equal st (analyze_numeric_field Qsqrt_approx series "iqr" 3).
Proof.
  apply (unknown_outlier_method_counts_none Qsqrt_approx
           [Some 10; Some 20; None; Some 30] "mad" 3).
  - discriminate.
  - discriminate.
  - vm_compute. lia.
Defined.

(** ** Sanitisation of result trees *)

(** Structural induction on trees, with the hypothesis available for every
    item of a list and every value of a dictionary. *)
Lemma pyval_tree_ind (P : pyval -> Prop) :
  P VNone ->
  (forall b, P (VBool b)) ->
  (forall z, P (VInt z)) ->
  (forall f, P (VFloat f)) ->
  (forall s, P (VStr s)) ->
  (forall l, Forall P l -> P (VList l)) ->
  (forall d, Forall (fun kv => P (snd kv)) d -> P (VDict d)) ->
  forall t, P t.
Proof.
  intros HN HB HI HF HS HL HD.
  fix IH 1. intros [ | b | z | f | s | l | d].
  - exact HN.
  - apply HB.
  - apply HI.
  - apply HF.
  - apply HS.
  - apply HL. induction l as [|v l IHl]; constructor; [apply IH | exact IHl].
  - apply HD. induction d as [|[k v] d IHd]; constructor; [apply IH | exact IHd].
Qed.

Lemma all_finite_list (l : list pyval) :
  all_finite (VList l) <-> Forall all_finite l.
Proof.
  simpl. induction l as [|v l IH]; simpl.
  - split; constructor.
  - rewrite IH. split.
    + intros [A B]. constructor; assumption.
    + intros H. inversion H; subst. split; assumption.
Qed.

Lemma all_finite_dict (d : pydict) :
  all_finite (VDict d) <-> Forall (fun kv => all_finite (snd kv)) d.
Proof.
  simpl. induction d as [|kv d IH]; simpl.
  - split; constructor.
  - rewrite IH. split.
    + intros [A B]. constructor; assumption.
    + intros H. inversion H; subst. split; assumption.
Qed.

Lemma clean_nan_values_sanitised (t : pyval) : sanitised t (clean_nan_values t).
Proof.
  induction t as [ | b | z | f | s | l IH | d IH] using pyval_tree_ind.
  - constructor.
  - constructor.
  - constructor.
  - destruct f; simpl; constructor; exact I.
  - constructor.
  - simpl. constructor.
    induction IH as [|v l Hv _ IHl]; simpl; constructor; assumption.
  - simpl. constructor.
    induction IH as [|[k v] d Hv _ IHd]; simpl; constructor; auto.
Qed.

Lemma clean_nan_values_finite (t : pyval) : all_finite (clean_nan_values t).
Proof.
  induction t as [ | b | z | f | s | l IH | d IH] using pyval_tree_ind;
    try exact I.
  - destruct f; simpl; auto.
  - cbn [clean_nan_values]. apply all_finite_list.
    induction IH as [|v l Hv _ IHl]; simpl; constructor; assumption.
  - cbn [clean_nan_values]. apply all_finite_dict.
    induction IH as [|[k v] d Hv _ IHd]; simpl; constructor; auto.
Qed.

(** A tree without non-finite floats is left as it is. *)
Lemma clean_nan_values_fixes_finite (t : pyval) :
  all_finite t -> clean_nan_values t = t.
Proof.
  induction t as [ | b | z | f | s | l IH | d IH] using pyval_tree_ind;
    intros Hfin; try reflexivity.
  - destruct f; simpl in *; try reflexivity; exfalso; apply Hfin; exact I.
  - apply all_finite_list in Hfin. cbn [clean_nan_values]. f_equal.
    induction IH as [|v l Hv _ IHl]; simpl; [reflexivity |].
    inversion Hfin; subst. f_equal; auto.
  - apply all_finite_dict in Hfin. cbn [clean_nan_values]. f_equal.
    induction IH as [|[k v] d Hv _ IHd]; simpl; [reflexivity |].
    inversion Hfin; subst. simpl in *. f_equal; [f_equal |]; auto.
Qed.

(** [sanitised] determines its result: it is the graph of the pass. *)
Lemma sanitised_is_clean (t : pyval) :
  forall a, sanitised t a -> a = clean_nan_values t.
Proof.
  induction t as [ | b0 | z | f | s | l IH | d IH] using pyval_tree_ind;
    intros a Ha; inversion Ha as [ | | | | | f' Hnf | l0 l' Hl | d0 d' Hd]; subst;
    try reflexivity.
  - destruct f; simpl in *; [reflexivity | reflexivity | reflexivity | contradiction].
  - cbn [clean_nan_values]. f_equal.
    revert l' Hl Ha. induction IH as [|v l Hv _ IHl]; intros l' Hl _;
      inversion Hl as [|? u ? l'' Hu Hrest]; subst; simpl; [reflexivity |].
    f_equal; [apply Hv, Hu | apply IHl; [exact Hrest | constructor; exact Hrest]].
  - cbn [clean_nan_values]. f_equal.
    revert d' Hd Ha. induction IH as [|[k v] d Hv _ IHd]; intros d' Hd _;
      inversion Hd as [|? [k' u] ? d'' [Hk Hu] Hrest]; subst; simpl; [reflexivity |].
    simpl in *. subst k'.
    f_equal; [f_equal; apply Hv, Hu | apply IHd; [exact Hrest | constructor; exact Hrest]].
Qed.

(** C9.  On any tree of dictionaries, lists and scalars the pass keeps the
    structure, replaces every non-finite float by [None] and leaves the
    other leaves as they are; its result holds no non-finite float, and so
    neither does the cleaned dump of a report. *)
Theorem clean_nan_values_sanitises (t : pyval) (card : DataCard) :
  sanitised t (clean_nan_values t) /\
  all_finite (clean_nan_values t) /\
  sanitised (model_dump card) (clean_nan_values (model_dump card)) /\
  all_finite (clean_nan_values (model_dump card)).
Proof.
  repeat split;
    first [apply clean_nan_values_sanitised | apply clean_nan_values_finite].
Qed.

(** ** The generator on an empty dataset *)

(** C6.  On an empty dataset the generator returns the minimal report,
    whatever the schema hints, the options and the libraries: no analyzer
    takes part in the result.  Its dump holds a zero record count and
    empty sections. *)
Theorem empty_dataset_minimal_card
        (lib : PyLib) (schema : option SchemaInfo) (options : AnalysisOptions) :
  let card :=
    {| summary := [(KStr "record_count", VInt 0)];
       numeric_stats := [];
       categorical_stats := [];
       temporal_stats := [];
       correlations := [];
       anomalies := [];
       chart_data := [] |} in
  generate lib {| req_data := []; req_schema := schema; req_options := options |}
    = Ok card /\
  model_dump card =
    VDict [(KStr "summary", VDict [(KStr "record_count", VInt 0)]);
           (KStr "numeric_stats", VDict []);
           (KStr "categorical_stats", VDict []);
           (KStr "temporal_stats", VDict []);
           (KStr "correlations", VDict []);
           (KStr "anomalies", VList []);
           (KStr "chart_data", VList [])].
Proof.
  intros card. split.
  - unfold generate. cbn [req_data pd_DataFrame length df_empty df_len Nat.eqb orb].
    reflexivity.
  - reflexivity.
Qed.

(** ** Anomaly rules *)

Section AnomalyFacts.

Variable str_int : Z -> string.
Variable format_3f : Q -> string.

Lemma tenth_exceeded (df_len c : nat) :
  Qlt_bool (Qn df_len * (1 # 10)) (Qn c) = (df_len <? 10 * c)%nat.
Proof.
  unfold Qlt_bool.
  destruct (df_len <? 10 * c)%nat eqn:E.
  - apply Nat.ltb_lt in E. apply negb_true_iff.
    destruct (Qle_bool (Qn c) (Qn df_len * (1 # 10))) eqn:L; [| reflexivity].
    apply Qle_bool_iff in L. exfalso.
    assert (H : Qn (10 * c) <= Qn df_len).
    { unfold Qn in *. rewrite Nat2Z.inj_mul, inject_Z_mult.
      change (inject_Z (Z.of_nat 10)) with 10. lra. }
    unfold Qn in H. rewrite <- Zle_Qle in H. lia.
  - apply Nat.ltb_ge in E. apply negb_false_iff. apply Qle_bool_iff.
    assert (H : Qn (10 * c) <= Qn df_len) by (apply Qn_le; exact E).
    unfold Qn in *. rewrite Nat2Z.inj_mul, inject_Z_mult in H.
    change (inject_Z (Z.of_nat 10)) with 10 in H. lra.
Qed.

Lemma outlier_anomalies_spec (df_len : nat) (items : list (string * NumericStats)) :
  (0 < df_len)%nat ->
  exists out,
    outlier_anomalies str_int df_len items = Ok out /\
    map anomaly_key out =
      map (fun it => ("statistical_outlier", fst it,
                      if (df_len <? 10 * outlier_count_of (snd it))%nat
                      then "high" else "medium"))
          (filter (fun it => (0 <? outlier_count_of (snd it))%nat) items) /\
    Forall (fun a => a_type a = "statistical_outlier") out.
Proof.
  intros Hlen. induction items as [|[field stats] rest IH].
  - exists []. repeat split; constructor.
  - destruct IH as [out [E [K T]]].
    cbn [outlier_anomalies filter snd fst]. fold (outlier_count_of stats).
    destruct (0 <? outlier_count_of stats)%nat.
    + replace (df_len =? 0)%nat with false by (symmetry; apply Nat.eqb_neq; lia).
      rewrite E. cbn [bind].
      eexists. split; [reflexivity |]. split.
      * cbn [map]. rewrite K. f_equal.
        unfold anomaly_key, outlier_anomaly. cbn [a_type a_field a_severity fst snd].
        rewrite tenth_exceeded. reflexivity.
      * constructor; [reflexivity | exact T].
    + exists out. auto.
Qed.

Lemma concentration_anomalies_spec (items : list (string * CategoricalStats)) :
  map anomaly_key (concentration_anomalies format_3f items) =
    map (fun it => ("concentration_risk", fst it,
                    if Qlt_le_dec (1 # 2) (concentration_risk (snd it))
                    then "high" else "medium"))
        (filter (fun it => if Qlt_le_dec (1 # 4) (concentration_risk (snd it))
                           then true else false) items) /\
  Forall (fun a => a_affected_records a = [])
         (concentration_anomalies format_3f items).
Proof.
  assert (Hlt : forall a b, Qlt_bool a b = if Qlt_le_dec a b then true else false).
  { intros a b. unfold Qlt_bool. destruct (Qlt_le_dec a b) as [L | G].
    - apply negb_true_iff. destruct (Qle_bool b a) eqn:E; [| reflexivity].
      apply Qle_bool_iff in E. lra.
    - apply negb_false_iff, Qle_bool_iff, G. }
  induction items as [|[field stats] rest [K A]].
  - split; constructor.
  - cbn [concentration_anomalies filter snd fst]. rewrite Hlt.
    destruct (Qlt_le_dec (1 # 4) (concentration_risk stats)).
    + split.
      * cbn [map]. rewrite K. f_equal.
        unfold anomaly_key, concentration_anomaly.
        cbn [a_type a_field a_severity fst snd]. rewrite Hlt.
        destruct (Qlt_le_dec (1 # 2) (concentration_risk stats)); reflexivity.
      * constructor; [reflexivity | exact A].
    + split; assumption.
Qed.

(** C7.  For a frame with rows, detection returns first one outlier
    anomaly per numeric field whose outlier count is positive, "high"
    exactly when the count is more than a tenth of the rows, then one
    concentration anomaly per categorical field whose risk is above 0.25,
    "high" exactly when it is above 0.5, each group in the order of its
    map; a concentration anomaly has no affected records. *)
Theorem anomalies_in_rule_order
        (df_len : nat)
        (numeric_stats : list (string * NumericStats))
        (categorical_stats : list (string * CategoricalStats)) :
  (0 < df_len)%nat ->
  exists found,
    _detect_anomalies str_int format_3f df_len numeric_stats categorical_stats
      = Ok found /\
    map anomaly_key found =
      map (fun it => ("statistical_outlier", fst it,
                      if (df_len <? 10 * outlier_count_of (snd it))%nat
                      then "high" else "medium"))
          (filter (fun it => (0 <? outlier_count_of (snd it))%nat) numeric_stats)
      ++
      map (fun it => ("concentration_risk", fst it,
                      if Qlt_le_dec (1 # 2) (concentration_risk (snd it))
                      then "high" else "medium"))
          (filter (fun it => if Qlt_le_dec (1 # 4) (concentration_risk (snd it))
                             then true else false) categorical_stats) /\
    Forall (fun a => a_type a = "concentration_risk" -> a_affected_records a = [])
           found.
Proof.
  intros Hlen.
  destruct (outlier_anomalies_spec df_len numeric_stats Hlen) as [out [E [K T]]].
  destruct (concentration_anomalies_spec categorical_stats) as [K' A].
  unfold _detect_anomalies. rewrite E. cbn [bind].
  eexists. split; [reflexivity |]. split.
  - rewrite map_app, K, K'. reflexivity.
  - apply Forall_app. split.
    + eapply Forall_impl; [| exact T].
      intros a Ha Hc. rewrite Ha in Hc. discriminate.
    + eapply Forall_impl; [| exact A]. intros a Ha _. exact Ha.
Qed.

End AnomalyFacts.

Lemma anomalies_in_rule_order_witness :
  let numeric_stats :=
    [("amount",
      analyze_numeric_field Qsqrt_approx
        [Some 10; Some 20; Some 30; Some 25; Some 1000] "iqr" (3 # 2))] in
  let categorical_stats :=
    [("desk",
      analyze_categorical_field string_dec (fun s => s)
        [Some "A"; Some "A"; Some "A"; Some "A"; Some "B"] 10)] in
  (0 < 5)%nat /\
  exists found,
    _detect_anomalies (fun _ => "") (fun _ => "") 5 numeric_stats categorical_stats
      = Ok found /\
    map anomaly_key found =
      map (fun it => ("statistical_outlier", fst it,
                      if (5 <? 10 * outlier_count_of (snd it))%nat
                      then "high" else "medium"))
          (filter (fun it => (0 <? outlier_count_of (snd it))%nat) numeric_stats)
      ++
      map (fun it => ("concentration_risk", fst it,
                      if Qlt_le_dec (1 # 2) (concentration_risk (snd it))
                      then "high" else "medium"))
          (filter (fun it => if Qlt_le_dec (1 # 4) (concentration_risk (snd it))
                             then true else false) categorical_stats) /\
    Forall (fun a => a_type a = "concentration_risk" -> a_affected_records a = [])
           found.
Proof.
  intros numeric_stats categorical_stats.
  split; [lia |].
  apply (anomalies_in_rule_order (fun _ => "") (fun _ => "") 5
           numeric_stats categorical_stats).
  lia.
Defined.

(** The anomalies of the example: one outlier among five rows is "high",
    a 80%/20% split is "high" as well. *)
Example anomalies_example :
  option_map (map anomaly_key)
    (match _detect_anomalies (fun _ => "") (fun _ => "") 5
             [("amount",
               analyze_numeric_field Qsqrt_approx
                 [Some 10; Some 20; Some 30; Some 25; Some 1000] "iqr" (3 # 2))]
             [("desk",
               analyze_categorical_field string_dec (fun s => s)
                 [Some "A"; Some "A"; Some "A"; Some "A"; Some "B"] 10)]
     with Ok l => Some l | Raise => None end) =
  Some [("statistical_outlier", "amount", "high");
        ("concentration_risk", "desk", "high")].
Proof. vm_compute. reflexivity. Qed.

(** ** Gaps between timestamps *)

Lemma insert_Z_perm (x : Z) (l : list Z) : Permutation (x :: l) (insert_Z x l).
Proof.
  induction l as [|h t IH]; simpl.
  - apply Permutation_refl.
  - destruct (x <=? h)%Z.
    + apply Permutation_refl.
    + eapply perm_trans; [apply perm_swap | apply perm_skip, IH].
Qed.

Lemma sort_Z_perm (l : list Z) : Permutation l (sort_Z l).
Proof.
  induction l as [|x l IH]; simpl.
  - constructor.
  - eapply perm_trans; [apply perm_skip, IH | apply insert_Z_perm].
Qed.

Lemma insert_Z_sorted (x : Z) (l : list Z) :
  StronglySorted Z.le l -> StronglySorted Z.le (insert_Z x l).
Proof.
  induction 1 as [|h t Hs IH Hall]; simpl.
  - repeat constructor.
  - destruct (x <=? h)%Z eqn:E.
    + apply Z.leb_le in E. constructor.
      * constructor; assumption.
      * constructor; [exact E |].
        eapply Forall_impl; [| exact Hall]. intros z Hz. simpl in Hz. lia.
    + apply Z.leb_gt in E. constructor; [exact IH |].
      rewrite Forall_forall in *. intros z Hz.
      eapply Permutation_in in Hz; [| apply Permutation_sym, insert_Z_perm].
      destruct Hz as [<- | Hz]; [lia | apply Hall, Hz].
Qed.

Lemma sort_Z_sorted (l : list Z) : StronglySorted Z.le (sort_Z l).
Proof.
  induction l as [|x l IH]; simpl.
  - constructor.
  - apply insert_Z_sorted, IH.
Qed.


Lemma fold_Zmax_spec (t : list Z) (h : Z) :
  In (fold_left Z.max t h) (h :: t) /\
  Forall (fun d => (d <= fold_left Z.max t h)%Z) (h :: t).
Proof.
  revert h. induction t as [|y t IH]; intros h; simpl.
  - split; [left; reflexivity | repeat constructor; lia].
  - destruct (IH (Z.max h y)) as [Hin Hall]. split.
    + destruct Hin as [E | Hin]; [| right; right; exact Hin].
      rewrite <- E.
      destruct (Z.max_spec h y) as [[_ M] | [_ M]]; rewrite M; auto.
    + inversion Hall as [|? ? Hm Hrest]; subst.
      constructor; [lia |]. constructor; [lia | exact Hrest].
Qed.

Lemma Zmaximum_spec (l : list Z) :
  l <> [] -> In (Zmaximum l) l /\ Forall (fun d => (d <= Zmaximum l)%Z) l.
Proof.
  destruct l as [|h t]; [congruence | intros _]. apply fold_Zmax_spec.
Qed.



(** The gaps of the example: midnight, one hour later, then four days
    after the start; one gap of three days and twenty-three hours, which
    is its own mean in binary64 as well. *)
Example gaps_example :
  gaps (analyze_temporal_field (fun s => s) (fun _ => "") (fun _ => "")
          exact_timedelta_mean
          [Some 345600000000000; None; Some 0; Some 3600000000000]%Z) =
  Some [(KStr "count", VInt 1); (KStr "max_gap_days", VInt 3);
        (KStr "avg_gap_days", VInt 3)].
Proof. vm_compute. reflexivity. Qed.

(** ** Pairs of the upper triangle *)

Lemma Qlt_bool_dec (a b : Q) :
  Qlt_bool a b = if Qlt_le_dec a b then true else false.
Proof.
  unfold Qlt_bool. destruct (Qlt_le_dec a b) as [L | G].
  - apply negb_true_iff. destruct (Qle_bool b a) eqn:E; [| reflexivity].
    apply Qle_bool_iff in E. lra.
  - apply negb_false_iff, Qle_bool_iff, G.
Qed.

Lemma upper_pairs_In {A : Type} (l : list A) (a b : A) :
  In (a, b) (upper_pairs l) -> In a l /\ In b l.
Proof.
  induction l as [|x t IH]; simpl; [contradiction |].
  rewrite in_app_iff, in_map_iff. intros [[y [E Hy]] | H].
  - inversion E; subst. auto.
  - destruct (IH H). auto.
Qed.

Lemma upper_pairs_NoDup {A : Type} (l : list A) :
  NoDup l -> NoDup (upper_pairs l).
Proof.
  induction 1 as [|x t Hx Hnd IH]; simpl; [constructor |].
  apply NoDup_app.
  - apply Finite.Injective_map_NoDup; [| exact Hnd].
    intros u v E. inversion E; reflexivity.
  - exact IH.
  - intros [a b] Hin Hin'. apply in_map_iff in Hin. destruct Hin as [y [E _]].
    inversion E; subst. apply upper_pairs_In in Hin'. apply Hx, Hin'.
Qed.

Lemma upper_pairs_oriented {A : Type} (l : list A) (a b : A) :
  NoDup l -> In (a, b) (upper_pairs l) -> a <> b /\ ~ In (b, a) (upper_pairs l).
Proof.
  induction 1 as [|x t Hx Hnd IH]; simpl; [contradiction |].
  rewrite !in_app_iff, !in_map_iff. intros [[y [E Hy]] | H].
  - inversion E; subst. split.
    + intros ->. contradiction.
    + intros [[z [E' Hz]] | H'].
      * inversion E'; subst. contradiction.
      * apply upper_pairs_In in H'. apply Hx, H'.
  - destruct (IH H) as [Hne Hnot]. split; [exact Hne |].
    intros [[z [E' Hz]] | H'].
    + inversion E'; subst. apply upper_pairs_In in H. apply Hx, H.
    + contradiction.
Qed.

Lemma upper_pairs_map {A B : Type} (g : A -> B) (l : list A) :
  upper_pairs (map g l) = map (fun p => (g (fst p), g (snd p))) (upper_pairs l).
Proof.
  induction l as [|x t IH]; simpl; [reflexivity |].
  rewrite map_app, !map_map, IH. reflexivity.
Qed.

Lemma upper_pairs_short {A : Type} (l : list A) :
  (length l < 2)%nat -> upper_pairs l = [].
Proof. destruct l as [|a [|b t]]; simpl; intros H; try reflexivity; lia. Qed.

Lemma enum_from_cons {A : Type} (k : nat) (x : A) (t : list A) :
  enum_from k (x :: t) = (k, x) :: enum_from (S k) t.
Proof. reflexivity. Qed.

Lemma enum_from_lower {A : Type} (l : list A) (k : nat) :
  Forall (fun p => (k <= fst p)%nat) (enum_from k l).
Proof.
  revert k. induction l as [|x t IH]; intros k.
  - constructor.
  - rewrite enum_from_cons. constructor; [simpl; lia |].
    eapply Forall_impl; [| apply IH]. intros p Hp. simpl in Hp. lia.
Qed.

Lemma enum_from_snd {A : Type} (l : list A) (k : nat) :
  map snd (enum_from k l) = l.
Proof.
  revert k. induction l as [|x t IH]; intros k; [reflexivity |].
  rewrite enum_from_cons. simpl. rewrite IH. reflexivity.
Qed.

Lemma filter_all {A : Type} (f : A -> bool) (l : list A) :
  Forall (fun x => f x = true) l -> filter f l = l.
Proof.
  induction 1 as [|x t Hx _ IH]; simpl; [reflexivity |]. rewrite Hx, IH. reflexivity.
Qed.

Lemma filter_none {A : Type} (f : A -> bool) (l : list A) :
  Forall (fun x => f x = false) l -> filter f l = [].
Proof.
  induction 1 as [|x t Hx _ IH]; simpl; [reflexivity |]. rewrite Hx, IH. reflexivity.
Qed.

(** The pairs that pass the test [i < j], in the order of the two nested
    loops, are the pairs of the upper triangle. *)
Lemma loops_visit_upper_pairs {A : Type} (l : list A) :
  forall (k : nat) (before : list (nat * A)),
    Forall (fun p => (fst p < k)%nat) before ->
    filter above_diagonal (list_prod (enum_from k l) (before ++ enum_from k l)) =
    upper_pairs (enum_from k l).
Proof.
  induction l as [|x t IH]; intros k before Hb; [reflexivity |].
  rewrite enum_from_cons. cbn [list_prod upper_pairs].
  rewrite filter_app. f_equal.
  - rewrite map_app, filter_app. cbn [map filter].
    rewrite filter_none, filter_all.
    + unfold above_diagonal. cbn [fst snd]. rewrite Nat.ltb_irrefl. reflexivity.
    + apply Forall_map. eapply Forall_impl; [| apply (enum_from_lower t (S k))].
      intros p Hp. unfold above_diagonal. cbn [fst snd] in *.
      apply Nat.ltb_lt. lia.
    + apply Forall_map. eapply Forall_impl; [| exact Hb].
      intros p Hp. unfold above_diagonal. cbn [fst snd] in *.
      apply Nat.ltb_ge. lia.
  - replace (before ++ (k, x) :: enum_from (S k) t)
      with ((before ++ [(k, x)]) ++ enum_from (S k) t)
      by (rewrite <- app_assoc; reflexivity).
    apply IH. apply Forall_app. split.
    + eapply Forall_impl; [| exact Hb]. intros p Hp. simpl in Hp. lia.
    + constructor; [simpl; lia | constructor].
Qed.

(** ** Correlation map and significant list *)

Lemma dict_get_In {B : Type} (k : string) (d : list (string * B)) :
  In k (map fst d) -> exists v, dict_get k d = Some v.
Proof.
  induction d as [|[k' v'] rest IH]; simpl; [contradiction |].
  destruct (String.eqb_spec k k') as [-> | Hne].
  - intros _. exists v'. reflexivity.
  - intros [E | H]; [congruence | apply IH, H].
Qed.

Lemma dict_set_In {B : Type} (k k' : string) (v v' : B) (d : list (string * B)) :
  In (k, v) (dict_set k' v' d) -> (k = k' /\ v = v') \/ In (k, v) d.
Proof.
  induction d as [|[k0 v0] rest IH]; simpl.
  - intros [E | []]. inversion E; auto.
  - destruct (String.eqb k' k0).
    + intros [E | H]; [inversion E; auto | auto].
    + intros [E | H]; [auto | destruct (IH H); auto].
Qed.

Lemma dict_set_keys {B : Type} (k : string) (v : B) (d : list (string * B)) :
  NoDup (map fst d) -> NoDup (map fst (dict_set k v d)).
Proof.
  assert (Hkeys : forall d0 x, In x (map fst (dict_set k v d0)) ->
                               x = k \/ In x (map fst d0)).
  { induction d0 as [|[k0 v0] rest IH0]; simpl.
    - intros x [E | []]; auto.
    - intros x. destruct (String.eqb_spec k k0) as [-> | Hne]; simpl.
      + intros [E | H]; auto.
      + intros [E | H]; [auto | destruct (IH0 x H); auto]. }
  induction d as [|[k0 v0] rest IH]; simpl; intros Hnd.
  - repeat constructor. intros [].
  - inversion Hnd as [|? ? Hnotin Hnd']; subst.
    destruct (String.eqb_spec k k0) as [-> | Hne]; simpl.
    + constructor; assumption.
    + constructor; [| apply IH, Hnd'].
      intros Hin. destruct (Hkeys _ _ Hin) as [E | H]; [congruence | contradiction].
Qed.

Section CorrelationFacts.

Variable corr : list (option scalar) -> list (option scalar) -> option Q.

Lemma fold_step_raise (ndf : list labelled) (L : list ((nat * labelled) * (nat * labelled))) :
  fold_left (correlation_step corr ndf) L Raise = Raise.
Proof. induction L as [|ij L IH]; simpl; [reflexivity | exact IH]. Qed.

(** With distinct labels no entry of the matrix raises, and the loops do
    what [visit] does on the pairs above the diagonal. *)
Lemma fold_step_visit (ndf : list labelled) :
  NoDup (map fst ndf) ->
  forall (L : list ((nat * labelled) * (nat * labelled))) (st : Correlations),
    fold_left (correlation_step corr ndf) L (Ok st) =
    Ok (fold_left (visit corr)
          (map (fun ij => (snd (fst ij), snd (snd ij))) (filter above_diagonal L))
          st).
Proof.
  intros Hnd. rewrite (NoDup_count_occ string_dec) in Hnd.
  induction L as [|[[i col1] [j col2]] L IH]; intros st; [reflexivity |].
  cbn [fold_left filter]. unfold above_diagonal at 1. cbn [fst snd].
  unfold correlation_step at 2. cbn [bind].
  destruct (i <? j)%nat.
  - unfold corr_entry.
    assert (H1 := Hnd (fst col1)). assert (H2 := Hnd (fst col2)).
    replace (1 <? count_occ string_dec (map fst ndf) (fst col1))%nat with false
      by (symmetry; apply Nat.ltb_ge; lia).
    replace (1 <? count_occ string_dec (map fst ndf) (fst col2))%nat with false
      by (symmetry; apply Nat.ltb_ge; lia).
    cbn [orb bind map fold_left]. unfold visit at 2. cbn [fst snd].
    destruct (corr (snd col1) (snd col2)) as [rv |]; [| apply IH].
    unfold emit. destruct (Qlt_bool (7 # 10) (Qabs rv)); apply IH.
  - apply IH.
Qed.

Lemma select_columns_found (df : DataFrame) (fields : list string) :
  (forall f, In f fields -> In f (columns df)) ->
  select_columns df fields = Ok (map (fun f => (f, column df f)) fields).
Proof.
  induction fields as [|f rest IH]; intros Hin; [reflexivity |].
  cbn [select_columns map].
  destruct (dict_get_In f (df_data df)) as [col E].
  { apply Hin. left. reflexivity. }
  unfold column at 1. rewrite E. cbn [option_default].
  rewrite IH by (intros g Hg; apply Hin; right; exact Hg).
  reflexivity.
Qed.

Lemma filter_labelled (df : DataFrame) (fields : list string) :
  filter (fun c : labelled => is_numeric_dtype (snd c))
         (map (fun f => (f, column df f)) fields) =
  map (fun f => (f, column df f))
      (filter (fun f => is_numeric_dtype (column df f)) fields).
Proof.
  induction fields as [|f rest IH]; simpl; [reflexivity |].
  destruct (is_numeric_dtype (column df f)); simpl; rewrite IH; reflexivity.
Qed.

Section Visits.

Variable rho : string -> string -> option Q.

Lemma visits_pearson (pairs : list (string * string)) (st : Correlations) :
  pearson (fold_left (visit_labels rho) pairs st) =
  fold_left (fun d ab =>
               match rho (fst ab) (snd ab) with
               | Some rv => dict_set (fst ab ++ "_" ++ snd ab)%string rv d
               | None => d
               end) pairs (pearson st).
Proof.
  revert st. induction pairs as [|ab pairs IH]; intros st; [reflexivity |].
  cbn [fold_left]. rewrite IH. unfold visit_labels.
  destruct (rho (fst ab) (snd ab)); reflexivity.
Qed.

Lemma visits_significant (pairs : list (string * string)) (st : Correlations) :
  significant (fold_left (visit_labels rho) pairs st) =
  significant st ++
  flat_map (fun ab =>
              match rho (fst ab) (snd ab) with
              | Some rv =>
                  if Qlt_le_dec (7 # 10) (Qabs rv) then
                    [{| field1 := fst ab; field2 := snd ab; r := rv;
                        strength := if Qlt_le_dec (9 # 10) (Qabs rv)
                                    then "strong" else "moderate" |}]
                  else []
              | None => []
              end) pairs.
Proof.
  revert st. induction pairs as [|ab pairs IH]; intros st.
  - simpl. rewrite app_nil_r. reflexivity.
  - cbn [fold_left flat_map]. rewrite IH. unfold visit_labels.
    destruct (rho (fst ab) (snd ab)) as [rv |]; [| reflexivity].
    unfold emit. cbn [significant]. rewrite !Qlt_bool_dec.
    destruct (Qlt_le_dec (7 # 10) (Qabs rv)).
    + destruct (Qlt_le_dec (9 # 10) (Qabs rv));
        rewrite <- app_assoc; reflexivity.
    + reflexivity.
Qed.

Lemma pearson_entries (pairs : list (string * string)) :
  forall (d : list (string * Q)) (k : string) (v : Q),
    In (k, v)
       (fold_left (fun d ab =>
                     match rho (fst ab) (snd ab) with
                     | Some rv => dict_set (fst ab ++ "_" ++ snd ab)%string rv d
                     | None => d
                     end) pairs d) ->
    In (k, v) d \/
    exists a b, In (a, b) pairs /\ k = (a ++ "_" ++ b)%string /\ rho a b = Some v.
Proof.
  induction pairs as [|[a b] pairs IH]; intros d k v Hin; [left; exact Hin |].
  cbn [fold_left fst snd] in Hin. apply IH in Hin.
  destruct Hin as [Hin | [a' [b' [Hp [Hk Hr]]]]].
  - destruct (rho a b) as [rv |] eqn:E; [| left; exact Hin].
    apply dict_set_In in Hin. destruct Hin as [[-> ->] | Hin]; [| left; exact Hin].
    right. exists a, b. split; [left; reflexivity | auto].
  - right. exists a', b'. split; [right; exact Hp | auto].
Qed.

Lemma pearson_keys (pairs : list (string * string)) :
  forall d : list (string * Q),
    NoDup (map fst d) ->
    NoDup (map fst
             (fold_left (fun d ab =>
                           match rho (fst ab) (snd ab) with
                           | Some rv => dict_set (fst ab ++ "_" ++ snd ab)%string rv d
                           | None => d
                           end) pairs d)).
Proof.
  induction pairs as [|ab pairs IH]; intros d Hd; [exact Hd |].
  cbn [fold_left]. apply IH.
  destruct (rho (fst ab) (snd ab)); [apply dict_set_keys, Hd | exact Hd].
Qed.

Lemma fold_visit_labels (col : string -> list (option scalar))
      (pairs : list (string * string)) (st : Correlations) :
  (forall a b, rho a b = corr (col a) (col b)) ->
  fold_left (visit corr)
            (map (fun p => ((fst p, col (fst p)), (snd p, col (snd p)))) pairs) st =
  fold_left (visit_labels rho) pairs st.
Proof.
  intros Hrho. revert st. induction pairs as [|ab pairs IH]; intros st;
    [reflexivity |].
  cbn [map fold_left]. rewrite IH. f_equal.
  unfold visit, visit_labels. cbn [fst snd]. rewrite Hrho. reflexivity.
Qed.

End Visits.

End CorrelationFacts.

Lemma dict_set_has_key {B : Type} (k : string) (v : B) (d : list (string * B)) :
  In k (map fst (dict_set k v d)).
Proof.
  induction d as [|[k0 v0] rest IH]; simpl; [left; reflexivity |].
  destruct (String.eqb k k0); simpl; auto.
Qed.

Lemma dict_set_keeps_keys {B : Type} (k k' : string) (v : B) (d : list (string * B)) :
  In k' (map fst d) -> In k' (map fst (dict_set k v d)).
Proof.
  induction d as [|[k0 v0] rest IH]; simpl; [contradiction |].
  destruct (String.eqb_spec k k0) as [-> | Hne]; simpl.
  - auto.
  - intros [E | H]; auto.
Qed.

Lemma pearson_keeps_keys (rho : string -> string -> option Q)
      (pairs : list (string * string)) :
  forall (d : list (string * Q)) (k : string),
    In k (map fst d) ->
    In k (map fst
            (fold_left (fun d ab =>
                          match rho (fst ab) (snd ab) with
                          | Some rv => dict_set (fst ab ++ "_" ++ snd ab)%string rv d
                          | None => d
                          end) pairs d)).
Proof.
  induction pairs as [|ab pairs IH]; intros d k Hk; [exact Hk |].
  cbn [fold_left]. apply IH.
  destruct (rho (fst ab) (snd ab)); [apply dict_set_keeps_keys, Hk | exact Hk].
Qed.

Lemma pearson_has_emitted (rho : string -> string -> option Q)
      (pairs : list (string * string)) :
  forall (d : list (string * Q)) (a b : string) (v : Q),
    In (a, b) pairs -> rho a b = Some v ->
    In (a ++ "_" ++ b)%string
       (map fst
          (fold_left (fun d ab =>
                        match rho (fst ab) (snd ab) with
                        | Some rv => dict_set (fst ab ++ "_" ++ snd ab)%string rv d
                        | None => d
                        end) pairs d)).
Proof.
  induction pairs as [|ab pairs IH]; intros d a b v Hin Hr; [contradiction |].
  cbn [fold_left]. destruct Hin as [-> | Hin].
  - cbn [fst snd]. rewrite Hr. apply pearson_keeps_keys, dict_set_has_key.
  - eapply IH; eassumption.
Qed.

Lemma filter_length_le {A : Type} (f : A -> bool) (l : list A) :
  (length (filter f l) <= length l)%nat.
Proof. induction l as [|x t IH]; simpl; [lia |]. destruct (f x); simpl; lia. Qed.

(** The result of [compute_correlations] when every field is a column of
    the frame and no field is listed twice. *)
Lemma compute_correlations_visits
      (corr : list (option scalar) -> list (option scalar) -> option Q)
      (df : DataFrame) (numeric_fields : list string) :
  NoDup numeric_fields ->
  (forall f, In f numeric_fields -> In f (columns df)) ->
  compute_correlations corr df numeric_fields =
  Ok (fold_left
        (fun st ab =>
           match corr (column df (fst ab)) (column df (snd ab)) with
           | Some rv => emit (fst ab) (snd ab) rv st
           | None => st
           end)
        (upper_pairs (filter (fun f => is_numeric_dtype (column df f)) numeric_fields))
        no_correlations).
Proof.
  intros Hnd Hin. unfold compute_correlations.
  set (labels := filter (fun f => is_numeric_dtype (column df f)) numeric_fields).
  assert (Hlab : (length labels <= length numeric_fields)%nat)
    by apply filter_length_le.
  destruct (length numeric_fields <? 2)%nat eqn:E.
  - apply Nat.ltb_lt in E. rewrite upper_pairs_short by lia. reflexivity.
  - rewrite (select_columns_found df numeric_fields Hin). cbn [bind].
    rewrite filter_labelled. fold labels.
    set (ndf := map (fun f => (f, column df f)) labels).
    destruct (length ndf <? 2)%nat eqn:E'.
    + apply Nat.ltb_lt in E'. subst ndf. rewrite length_map in E'.
      rewrite upper_pairs_short by lia. reflexivity.
    + rewrite fold_step_visit.
      * f_equal. unfold labelled.
        change (enumerate ndf) with (enum_from 0 ndf).
        pose proof (loops_visit_upper_pairs ndf 0 [] (Forall_nil _)) as Hloops.
        cbn [app] in Hloops. rewrite Hloops.
        rewrite <- (upper_pairs_map snd), enum_from_snd.
        subst ndf. rewrite upper_pairs_map.
        apply (fold_visit_labels corr
                 (fun a b => corr (column df a) (column df b)) (column df)).
        reflexivity.
      * subst ndf. rewrite map_map. cbn [fst]. rewrite map_id.
        apply NoDup_filter, Hnd.
Qed.

(** C8.  When every numeric field is a column of the frame and is listed
    once, the correlations are those of the pairs of the upper triangle of
    the numeric columns: each unordered pair of distinct fields is visited
    at most once and no field with itself; the map holds, under the key
    "field1_field2", the pairs with a defined coefficient and nothing else;
    the significant list holds, in order, the pairs of the map with
    |r| > 0.7, "strong" when |r| > 0.9 and "moderate" otherwise. *)
Theorem correlations_upper_triangle
        (corr : list (option scalar) -> list (option scalar) -> option Q)
        (df : DataFrame) (numeric_fields : list string) :
  NoDup numeric_fields ->
  (forall f, In f numeric_fields -> In f (columns df)) ->
  let labels := filter (fun f => is_numeric_dtype (column df f)) numeric_fields in
  let rho := fun a b => corr (column df a) (column df b) in
  let pairs := upper_pairs labels in
  exists c,
    compute_correlations corr df numeric_fields = Ok c /\
    NoDup pairs /\
    (forall a b, In (a, b) pairs -> a <> b /\ ~ In (b, a) pairs) /\
    NoDup (map fst (pearson c)) /\
    (forall k v, In (k, v) (pearson c) ->
                 exists a b, In (a, b) pairs /\ k = (a ++ "_" ++ b)%string /\
                             rho a b = Some v) /\
    (forall a b v, In (a, b) pairs -> rho a b = Some v ->
                   In (a ++ "_" ++ b)%string (map fst (pearson c))) /\
    significant c =
      flat_map (fun ab =>
                  match rho (fst ab) (snd ab) with
                  | Some rv =>
                      if Qlt_le_dec (7 # 10) (Qabs rv) then
                        [{| field1 := fst ab; field2 := snd ab; r := rv;
                            strength := if Qlt_le_dec (9 # 10) (Qabs rv)
                                        then "strong" else "moderate" |}]
                      else []
                  | None => []
                  end) pairs.
Proof.
  intros Hnd Hin labels rho pairs.
  assert (Hlab : NoDup labels) by (apply NoDup_filter, Hnd).
  exists (fold_left (visit_labels rho) pairs no_correlations).
  split; [apply compute_correlations_visits; assumption |].
  split; [apply upper_pairs_NoDup, Hlab |].
  split; [intros a b; apply upper_pairs_oriented, Hlab |].
  rewrite (visits_pearson rho pairs no_correlations).
  rewrite (visits_significant rho pairs no_correlations).
  cbn [pearson significant no_correlations app].
  split; [apply pearson_keys; constructor |].
  split.
  - intros k v Hk. apply (pearson_entries rho) in Hk.
    destruct Hk as [[] | Hk]. exact Hk.
  - split; [| reflexivity].
    intros a b v. apply pearson_has_emitted.
Qed.

Lemma correlations_upper_triangle_witness :
  let df :=
    pd_DataFrame
      [[("price", Some (SNum 1)); ("size", Some (SNum 2)); ("desk", Some (SStr "A"))];
       [("price", Some (SNum 2)); ("size", Some (SNum 4)); ("desk", Some (SStr "B"))]] in
  let numeric_fields := ["price"; "size"; "desk"] in
  let corr := fun (_ _ : list (option scalar)) => Some (95 # 100) in
  let labels := filter (fun f => is_numeric_dtype (column df f)) numeric_fields in
  let rho := fun a b => corr (column df a) (column df b) in
  let pairs := upper_pairs labels in
  NoDup numeric_fields /\
  (forall f, In f numeric_fields -> In f (columns df)) /\
  exists c,
    compute_correlations corr df numeric_fields = Ok c /\
    NoDup pairs /\
    (forall a b, In (a, b) pairs -> a <> b /\ ~ In (b, a) pairs) /\
    NoDup (map fst (pearson c)) /\
    (forall k v, In (k, v) (pearson c) ->
                 exists a b, In (a, b) pairs /\ k = (a ++ "_" ++ b)%string /\
                             rho a b = Some v) /\
    (forall a b v, In (a, b) pairs -> rho a b = Some v ->
                   In (a ++ "_" ++ b)%string (map fst (pearson c))) /\
    significant c =
      flat_map (fun ab =>
                  match rho (fst ab) (snd ab) with
                  | Some rv =>
                      if Qlt_le_dec (7 # 10) (Qabs rv) then
                        [{| field1 := fst ab; field2 := snd ab; r := rv;
                            strength := if Qlt_le_dec (9 # 10) (Qabs rv)
                                        then "strong" else "moderate" |}]
                      else []
                  | None => []
                  end) pairs.
Proof.
  intros df numeric_fields corr labels rho pairs.
  assert (Hnd : NoDup numeric_fields).
  { repeat constructor; simpl; intuition discriminate. }
  assert (Hin : forall f, In f numeric_fields -> In f (columns df)).
  { intros f Hf. vm_compute in Hf. vm_compute. tauto. }
  split; [exact Hnd |]. split; [exact Hin |].
  exact (correlations_upper_triangle corr df numeric_fields Hnd Hin).
Defined.

(** The correlations of the example: one pair, strongly correlated. *)
Example correlations_example :
  compute_correlations (fun _ _ => Some (95 # 100))
    (pd_DataFrame
       [[("price", Some (SNum 1)); ("size", Some (SNum 2)); ("desk", Some (SStr "A"))];
        [("price", Some (SNum 2)); ("size", Some (SNum 4)); ("desk", Some (SStr "B"))]])
    ["price"; "size"; "desk"] =
  Ok {| pearson := [("price_size", 95 # 100)];
        significant := [{| field1 := "price"; field2 := "size"; r := 95 # 100;
                           strength := "strong" |}] |}.
Proof. vm_compute. reflexivity. Qed.

(** ** The three-amounts example *)

Lemma detect_anomalies_returns (str_int : Z -> string) (format_3f : Q -> string)
      (df_len : nat) (numeric_stats : list (string * NumericStats))
      (categorical_stats : list (string * CategoricalStats)) :
  (0 < df_len)%nat ->
  exists found,
    _detect_anomalies str_int format_3f df_len numeric_stats categorical_stats
    = Ok found.
Proof.
  intros Hlen.
  destruct (outlier_anomalies_spec str_int df_len numeric_stats Hlen) as [out [E _]].
  unfold _detect_anomalies. rewrite E. cbn [bind]. eexists. reflexivity.
Qed.

Lemma amount_series_statistics (fsqrt : Q -> Q) (method : string) (thr : Q) :
  fsqrt 100 == 10 ->
  let st := analyze_numeric_field fsqrt [Some 10; Some 20; Some 30] method thr in
  count st = 3%nat /\
  feq (mean st) (Fin 20) /\ feq (median st) (Fin 20) /\
  feq (min st) (Fin 10) /\ feq (max st) (Fin 30) /\
  feq (std st) (Fin 10) /\
  feq (q25 st) (Fin 15) /\ feq (q50 st) (Fin 20) /\ feq (q75 st) (Fin 25).
Proof.
  intros Hsqrt st. subst st. unfold analyze_numeric_field.
  cbn [dropna dropna_from length Nat.eqb values map snd
       count mean median min max std q25 q50 q75].
  repeat split; try (vm_compute; reflexivity).
  vm_compute. exact Hsqrt.
Qed.

Lemma generate_amount_example (lib : PyLib) (options : AnalysisOptions) :
  exists summary anomalies charts,
    generate lib
      {| req_data := [[("amount", Some (SNum 10))];
                      [("amount", Some (SNum 20))];
                      [("amount", Some (SNum 30))]];
         req_schema := None;
         req_options := options |} =
    Ok {| summary := summary;
          numeric_stats :=
            [("amount",
              analyze_numeric_field (np_sqrt lib) [Some 10; Some 20; Some 30]
                (opt_outlier_method options) (opt_outlier_threshold options))];
          categorical_stats := [];
          temporal_stats := [];
          correlations := [];
          anomalies := anomalies;
          chart_data := charts |}.
Proof.
  unfold generate.
  cbv - [analyze_numeric_field _detect_anomalies _generate_chart_data
         opt_compute_correlations opt_include_distributions
         opt_outlier_method opt_outlier_threshold np_sqrt str_int format_3f].
  destruct (detect_anomalies_returns (str_int lib) (format_3f lib) 3
              [("amount",
                analyze_numeric_field (np_sqrt lib) [Some 10; Some 20; Some 30]
                  (opt_outlier_method options) (opt_outlier_threshold options))]
              []) as [found E]; [lia |].
  rewrite E.
  destruct (opt_compute_correlations options); do 3 eexists; reflexivity.
Qed.

(** C2.  For the dataset of the three amounts 10, 20 and 30 the generator
    returns, for the field "amount", count 3, mean 20, median 20, minimum
    10, maximum 30, standard deviation 10 (the square root of 200 / 2, the
    library's root of 100 being 10) and quartiles 15, 20 and 25, whatever
    the options. *)
Theorem amount_example_statistics (lib : PyLib) (options : AnalysisOptions) :
  np_sqrt lib 100 == 10 ->
  exists card st,
    generate lib
      {| req_data := [[("amount", Some (SNum 10))];
                      [("amount", Some (SNum 20))];
                      [("amount", Some (SNum 30))]];
         req_schema := None;
         req_options := options |} = Ok card /\
    dict_get "amount" (numeric_stats card) = Some st /\
    count st = 3%nat /\
    feq (mean st) (Fin 20) /\ feq (median st) (Fin 20) /\
    feq (min st) (Fin 10) /\ feq (max st) (Fin 30) /\
    feq (std st) (Fin 10) /\
    feq (q25 st) (Fin 15) /\ feq (q50 st) (Fin 20) /\ feq (q75 st) (Fin 25).
Proof.
  intros Hsqrt.
  destruct (generate_amount_example lib options) as [s [a [c E]]].
  eexists. eexists. split; [exact E |]. split; [reflexivity |].
  apply amount_series_statistics, Hsqrt.
Qed.

Lemma amount_example_statistics_witness :
  np_sqrt demo_lib 100 == 10 /\
  exists card st,
    generate demo_lib
      {| req_data := [[("amount", Some (SNum 10))];
                      [("amount", Some (SNum 20))];
                      [("amount", Some (SNum 30))]];
         req_schema := None;
         req_options := default_options |} = Ok card /\
    dict_get "amount" (numeric_stats card) = Some st /\
    count st = 3%nat /\
    feq (mean st) (Fin 20) /\ feq (median st) (Fin 20) /\
    feq (min st) (Fin 10) /\ feq (max st) (Fin 30) /\
    feq (std st) (Fin 10) /\
    feq (q25 st) (Fin 15) /\ feq (q50 st) (Fin 20) /\ feq (q75 st) (Fin 25).
Proof.
  split; [vm_compute; reflexivity |].
  apply (amount_example_statistics demo_lib default_options).
  vm_compute. reflexivity.
Defined.

(** ** Data frames built from records *)

Lemma mem_In (k : string) (l : list string) : mem k l = true <-> In k l.
Proof.
  unfold mem. rewrite existsb_exists. split.
  - intros [x [Hx E]]. apply String.eqb_eq in E. subst. exact Hx.
  - intros H. exists k. split; [exact H | apply String.eqb_refl].
Qed.

Lemma add_keys_spec (ks seen : list string) :
  let out := fold_left (fun seen k => if mem k seen then seen else seen ++ [k]) ks seen in
  (NoDup seen -> NoDup out) /\ (forall k, In k out <-> In k seen \/ In k ks).
Proof.
  revert seen. induction ks as [|k ks IH]; intros seen; cbn [fold_left].
  - split; [auto | intros k; simpl; tauto].
  - destruct (mem k seen) eqn:E.
    + destruct (IH seen) as [Hnd Hin]. split; [exact Hnd |].
      intros x. rewrite Hin. apply mem_In in E. simpl. split.
      * tauto.
      * intros [H | [<- | H]]; auto.
    + destruct (IH (seen ++ [k])) as [Hnd Hin]. split.
      * intros Hs. apply Hnd. apply NoDup_app; [exact Hs | repeat constructor; intros [] |].
        intros x Hx [<- | []]. apply mem_In in Hx. congruence.
      * intros x. rewrite Hin, in_app_iff. simpl. tauto.
Qed.

Lemma all_keys_from_spec (data : list record) (seen : list string) :
  let out :=
    fold_left
      (fun seen r =>
         fold_left (fun seen k => if mem k seen then seen else seen ++ [k])
                   (map fst r) seen)
      data seen in
  (NoDup seen -> NoDup out) /\
  (forall k, In k out <-> In k seen \/ exists r, In r data /\ In k (map fst r)).
Proof.
  revert seen. induction data as [|r data IH]; intros seen; cbn [fold_left].
  - split; [auto |]. intros k. split; [auto |]. intros [H | [r [[] _]]]. exact H.
  - destruct (add_keys_spec (map fst r) seen) as [Hnd1 Hin1].
    destruct (IH (fold_left (fun seen k => if mem k seen then seen else seen ++ [k])
                            (map fst r) seen)) as [Hnd2 Hin2].
    split; [auto |].
    intros k. rewrite Hin2, Hin1. split.
    + intros [[H | H] | [r' [Hr' Hk]]].
      * left. exact H.
      * right. exists r. split; [left; reflexivity | exact H].
      * right. exists r'. split; [right; exact Hr' | exact Hk].
    + intros [H | [r' [[<- | Hr'] Hk]]].
      * left. left. exact H.
      * left. right. exact Hk.
      * right. exists r'. split; assumption.
Qed.

Lemma columns_pd_DataFrame (data : list record) :
  columns (pd_DataFrame data) = all_keys data.
Proof.
  unfold columns, pd_DataFrame. cbn [df_data]. rewrite map_map. cbn [fst].
  apply map_id.
Qed.

Lemma pd_DataFrame_NoDup (data : list record) :
  NoDup (map fst (df_data (pd_DataFrame data))).
Proof.
  change (NoDup (columns (pd_DataFrame data))). rewrite columns_pd_DataFrame.
  destruct (all_keys_from_spec data []) as [Hnd _]. apply Hnd. constructor.
Qed.

(** The frame built from a list of records has one row per record, one
    column per key met in the records, each named once, and every column
    is as long as the list. *)
Theorem pd_DataFrame_shape (data : list record) :
  let df := pd_DataFrame data in
  df_len df = length data /\
  NoDup (columns df) /\
  (forall k, In k (columns df) <-> exists r, In r data /\ In k (map fst r)) /\
  Forall (fun c => length (snd c) = length data) (df_data df).
Proof.
  intros df. subst df. rewrite columns_pd_DataFrame.
  destruct (all_keys_from_spec data []) as [Hnd Hin].
  split; [reflexivity |]. split; [apply Hnd; constructor |]. split.
  - intros k. unfold all_keys. rewrite Hin. split.
    + intros [[] | H]. exact H.
    + intros H. right. exact H.
  - unfold pd_DataFrame. cbn [df_data]. apply Forall_map.
    apply Forall_forall. intros k _. cbn [snd]. apply length_map.
Qed.

(** ** Schema inference *)

Lemma dict_get_map_keys {B : Type} (f : string -> B) (keys : list string) (k : string) :
  dict_get k (map (fun x => (x, f x)) keys) = if mem k keys then Some (f k) else None.
Proof.
  induction keys as [|x keys IH]; [reflexivity |].
  cbn [map dict_get mem existsb]. fold (mem k keys).
  destruct (String.eqb_spec k x) as [-> | Hne]; [reflexivity | exact IH].
Qed.

Lemma dict_get_unique {B : Type} (k : string) (v : B) (d : list (string * B)) :
  NoDup (map fst d) -> In (k, v) d -> dict_get k d = Some v.
Proof.
  induction d as [|[k' v'] rest IH]; simpl; intros Hnd Hin; [contradiction |].
  inversion Hnd as [|? ? Hnotin Hnd']; subst.
  destruct Hin as [E | Hin].
  - inversion E; subst. rewrite String.eqb_refl. reflexivity.
  - destruct (String.eqb_spec k k') as [-> | Hne].
    + exfalso. apply Hnotin. apply (in_map fst) in Hin. exact Hin.
    + apply IH; assumption.
Qed.

Lemma infer_schema_from (lib : PyLib) (cols : list (string * list (option scalar)))
      (acc : SchemaInfo) :
  let out :=
    fold_left
      (fun acc c =>
         let '(col, series) := c in
         if String.prefix "_" col then acc
         else if _is_temporal lib series then
           {| numeric := numeric acc; categorical := categorical acc;
              temporal := temporal acc ++ [col] |}
         else if is_numeric_dtype series then
           {| numeric := numeric acc ++ [col]; categorical := categorical acc;
              temporal := temporal acc |}
         else
           {| numeric := numeric acc; categorical := categorical acc ++ [col];
              temporal := temporal acc |})
      cols acc in
  numeric out = numeric acc ++ fields_of lib IsNumeric cols /\
  categorical out = categorical acc ++ fields_of lib IsCategorical cols /\
  temporal out = temporal acc ++ fields_of lib IsTemporal cols.
Proof.
  revert acc. induction cols as [|[col series] cols IH]; intros acc.
  - cbn. rewrite !app_nil_r. auto.
  - cbn [fold_left]. unfold fields_of. cbn [filter].
    destruct (String.prefix "_" col) eqn:P.
    + assert (Hc : classify lib (col, series) = Skipped)
        by (unfold classify; cbn [fst snd]; rewrite P; reflexivity).
      rewrite Hc. cbn [field_class_eqb]. apply IH.
    + destruct (_is_temporal lib series) eqn:T.
      * assert (Hc : classify lib (col, series) = IsTemporal)
          by (unfold classify; cbn [fst snd]; rewrite P, T; reflexivity).
        rewrite Hc. cbn [field_class_eqb map fst].
        destruct (IH {| numeric := numeric acc; categorical := categorical acc;
                        temporal := temporal acc ++ [col] |}) as [A [B C]].
        cbn [numeric categorical temporal] in A, B, C.
        unfold fields_of in A, B, C.
        rewrite A, B, C, <- app_assoc. auto.
      * destruct (is_numeric_dtype series) eqn:N.
        -- assert (Hc : classify lib (col, series) = IsNumeric)
             by (unfold classify; cbn [fst snd]; rewrite P, T, N; reflexivity).
           rewrite Hc. cbn [field_class_eqb map fst].
           destruct (IH {| numeric := numeric acc ++ [col];
                           categorical := categorical acc;
                           temporal := temporal acc |}) as [A [B C]].
           cbn [numeric categorical temporal] in A, B, C.
           unfold fields_of in A, B, C.
           rewrite A, B, C, <- app_assoc. auto.
        -- assert (Hc : classify lib (col, series) = IsCategorical)
             by (unfold classify; cbn [fst snd]; rewrite P, T, N; reflexivity).
           rewrite Hc. cbn [field_class_eqb map fst].
           destruct (IH {| numeric := numeric acc;
                           categorical := categorical acc ++ [col];
                           temporal := temporal acc |}) as [A [B C]].
           cbn [numeric categorical temporal] in A, B, C.
           unfold fields_of in A, B, C.
           rewrite A, B, C, <- app_assoc. auto.
Qed.

Lemma infer_schema_fields (lib : PyLib) (df : DataFrame) :
  numeric (infer_schema lib df) = fields_of lib IsNumeric (df_data df) /\
  categorical (infer_schema lib df) = fields_of lib IsCategorical (df_data df) /\
  temporal (infer_schema lib df) = fields_of lib IsTemporal (df_data df).
Proof.
  apply (infer_schema_from lib (df_data df)
           {| numeric := []; categorical := []; temporal := [] |}).
Qed.

Lemma fields_of_In (lib : PyLib) (cls : field_class)
      (cols : list (string * list (option scalar))) (f : string) :
  NoDup (map fst cols) ->
  (In f (fields_of lib cls cols) <->
   exists series, dict_get f cols = Some series /\
                  field_class_eqb (classify lib (f, series)) cls = true).
Proof.
  intros Hnd. unfold fields_of. rewrite in_map_iff. split.
  - intros [[f' series] [E Hin]]. cbn [fst] in E. subst f'.
    apply filter_In in Hin. destruct Hin as [Hin Hc].
    exists series. split; [apply dict_get_unique; assumption | exact Hc].
  - intros [series [Hg Hc]]. exists (f, series). split; [reflexivity |].
    apply filter_In. split; [| exact Hc].
    clear Hc Hnd. induction cols as [|[k v] rest IH]; simpl in *; [discriminate |].
    destruct (String.eqb_spec f k) as [-> | Hne].
    + inversion Hg; subst. left. reflexivity.
    + right. apply IH, Hg.
Qed.

Lemma fields_of_NoDup (lib : PyLib) (cls : field_class)
      (cols : list (string * list (option scalar))) :
  NoDup (map fst cols) -> NoDup (fields_of lib cls cols).
Proof.
  unfold fields_of. induction cols as [|c cols IH]; cbn [map filter]; intros Hnd.
  - constructor.
  - inversion Hnd as [|? ? Hnotin Hnd']; subst.
    destruct (field_class_eqb (classify lib c) cls); [| apply IH, Hnd'].
    cbn [map]. constructor; [| apply IH, Hnd'].
    intros Hin. apply Hnotin. apply in_map_iff in Hin.
    destruct Hin as [c' [E Hin]]. apply filter_In in Hin.
    rewrite <- E. apply in_map. apply Hin.
Qed.

Lemma field_class_eqb_eq (a b : field_class) : field_class_eqb a b = true <-> a = b.
Proof. destruct a, b; simpl; split; intros H; try reflexivity; discriminate. Qed.

(** Inferred schemas partition the columns.  On a frame where every
    column holds a value and every number fits 64 bits: a column whose
    name starts with an underscore is in no list, any other column is in
    exactly one, and no list names a column twice or names something that
    is not a column; a numeric field holds a number and no string, and a
    temporal field is not a column of numbers. *)
Theorem infer_schema_partition (lib : PyLib) (data : list record) :
  let df := pd_DataFrame data in
  let schema := infer_schema lib df in
  plain_frame df = true ->
  NoDup (numeric schema) /\ NoDup (categorical schema) /\ NoDup (temporal schema) /\
  (forall f,
      In f (columns df) ->
      if String.prefix "_" f
      then ~ In f (numeric schema) /\ ~ In f (categorical schema) /\
           ~ In f (temporal schema)
      else (In f (numeric schema) /\ ~ In f (categorical schema) /\
            ~ In f (temporal schema)) \/
           (~ In f (numeric schema) /\ In f (categorical schema) /\
            ~ In f (temporal schema)) \/
           (~ In f (numeric schema) /\ ~ In f (categorical schema) /\
            In f (temporal schema))) /\
  (forall f, In f (numeric schema) \/ In f (categorical schema) \/
             In f (temporal schema) -> In f (columns df)) /\
  (forall f, In f (numeric schema) -> is_numeric_dtype (column df f) = true) /\
  (forall f, In f (temporal schema) -> is_numeric_dtype (column df f) = false).
Proof.
  intros df schema _.
  pose proof (pd_DataFrame_NoDup data) as Hnd. fold df in Hnd.
  destruct (infer_schema_fields lib df) as [EN [EC ET]].
  subst schema. rewrite EN, EC, ET.
  assert (Hcls : forall f cls,
             In f (fields_of lib cls (df_data df)) <->
             exists series, dict_get f (df_data df) = Some series /\
                            classify lib (f, series) = cls).
  { intros f cls. rewrite (fields_of_In lib cls _ f Hnd).
    split; intros [s [A B]]; exists s; (split; [exact A |]);
      apply field_class_eqb_eq; exact B. }
  split; [apply fields_of_NoDup, Hnd |].
  split; [apply fields_of_NoDup, Hnd |].
  split; [apply fields_of_NoDup, Hnd |].
  split; [| split; [| split]].
  - intros f Hf. unfold columns in Hf.
    destruct (dict_get_In f (df_data df) Hf) as [series Hg].
    assert (Hone : forall cls, In f (fields_of lib cls (df_data df)) <->
                               classify lib (f, series) = cls).
    { intros cls. rewrite Hcls. split.
      - intros [s [A B]]. rewrite Hg in A. congruence.
      - intros B. exists series. auto. }
    unfold classify in Hone. cbn [fst snd] in Hone.
    destruct (String.prefix "_" f).
    + rewrite !Hone. repeat split; discriminate.
    + rewrite !Hone. destruct (_is_temporal lib series).
      * right. right. repeat split; try discriminate.
      * destruct (is_numeric_dtype series).
        -- left. repeat split; discriminate.
        -- right. left. repeat split; discriminate.
  - intros f. rewrite !Hcls. unfold columns.
    intros [[s [A _]] | [[s [A _]] | [s [A _]]]];
      clear - A; induction (df_data df) as [|[k v] rest IH]; simpl in *;
      try discriminate;
      (destruct (String.eqb_spec f k) as [-> | Hne]; [left; reflexivity | right; auto]).
  - intros f Hf. apply Hcls in Hf. destruct Hf as [s [A B]].
    unfold column. rewrite A. cbn [option_default].
    unfold classify in B. cbn [fst snd] in B.
    destruct (String.prefix "_" f); [discriminate |].
    destruct (_is_temporal lib s); [discriminate |].
    destruct (is_numeric_dtype s); [reflexivity | discriminate].
  - intros f Hf. apply Hcls in Hf. destruct Hf as [s [A B]].
    unfold column. rewrite A. cbn [option_default].
    unfold classify in B. cbn [fst snd] in B.
    destruct (String.prefix "_" f); [discriminate |].
    unfold _is_temporal in B.
    destruct (is_numeric_dtype s); [| reflexivity].
    cbn [negb] in B. discriminate.
Qed.

Lemma infer_schema_partition_witness :
  let data := [[("_id", Some (SStr "a1")); ("amount", Some (SNum 10));
                ("kind", Some (SStr "swap"))];
               [("_id", Some (SStr "a2")); ("amount", None);
                ("kind", Some (SStr "bond"))]] in
  let df := pd_DataFrame data in
  let schema := infer_schema demo_lib df in
  plain_frame df = true /\
  schema = {| numeric := ["amount"]; categorical := ["kind"]; temporal := [] |} /\
  NoDup (numeric schema) /\ NoDup (categorical schema) /\ NoDup (temporal schema) /\
  (forall f,
      In f (columns df) ->
      if String.prefix "_" f
      then ~ In f (numeric schema) /\ ~ In f (categorical schema) /\
           ~ In f (temporal schema)
      else (In f (numeric schema) /\ ~ In f (categorical schema) /\
            ~ In f (temporal schema)) \/
           (~ In f (numeric schema) /\ In f (categorical schema) /\
            ~ In f (temporal schema)) \/
           (~ In f (numeric schema) /\ ~ In f (categorical schema) /\
            In f (temporal schema))) /\
  (forall f, In f (numeric schema) \/ In f (categorical schema) \/
             In f (temporal schema) -> In f (columns df)) /\
  (forall f, In f (numeric schema) -> is_numeric_dtype (column df f) = true) /\
  (forall f, In f (temporal schema) -> is_numeric_dtype (column df f) = false).
Proof.
  intros data df schema.
  assert (H : plain_frame df = true) by (vm_compute; reflexivity).
  split; [exact H |]. split; [vm_compute; reflexivity |].
  exact (infer_schema_partition demo_lib data H).
Defined.

(** ** The generator on an inferred schema *)

Lemma as_numbers_numeric (col : list (option scalar)) :
  is_numeric_dtype col = true -> exists nums, as_numbers col = Ok nums.
Proof.
  unfold is_numeric_dtype, as_numbers. intros H.
  apply andb_true_iff in H. destruct H as [_ H]. apply negb_true_iff in H.
  rewrite H. eexists. reflexivity.
Qed.

Lemma inferred_numeric_column (lib : PyLib) (df : DataFrame) (f : string) :
  NoDup (map fst (df_data df)) ->
  In f (numeric (infer_schema lib df)) ->
  exists col, dict_get f (df_data df) = Some col /\ is_numeric_dtype col = true.
Proof.
  intros Hnd Hin. destruct (infer_schema_fields lib df) as [EN _].
  rewrite EN in Hin. apply (fields_of_In lib IsNumeric _ f Hnd) in Hin.
  destruct Hin as [s [A B]]. exists s. split; [exact A |].
  apply field_class_eqb_eq in B. unfold classify in B. cbn [fst snd] in B.
  destruct (String.prefix "_" f); [discriminate |].
  destruct (_is_temporal lib s); [discriminate |].
  destruct (is_numeric_dtype s); [reflexivity | discriminate].
Qed.

Lemma inferred_field_column (lib : PyLib) (df : DataFrame) (cls : field_class)
      (f : string) :
  NoDup (map fst (df_data df)) ->
  In f (fields_of lib cls (df_data df)) ->
  exists col, dict_get f (df_data df) = Some col.
Proof.
  intros Hnd Hin. apply (fields_of_In lib cls _ f Hnd) in Hin.
  destruct Hin as [s [A _]]. exists s. exact A.
Qed.

Lemma dict_set_new_key {B : Type} (k : string) (v : B) (d : list (string * B)) :
  ~ In k (map fst d) -> map fst (dict_set k v d) = map fst d ++ [k].
Proof.
  induction d as [|[k' v'] rest IH]; simpl; intros Hk; [reflexivity |].
  destruct (String.eqb_spec k k') as [-> | Hne].
  - exfalso. apply Hk. left. reflexivity.
  - simpl. rewrite IH; [reflexivity |]. intros H. apply Hk. right. exact H.
Qed.

(** A loop that stores one entry per listed field: with distinct fields
    that are all columns, the keys of the map are the fields, in order. *)
Lemma stats_loop_keys {B : Type} (cols : list (string * list (option scalar)))
      (g : list (option scalar) -> B) (fields : list string) :
  NoDup fields ->
  (forall f, In f fields -> exists col, dict_get f cols = Some col) ->
  forall acc : list (string * B),
    (forall f, In f fields -> ~ In f (map fst acc)) ->
    map fst
      (fold_left
         (fun stats field =>
            match dict_get field cols with
            | Some col => dict_set field (g col) stats
            | None => stats
            end) fields acc) = map fst acc ++ fields.
Proof.
  induction 1 as [|f fields Hf Hnd IH]; intros Hcols acc Hfresh; cbn [fold_left].
  - rewrite app_nil_r. reflexivity.
  - destruct (Hcols f (or_introl eq_refl)) as [col E]. rewrite E.
    rewrite IH.
    + rewrite dict_set_new_key by (apply Hfresh; left; reflexivity).
      rewrite <- app_assoc. reflexivity.
    + intros x Hx. apply Hcols. right. exact Hx.
    + intros x Hx. rewrite dict_set_new_key by (apply Hfresh; left; reflexivity).
      rewrite in_app_iff. intros [H | [<- | []]].
      * apply (Hfresh x); [right; exact Hx | exact H].
      * contradiction.
Qed.

(** The same for the loop over numeric fields, which may raise. *)
Lemma numeric_loop_keys (cols : list (string * list (option scalar)))
      (g : list (option Q) -> NumericStats) (fields : list string) :
  NoDup fields ->
  (forall f, In f fields ->
             exists col, dict_get f cols = Some col /\ is_numeric_dtype col = true) ->
  forall acc : list (string * NumericStats),
    (forall f, In f fields -> ~ In f (map fst acc)) ->
    exists out,
      fold_left
        (fun acc field =>
           stats <- acc ;;
           match dict_get field cols with
           | Some col => nums <- as_numbers col ;; Ok (dict_set field (g nums) stats)
           | None => Ok stats
           end) fields (Ok acc) = Ok out /\
      map fst out = map fst acc ++ fields.
Proof.
  induction 1 as [|f fields Hf Hnd IH]; intros Hcols acc Hfresh; cbn [fold_left].
  - exists acc. rewrite app_nil_r. auto.
  - destruct (Hcols f (or_introl eq_refl)) as [col [E N]].
    destruct (as_numbers_numeric col N) as [nums En].
    cbn [bind]. rewrite E, En. cbn [bind].
    destruct (IH (fun x Hx => Hcols x (or_intror Hx))
                 (dict_set f (g nums) acc)) as [out [Eo Ek]].
    + intros x Hx. rewrite dict_set_new_key by (apply Hfresh; left; reflexivity).
      rewrite in_app_iff. intros [H | [<- | []]].
      * apply (Hfresh x); [right; exact Hx | exact H].
      * contradiction.
    + exists out. split; [exact Eo |].
      rewrite Ek, dict_set_new_key by (apply Hfresh; left; reflexivity).
      rewrite <- app_assoc. reflexivity.
Qed.

Lemma generate_summary_returns (lib : PyLib) (df : DataFrame) (schema : SchemaInfo) :
  (forall f, In f (numeric schema) ->
             forall col, dict_get f (df_data df) = Some col ->
                         is_numeric_dtype col = true) ->
  exists s, _generate_summary lib df schema = Ok s.
Proof.
  intros Hnum. unfold _generate_summary.
  set (base := [(KStr "record_count", Vnat (df_len df));
                (KStr "field_count", Vnat (length (columns df)));
                (KStr "numeric_fields", Vnat (length (numeric schema)));
                (KStr "categorical_fields", Vnat (length (categorical schema)));
                (KStr "temporal_fields", Vnat (length (temporal schema)))]).
  assert (Hfirst : exists s1,
             match find (fun field => mem field (columns df) && mem field (numeric schema))
                        ["amount"; "notional"; "value"] with
             | Some field =>
                 match dict_get field (df_data df) with
                 | Some col =>
                     total <- column_sum col ;;
                     Ok (base ++ [(KStr "total_notional", Vnum total)])
                 | None => Ok base
                 end
             | None => Ok base
             end = Ok s1).
  { destruct (find _ _) as [field |] eqn:Ef; [| eexists; reflexivity].
    apply find_some in Ef. destruct Ef as [_ Ef].
    apply andb_true_iff in Ef. destruct Ef as [_ Ef]. apply mem_In in Ef.
    destruct (dict_get field (df_data df)) as [col |] eqn:Eg; [| eexists; reflexivity].
    destruct (as_numbers_numeric col (Hnum field Ef col Eg)) as [nums En].
    unfold column_sum. rewrite En. cbn [bind]. eexists. reflexivity. }
  destruct Hfirst as [s1 E1]. rewrite E1. cbn [bind].
  destruct (temporal schema) as [|first rest]; [eexists; reflexivity |].
  destruct (dict_get first (df_data df)); [| eexists; reflexivity].
  destruct (0 <? length _)%nat; eexists; reflexivity.
Qed.

Lemma df_empty_no_fields (lib : PyLib) (data : list record) :
  df_empty (pd_DataFrame data) = true ->
  infer_schema lib (pd_DataFrame data) =
  {| numeric := []; categorical := []; temporal := [] |}.
Proof.
  intros H. unfold df_empty in H. apply orb_true_iff in H.
  assert (Hcols : df_data (pd_DataFrame data) = []).
  { destruct H as [H | H]; apply Nat.eqb_eq in H.
    - cbn [pd_DataFrame df_len] in H. destruct data; [reflexivity | discriminate].
    - unfold columns in H. rewrite length_map in H.
      destruct (df_data (pd_DataFrame data)); [reflexivity | discriminate]. }
  unfold infer_schema. rewrite Hcols. reflexivity.
Qed.

(** Without schema hints, on records of numbers, strings and nulls where
    every column holds a value, every number fits 64 bits and no column
    is taken for a temporal field, the generator returns a report,
    whatever the options; the report has statistics for exactly the
    inferred numeric and categorical fields, in column order, and no
    temporal statistics. *)
Theorem generate_plain_records_returns
        (lib : PyLib) (data : list record) (options : AnalysisOptions) :
  let df := pd_DataFrame data in
  let schema := infer_schema lib df in
  plain_frame df = true ->
  temporal schema = [] ->
  exists card,
    generate lib {| req_data := data; req_schema := None; req_options := options |}
      = Ok card /\
    map fst (numeric_stats card) = numeric schema /\
    map fst (categorical_stats card) = categorical schema /\
    temporal_stats card = [].
Proof.
  intros df0 schema _ Htemp. subst df0.
  unfold generate. cbn [req_data req_schema req_options].
  set (df := pd_DataFrame data) in *.
  destruct (df_empty df) eqn:Hempty.
  - unfold schema, df. rewrite (df_empty_no_fields lib data Hempty).
    eexists. split; [reflexivity |]. auto.
  - fold schema.
    pose proof (pd_DataFrame_NoDup data) as Hnd. fold df in Hnd.
    destruct (infer_schema_fields lib df) as [EN [EC ET]]. fold schema in EN, EC, ET.
    assert (Hnum : forall f, In f (numeric schema) ->
                             exists col, dict_get f (df_data df) = Some col /\
                                         is_numeric_dtype col = true)
      by (intros f Hf; apply (inferred_numeric_column lib df f Hnd Hf)).
    assert (HndN : NoDup (numeric schema)) by (rewrite EN; apply fields_of_NoDup, Hnd).
    destruct (generate_summary_returns lib df schema) as [s Es].
    { intros f Hf col Hc. destruct (Hnum f Hf) as [col' [A B]]. congruence. }
    rewrite Es. cbn [bind].
    destruct (numeric_loop_keys (df_data df)
                (fun nums => analyze_numeric_field (np_sqrt lib) nums
                               (opt_outlier_method options)
                               (opt_outlier_threshold options))
                (numeric schema) HndN Hnum [] (fun _ _ H => H)) as [ns [En Kn]].
    rewrite En. cbn [bind].
    assert (Hcorr : exists c,
               (if opt_compute_correlations options
                   && (2 <=? length (numeric schema))%nat
                then c <- compute_correlations (pd_corr lib) df (numeric schema) ;;
                     Ok (dump_correlations c)
                else Ok []) = Ok c).
    { destruct (opt_compute_correlations options && _); [| eexists; reflexivity].
      rewrite compute_correlations_visits.
      - cbn [bind]. eexists. reflexivity.
      - exact HndN.
      - intros f Hf. destruct (Hnum f Hf) as [col [A _]].
        unfold columns. clear - A.
        induction (df_data df) as [|[k v] rest IH]; simpl in *; [discriminate |].
        destruct (String.eqb_spec f k) as [-> | Hne]; [left; reflexivity | right; auto]. }
    destruct Hcorr as [c Ec]. rewrite Ec. cbn [bind].
    assert (Hlen : (0 < df_len df)%nat).
    { unfold df_empty in Hempty. apply orb_false_iff in Hempty.
      destruct Hempty as [H _]. apply Nat.eqb_neq in H. lia. }
    match goal with
    | |- context [_detect_anomalies ?a ?b ?n ?x ?y] =>
        destruct (detect_anomalies_returns a b n x y Hlen) as [found Ef]; rewrite Ef
    end.
    cbn [bind]. eexists. split; [reflexivity |].
    cbn [numeric_stats categorical_stats temporal_stats].
    split; [exact Kn |]. split.
    + rewrite stats_loop_keys; [reflexivity | | | auto].
      * rewrite EC. apply fields_of_NoDup, Hnd.
      * intros f Hf. rewrite EC in Hf.
        apply (inferred_field_column lib df IsCategorical f Hnd Hf).
    + rewrite Htemp. reflexivity.
Qed.

Lemma generate_plain_records_returns_witness :
  let data := [[("_id", Some (SStr "a1")); ("amount", Some (SNum 10));
                ("kind", Some (SStr "swap"))];
               [("_id", Some (SStr "a2")); ("amount", None);
                ("kind", Some (SStr "bond"))]] in
  let df := pd_DataFrame data in
  let schema := infer_schema demo_lib df in
  plain_frame df = true /\
  temporal schema = [] /\
  exists card,
    generate demo_lib
      {| req_data := data; req_schema := None; req_options := default_options |}
      = Ok card /\
    map fst (numeric_stats card) = numeric schema /\
    map fst (categorical_stats card) = categorical schema /\
    temporal_stats card = [].
Proof.
  intros data df schema.
  assert (H1 : plain_frame df = true) by (vm_compute; reflexivity).
  assert (H2 : temporal schema = []) by (vm_compute; reflexivity).
  split; [exact H1 |]. split; [exact H2 |].
  exact (generate_plain_records_returns demo_lib data default_options H1 H2).
Defined.

(** ** Schema hints that do not fit the data *)

Lemma numeric_loop_raise (cols : list (string * list (option scalar)))
      (g : list (option Q) -> NumericStats) (fields : list string) :
  fold_left
    (fun acc field =>
       stats <- acc ;;
       match dict_get field cols with
       | Some col => nums <- as_numbers col ;; Ok (dict_set field (g nums) stats)
       | None => Ok stats
       end) fields Raise = Raise.
Proof. induction fields as [|f fields IH]; [reflexivity | exact IH]. Qed.

Lemma numeric_loop_string (cols : list (string * list (option scalar)))
      (g : list (option Q) -> NumericStats) (fields : list string)
      (f : string) (col : list (option scalar)) :
  In f fields -> dict_get f cols = Some col -> existsb is_str col = true ->
  forall acc,
    fold_left
      (fun acc field =>
         stats <- acc ;;
         match dict_get field cols with
         | Some col => nums <- as_numbers col ;; Ok (dict_set field (g nums) stats)
         | None => Ok stats
         end) fields acc = Raise.
Proof.
  intros Hin Hg Hs.
  induction fields as [|x fields IH]; [contradiction |].
  intros acc. cbn [fold_left].
  destruct Hin as [-> | Hin]; [| apply IH, Hin].
  destruct acc as [stats |]; cbn [bind]; [| apply numeric_loop_raise].
  rewrite Hg. unfold as_numbers. rewrite Hs. cbn [bind]. apply numeric_loop_raise.
Qed.

(** A hint that lists as numeric a column holding a string makes the
    generator raise on a non-empty frame. *)
Theorem generate_raises_on_string_in_numeric_hint
        (lib : PyLib) (data : list record) (schema : SchemaInfo)
        (options : AnalysisOptions) (f : string) (col : list (option scalar)) :
  df_empty (pd_DataFrame data) = false ->
  In f (numeric schema) ->
  dict_get f (df_data (pd_DataFrame data)) = Some col ->
  existsb is_str col = true ->
  generate lib {| req_data := data; req_schema := Some schema; req_options := options |}
  = Raise.
Proof.
  intros Hne Hin Hg Hs. unfold generate. cbn [req_data req_schema req_options].
  rewrite Hne.
  destruct (_generate_summary lib (pd_DataFrame data) schema); [| reflexivity].
  cbn [bind].
  rewrite (numeric_loop_string _ _ (numeric schema) f col Hin Hg Hs). reflexivity.
Qed.

Lemma generate_raises_on_string_in_numeric_hint_witness :
  let data := [[("desk", Some (SStr "A")); ("amount", Some (SNum 1))]] in
  let schema := {| numeric := ["desk"]; categorical := []; temporal := [] |} in
  df_empty (pd_DataFrame data) = false /\
  In "desk" (numeric schema) /\
  dict_get "desk" (df_data (pd_DataFrame data)) = Some [Some (SStr "A")] /\
  existsb is_str [Some (SStr "A")] = true /\
  generate demo_lib
    {| req_data := data; req_schema := Some schema; req_options := default_options |}
  = Raise.
Proof.
  intros data schema.
  assert (H1 : df_empty (pd_DataFrame data) = false) by reflexivity.
  assert (H2 : In "desk" (numeric schema)) by (left; reflexivity).
  assert (H3 : dict_get "desk" (df_data (pd_DataFrame data)) = Some [Some (SStr "A")])
    by reflexivity.
  assert (H4 : existsb is_str [Some (SStr "A")] = true) by reflexivity.
  split; [exact H1 |]. split; [exact H2 |]. split; [exact H3 |]. split; [exact H4 |].
  exact (generate_raises_on_string_in_numeric_hint demo_lib data schema
           default_options "desk" [Some (SStr "A")] H1 H2 H3 H4).
Defined.

Lemma select_columns_missing (df : DataFrame) (fields : list string) (f : string) :
  In f fields -> dict_get f (df_data df) = None -> select_columns df fields = Raise.
Proof.
  intros Hin Hg. induction fields as [|x fields IH]; [contradiction |].
  cbn [select_columns]. destruct Hin as [-> | Hin].
  - rewrite Hg. reflexivity.
  - destruct (dict_get x (df_data df)); [| reflexivity].
    rewrite (IH Hin). reflexivity.
Qed.

(** The per-field loops skip a hinted field that is not a column, but the
    correlation step does not: with correlations enabled and two or more
    numeric hints, one of which is not a column, the generator raises on a
    non-empty frame. *)
Theorem generate_raises_on_missing_numeric_hint
        (lib : PyLib) (data : list record) (schema : SchemaInfo)
        (options : AnalysisOptions) (f : string) :
  df_empty (pd_DataFrame data) = false ->
  opt_compute_correlations options = true ->
  (2 <= length (numeric schema))%nat ->
  In f (numeric schema) ->
  dict_get f (df_data (pd_DataFrame data)) = None ->
  generate lib {| req_data := data; req_schema := Some schema; req_options := options |}
  = Raise.
Proof.
  intros Hne Hc Hlen Hin Hg. unfold generate. cbn [req_data req_schema req_options].
  rewrite Hne, Hc.
  destruct (_generate_summary lib (pd_DataFrame data) schema); [| reflexivity].
  cbn [bind].
  destruct (fold_left _ (numeric schema) (Ok [])); [| reflexivity].
  cbn [bind andb].
  replace (2 <=? length (numeric schema))%nat with true
    by (symmetry; apply Nat.leb_le; exact Hlen).
  unfold compute_correlations.
  replace (length (numeric schema) <? 2)%nat with false
    by (symmetry; apply Nat.ltb_ge; exact Hlen).
  rewrite (select_columns_missing _ _ f Hin Hg). reflexivity.
Qed.

Lemma generate_raises_on_missing_numeric_hint_witness :
  let data := [[("amount", Some (SNum 1))]] in
  let schema := {| numeric := ["amount"; "price"]; categorical := []; temporal := [] |} in
  df_empty (pd_DataFrame data) = false /\
  opt_compute_correlations default_options = true /\
  (2 <= length (numeric schema))%nat /\
  In "price" (numeric schema) /\
  dict_get "price" (df_data (pd_DataFrame data)) = None /\
  generate demo_lib
    {| req_data := data; req_schema := Some schema; req_options := default_options |}
  = Raise.
Proof.
  intros data schema.
  assert (H1 : df_empty (pd_DataFrame data) = false) by reflexivity.
  assert (H2 : opt_compute_correlations default_options = true) by reflexivity.
  assert (H3 : (2 <= length (numeric schema))%nat) by (simpl; lia).
  assert (H4 : In "price" (numeric schema)) by (right; left; reflexivity).
  assert (H5 : dict_get "price" (df_data (pd_DataFrame data)) = None) by reflexivity.
  split; [exact H1 |]. split; [exact H2 |]. split; [exact H3 |]. split; [exact H4 |].
  split; [exact H5 |].
  exact (generate_raises_on_missing_numeric_hint demo_lib data schema
           default_options "price" H1 H2 H3 H4 H5).
Defined.

(** ** Median, mean and the extremes *)









(** ** Reported outliers *)







Lemma Forall_firstn_keep {A : Type} (P : A -> Prop) (n : nat) (l : list A) :
  Forall P l -> Forall P (firstn n l).
Proof.
  intros H. revert n. induction H as [|x l Hx _ IH]; intros [|n]; cbn [firstn];
    constructor; [exact Hx | apply IH].
Qed.

Lemma StronglySorted_firstn {A : Type} (R : A -> A -> Prop) (n : nat) (l : list A) :
  StronglySorted R l -> StronglySorted R (firstn n l).
Proof.
  intros H. revert n. induction H as [|x l _ IH Hx]; intros [|n]; cbn [firstn];
    try constructor.
  - apply IH.
  - apply Forall_firstn_keep, Hx.
Qed.




(** ** Interquartile fences *)






(** ** A field whose values are all the same *)

Lemma select_none {A : Type} (rows : list A) (mask : list bool) :
  Forall (fun m => m = false) mask -> select rows mask = [].
Proof.
  intros H. revert rows. induction H as [|m mask Hm _ IH]; intros [|x rows];
    cbn [select]; try reflexivity.
  rewrite Hm. apply IH.
Qed.

Lemma Qsum_repeat (c : Q) (n : nat) : Qsum (repeat c n) == Qn n * c.
Proof.
  induction n as [|n IH].
  - simpl. change (Qn 0) with 0. ring.
  - change (S n) with (1 + n)%nat at 2. rewrite Qn_plus. change (Qn 1) with 1.
    simpl. rewrite IH. ring.
Qed.

Lemma series_mean_repeat (c : Q) (n : nat) :
  (1 <= n)%nat -> series_mean (repeat c n) == c.
Proof.
  intros Hn. unfold series_mean. rewrite Qsum_repeat, repeat_length.
  pose proof (Qn_pos n Hn). field. lra.
Qed.

Lemma sort_values_repeat (c : Q) (n : nat) : sort_values (repeat c n) = repeat c n.
Proof.
  induction n as [|n IH]; [reflexivity |].
  cbn [repeat sort_values fold_right]. fold (sort_values (repeat c n)). rewrite IH.
  destruct n as [|n]; [reflexivity |]. cbn [repeat insert_asc].
  replace (Qle_bool c c) with true; [reflexivity |].
  symmetry. apply Qle_bool_iff, Qle_refl.
Qed.

Lemma quantile_repeat (c q : Q) (n : nat) :
  (1 <= n)%nat -> 0 <= q -> q <= 1 -> quantile (repeat c n) q == c.
Proof.
  intros Hn H0 H1. unfold quantile. rewrite sort_values_repeat, repeat_length.
  pose proof (Qn_nonneg (n - 1)) as Hk.
  assert (Hs : StronglySorted Qle (repeat c n))
    by (rewrite <- sort_values_repeat; apply sort_values_sorted).
  assert (Hlen : (1 <= length (repeat c n))%nat) by (rewrite repeat_length; exact Hn).
  assert (P0 : 0 <= q * Qn (n - 1)) by nra.
  assert (P1 : q * Qn (n - 1) <= Qn (length (repeat c n) - 1))
    by (rewrite repeat_length; nra).
  destruct (interpolate_bounds _ Hs Hlen _ P0 P1) as [L U].
  destruct (ranks_in_range _ Hlen _ P0 P1) as [R R'].
  rewrite repeat_length in R'.
  assert (Hnth : forall i, (i < n)%nat -> nth i (repeat c n) 0 = c).
  { intros i Hi. apply (repeat_spec n c). apply nth_In. rewrite repeat_length. exact Hi. }
  rewrite Hnth in L, U by lia. lra.
Qed.

Lemma zscore_mask_constant (fsqrt : Q -> Q) (c thr : Q) (n : nat) :
  (1 <= n)%nat -> 0 <= thr ->
  Forall (fun m => m = false)
         (map (fun z => fgt z thr) (map fabs (scipy_zscore fsqrt (repeat c n)))).
Proof.
  intros Hn Hthr. unfold scipy_zscore. rewrite !map_map.
  apply Forall_map. apply Forall_forall. intros x Hx.
  apply repeat_spec in Hx. subst x.
  pose proof (series_mean_repeat c n Hn) as Hm.
  set (sd := lib_sqrt fsqrt (moment 2 (repeat c n))).
  assert (Hz : c - series_mean (repeat c n) == 0) by (rewrite Hm; ring).
  unfold fdiv. destruct (Qeq_bool sd 0) eqn:Esd.
  - replace (Qeq_bool (c - series_mean (repeat c n)) 0) with true
      by (symmetry; apply Qeq_bool_iff; exact Hz).
    reflexivity.
  - cbn [fabs fgt]. apply negb_false_iff, Qle_bool_iff.
    rewrite Hz. unfold Qdiv. rewrite Qmult_0_l. exact Hthr.
Qed.

(** A field whose values are all the same has no outlier, whatever the
    method, for a threshold that is not negative. *)
Theorem constant_series_has_no_outliers
        (fsqrt : Q -> Q) (series : list (option Q)) (c : Q)
        (method : string) (thr : Q) :
  (1 <= non_missing series)%nat ->
  Forall (eq c) (values (dropna series)) ->
  0 <= thr ->
  o_count (outliers (analyze_numeric_field fsqrt series method thr)) = Some 0%nat.
Proof.
  intros Hn Hc Hthr. unfold analyze_numeric_field.
  rewrite <- dropna_length in Hn.
  replace (length (dropna series) =? 0)%nat with false
    by (symmetry; apply Nat.eqb_neq; lia).
  cbn [outliers]. unfold _detect_outliers.
  apply Forall_eq_repeat in Hc.
  assert (Hlen : (1 <= length (values (dropna series)))%nat)
    by (unfold values; rewrite length_map; exact Hn).
  set (n := length (values (dropna series))) in *.
  destruct (String.eqb method "zscore").
  - cbn [o_count]. rewrite Hc.
    rewrite (select_none _ _ (zscore_mask_constant fsqrt c thr n Hlen Hthr)).
    reflexivity.
  - destruct (String.eqb method "iqr"); [| reflexivity].
    cbn [o_count]. rewrite Hc.
    assert (H1 : quantile (repeat c n) (25 # 100) == c)
      by (apply quantile_repeat; [exact Hlen | |]; unfold Qle; simpl; lia).
    assert (H3 : quantile (repeat c n) (75 # 100) == c)
      by (apply quantile_repeat; [exact Hlen | |]; unfold Qle; simpl; lia).
    rewrite select_none; [reflexivity |].
    apply Forall_map. apply Forall_forall. intros x Hx.
    apply repeat_spec in Hx. subst x.
    apply orb_false_iff. split.
    + unfold Qlt_bool. apply negb_false_iff, Qle_bool_iff. rewrite H1, H3. nra.
    + unfold Qlt_bool. apply negb_false_iff, Qle_bool_iff. rewrite H1, H3. nra.
Qed.

Lemma constant_series_has_no_outliers_witness :
  let series := [Some 7; None; Some 7; Some 7] in
  (1 <= non_missing series)%nat /\
  Forall (eq 7) (values (dropna series)) /\
  0 <= 3 /\
  o_count (outliers (analyze_numeric_field Qsqrt_approx series "zscore" 3))
  = Some 0%nat.
Proof.
  intros series.
  assert (H1 : (1 <= non_missing series)%nat) by (vm_compute; lia).
  assert (H2 : Forall (eq 7) (values (dropna series)))
    by (repeat constructor).
  assert (H3 : 0 <= 3) by (unfold Qle; simpl; lia).
  split; [exact H1 |]. split; [exact H2 |]. split; [exact H3 |].
  exact (constant_series_has_no_outliers Qsqrt_approx series 7 "zscore" 3 H1 H2 H3).
Defined.

(** ** The most frequent categories *)

Lemma StronglySorted_map {A B : Type} (R : B -> B -> Prop) (f : A -> B) (l : list A) :
  StronglySorted (fun a b => R (f a) (f b)) l -> StronglySorted R (map f l).
Proof.
  induction 1 as [|x l _ IH Hx]; cbn [map]; constructor; [exact IH |].
  apply Forall_map. exact Hx.
Qed.


Lemma In_firstn {A : Type} (k : nat) (l : list A) (x : A) :
  In x (firstn k l) -> In x l.
Proof.
  intros H. rewrite <- (firstn_skipn k l). apply in_or_app. left. exact H.
Qed.


Section TopCategories.

Context {V : Type}.
Variable V_eq_dec : forall x y : V, {x = y} + {x <> y}.
Variable py_str : V -> string.





Lemma value_counts_row_inv (l : list V) (v : V) (c : nat) :
  In (v, c) (value_counts V_eq_dec l) -> In v l /\ c = count_occ V_eq_dec l v.
Proof.
  intros H. eapply Permutation_in in H; [| apply value_counts_rows].
  apply in_map_iff in H. destruct H as [u [E Hu]]. inversion E; subst.
  split; [apply nodup_In in Hu; exact Hu | reflexivity].
Qed.


End TopCategories.

(** ** A lower bound for the concentration risk *)





Section ConcentrationBound.

Context {V : Type}.
Variable V_eq_dec : forall x y : V, {x = y} + {x <> y}.
Variable py_str : V -> string.


End ConcentrationBound.


(** ** Rare categories *)

Lemma below_one_percent (c total : nat) :
  Qn c < Qn total * (1 # 100) <-> (100 * c < total)%nat.
Proof.
  assert (E : Qn (100 * c) == 100 * Qn c).
  { unfold Qn. rewrite Nat2Z.inj_mul, inject_Z_mult. reflexivity. }
  split; intros H.
  - assert (H' : Qn (100 * c) < Qn total) by (rewrite E; lra).
    unfold Qn in H'. rewrite <- Zlt_Qlt in H'. lia.
  - assert (H' : Qn (100 * c) < Qn total)
      by (unfold Qn; rewrite <- Zlt_Qlt; lia).
    rewrite E in H'. lra.
Qed.

Section RareCategories.

Context {V : Type}.
Variable V_eq_dec : forall x y : V, {x = y} + {x <> y}.
Variable py_str : V -> string.

(** At most fifty rare categories are listed; each is a value of the field
    seen in less than 1% of the non-missing cells; a field with a hundred
    values or fewer has no rare category. *)
Theorem rare_categories_below_one_percent (series : list (option V)) (n : Z) :
  let st := analyze_categorical_field V_eq_dec py_str series n in
  let pop := values (dropna series) in
  (length (rare_categories st) <= 50)%nat /\
  (forall s, In s (rare_categories st) ->
             exists v, In v pop /\ s = py_str v /\
                       (100 * count_occ V_eq_dec pop v < length pop)%nat) /\
  ((length pop <= 100)%nat -> rare_categories st = []).
Proof.
  intros st pop. subst st. unfold analyze_categorical_field. fold pop.
  destruct (length pop =? 0)%nat.
  - cbn. split; [lia |]. split; [intros s [] | reflexivity].
  - cbn [rare_categories]. split; [| split].
    + rewrite length_firstn. lia.
    + intros s Hs. apply In_firstn in Hs. apply in_map_iff in Hs.
      destruct Hs as [[v c] [Es Hin]]. apply filter_In in Hin.
      destruct Hin as [Hrow Hrare]. cbn [fst snd] in *.
      apply (value_counts_row_inv V_eq_dec) in Hrow. destruct Hrow as [Hv Hc].
      exists v. split; [exact Hv |]. split; [symmetry; exact Es |].
      destruct (Qlt_le_dec (Qn c) (Qn (length pop) * (1 # 100))) as [L | G];
        [| discriminate].
      apply below_one_percent in L. subst c. exact L.
    + intros Hsmall.
      rewrite (filter_none _ (value_counts V_eq_dec pop)); [reflexivity |].
      pose proof (value_counts_pos V_eq_dec pop) as Hpos.
      eapply Forall_impl; [| exact Hpos]. intros [v c] Hc. cbn [snd] in *.
      destruct (Qlt_le_dec (Qn c) (Qn (length pop) * (1 # 100))) as [L | G];
        [| reflexivity].
      apply below_one_percent in L. lia.
Qed.

End RareCategories.

(** ** The range of a temporal field *)

Lemma fold_Zmin_spec (t : list Z) (h : Z) :
  In (fold_left Z.min t h) (h :: t) /\
  Forall (fun d => (fold_left Z.min t h <= d)%Z) (h :: t).
Proof.
  revert h. induction t as [|y t IH]; intros h; simpl.
  - split; [left; reflexivity | repeat constructor; lia].
  - destruct (IH (Z.min h y)) as [Hin Hall]. split.
    + destruct Hin as [E | Hin]; [| right; right; exact Hin].
      rewrite <- E.
      destruct (Z.min_spec h y) as [[_ M] | [_ M]]; rewrite M; auto.
    + inversion Hall as [|? ? Hm Hrest]; subst.
      constructor; [lia |]. constructor; [lia | exact Hrest].
Qed.

Lemma Zminimum_spec (l : list Z) :
  l <> [] -> In (Zminimum l) l /\ Forall (fun d => (Zminimum l <= d)%Z) l.
Proof.
  destruct l as [|h t]; [congruence | intros _]. apply fold_Zmin_spec.
Qed.

Lemma sorted_last_max (l : list Z) :
  StronglySorted Z.le l -> Forall (fun x => (x <= last l 0)%Z) l.
Proof.
  induction 1 as [|x l Hs IH Hx]; [constructor |].
  destruct l as [|y l'].
  - repeat constructor. simpl. lia.
  - change (last (x :: y :: l') 0%Z) with (last (y :: l') 0%Z).
    constructor; [| exact IH].
    inversion IH as [|? ? Hy _]; subst. inversion Hx; subst. lia.
Qed.

Lemma last_In (l : list Z) : l <> [] -> In (last l 0%Z) l.
Proof.
  induction l as [|x [|y l'] IH]; intros H; [congruence | left; reflexivity |].
  right. apply IH. discriminate.
Qed.

Lemma sorted_extremes (l : list Z) :
  l <> [] ->
  nth 0 (sort_Z l) 0%Z = Zminimum l /\ last (sort_Z l) 0%Z = Zmaximum l.
Proof.
  intros Hne.
  pose proof (sort_Z_perm l) as Hp. pose proof (sort_Z_sorted l) as Hs.
  assert (Hne' : sort_Z l <> []).
  { intros E. rewrite E in Hp. apply Permutation_sym, Permutation_nil in Hp.
    contradiction. }
  destruct (Zminimum_spec l Hne) as [Imin Amin].
  destruct (Zmaximum_spec l Hne) as [Imax Amax].
  rewrite Forall_forall in Amin, Amax.
  split.
  - destruct (sort_Z l) as [|x s] eqn:E; [congruence |]. cbn [nth].
    assert (Hx : In x l)
      by (eapply Permutation_in; [apply Permutation_sym, Hp | left; reflexivity]).
    specialize (Amin x Hx).
    inversion Hs as [|? ? _ Hall]; subst. rewrite Forall_forall in Hall.
    pose proof (Permutation_in _ Hp Imin) as [<- | Hin]; [lia |].
    specialize (Hall _ Hin). lia.
  - pose proof (sorted_last_max _ Hs) as Hall. rewrite Forall_forall in Hall.
    pose proof (last_In _ Hne') as Hin.
    apply (Permutation_in _ (Permutation_sym Hp)) in Hin.
    specialize (Amax _ Hin).
    specialize (Hall _ (Permutation_in _ Hp Imax)). lia.
Qed.



(** ** Bounds on the gap report *)










(** ** Hourly and daily buckets *)

Lemma insert_key_perm {B : Type} (e : Z * B) (l : list (Z * B)) :
  Permutation (e :: l) (insert_key e l).
Proof.
  induction l as [|h t IH]; simpl.
  - apply Permutation_refl.
  - destruct (fst e <=? fst h)%Z.
    + apply Permutation_refl.
    + eapply perm_trans; [apply perm_swap | apply perm_skip, IH].
Qed.

Lemma sort_index_perm {B : Type} (l : list (Z * B)) : Permutation l (sort_index l).
Proof.
  induction l as [|e l IH]; simpl.
  - constructor.
  - eapply perm_trans; [apply perm_skip, IH | apply insert_key_perm].
Qed.

Lemma insert_key_sorted {B : Type} (e : Z * B) (l : list (Z * B)) :
  StronglySorted (fun a b => (fst a <= fst b)%Z) l ->
  StronglySorted (fun a b => (fst a <= fst b)%Z) (insert_key e l).
Proof.
  induction 1 as [|h t Hs IH Hall]; simpl.
  - repeat constructor.
  - destruct (fst e <=? fst h)%Z eqn:E.
    + apply Z.leb_le in E. constructor; [constructor; assumption |].
      constructor; [exact E |].
      eapply Forall_impl; [| exact Hall]. intros z Hz. simpl in Hz. lia.
    + apply Z.leb_gt in E. constructor; [exact IH |].
      rewrite Forall_forall in *. intros z Hz.
      eapply Permutation_in in Hz; [| apply Permutation_sym, insert_key_perm].
      destruct Hz as [<- | Hz]; [lia | apply Hall, Hz].
Qed.

Lemma sort_index_sorted {B : Type} (l : list (Z * B)) :
  StronglySorted (fun a b => (fst a <= fst b)%Z) (sort_index l).
Proof.
  induction l as [|e l IH]; simpl.
  - constructor.
  - apply insert_key_sorted, IH.
Qed.

Lemma sorted_distinct_strict (l : list Z) :
  StronglySorted Z.le l -> NoDup l -> StronglySorted Z.lt l.
Proof.
  induction 1 as [|x l Hs IH Hx]; intros Hnd; [constructor |].
  inversion Hnd as [|? ? Hnotin Hnd']; subst.
  constructor; [apply IH, Hnd' |].
  rewrite Forall_forall in *. intros y Hy. specialize (Hx y Hy).
  assert (x <> y) by (intros ->; contradiction). lia.
Qed.

(** The buckets of a list of labels: one row per label, in increasing
    order, each with the number of its occurrences. *)
Lemma buckets_spec (labels : list Z) :
  let rows := sort_index (value_counts Z.eq_dec labels) in
  StronglySorted Z.lt (map fst rows) /\
  list_sum (map snd rows) = length labels /\
  Forall (fun row => In (fst row) labels /\
                     snd row = count_occ Z.eq_dec labels (fst row) /\
                     (1 <= snd row)%nat) rows.
Proof.
  intros rows.
  assert (Hp : Permutation (value_counts Z.eq_dec labels) rows)
    by apply sort_index_perm.
  assert (Hp' : Permutation (tally Z.eq_dec labels) rows)
    by (eapply perm_trans; [apply value_counts_perm | exact Hp]).
  split; [| split].
  - apply sorted_distinct_strict.
    + apply StronglySorted_map. apply sort_index_sorted.
    + eapply Permutation_NoDup; [apply Permutation_map, Hp' |].
      apply (tally_ok Z.eq_dec labels).
  - rewrite <- (value_counts_total Z.eq_dec labels).
    apply Permutation_list_sum, Permutation_map, Permutation_sym, Hp.
  - apply Forall_forall. intros [k c] Hin.
    apply (Permutation_in _ (Permutation_sym Hp)) in Hin.
    pose proof (value_counts_pos Z.eq_dec labels) as Hpos.
    rewrite Forall_forall in Hpos. specialize (Hpos _ Hin).
    eapply Permutation_in in Hin; [| apply value_counts_rows].
    apply in_map_iff in Hin. destruct Hin as [u [E Hu]]. inversion E; subst.
    cbn [fst snd] in *. split; [apply nodup_In in Hu; exact Hu | auto].
Qed.

(** The distribution is hourly exactly when some timestamp is off the
    hour 0 or the minute 0.  Hourly buckets are labelled 0 to 23 in
    increasing order and their counts add up to the number of timestamps;
    daily buckets are at most a hundred, in increasing order of day, each
    with the number of timestamps of its day. *)
Theorem distribution_buckets (date_str : Z -> string) (dates : list Z) :
  let d := _analyze_distribution date_str dates in
  (exists rows : list (Z * nat),
      Exists (fun t => dt_hour t <> 0%Z \/ dt_minute t <> 0%Z) dates /\
      d = [(KStr "type", VStr "hourly");
           (KStr "data", VDict (map (fun hc => (KInt (fst hc), Vnat (snd hc))) rows))] /\
      StronglySorted Z.lt (map fst rows) /\
      Forall (fun hc => (0 <= fst hc < 24)%Z) rows /\
      list_sum (map snd rows) = length dates) \/
  (exists rows : list (Z * nat),
      Forall (fun t => dt_hour t = 0%Z /\ dt_minute t = 0%Z) dates /\
      d = [(KStr "type", VStr "daily");
           (KStr "data",
            VDict (map (fun dc => (KStr (date_str (fst dc)), Vnat (snd dc))) rows))] /\
      (length rows <= 100)%nat /\
      StronglySorted Z.lt (map fst rows) /\
      Forall (fun dc => snd dc = count_occ Z.eq_dec (map dt_date dates) (fst dc) /\
                        (1 <= snd dc)%nat) rows).
Proof.
  intros d. subst d. unfold _analyze_distribution.
  destruct (existsb (fun t => negb (dt_hour t =? 0)%Z) dates
            || existsb (fun t => negb (dt_minute t =? 0)%Z) dates) eqn:E.
  - left. exists (sort_index (value_counts Z.eq_dec (map dt_hour dates))).
    destruct (buckets_spec (map dt_hour dates)) as [Hs [Hsum Hrows]].
    split; [| split; [reflexivity | split; [exact Hs | split]]].
    + apply orb_true_iff in E. apply Exists_exists.
      destruct E as [E | E]; apply existsb_exists in E; destruct E as [t [Ht Hb]];
        exists t; (split; [exact Ht |]); apply negb_true_iff, Z.eqb_neq in Hb; auto.
    + eapply Forall_impl; [| exact Hrows]. intros [h c] [Hin _]. cbn [fst] in *.
      apply in_map_iff in Hin. destruct Hin as [t [<- _]].
      unfold dt_hour. apply Z.mod_pos_bound. reflexivity.
    + rewrite Hsum. apply length_map.
  - right. exists (head 100 (sort_index (value_counts Z.eq_dec (map dt_date dates)))).
    destruct (buckets_spec (map dt_date dates)) as [Hs [_ Hrows]].
    apply orb_false_iff in E. destruct E as [Eh Em].
    split; [| split; [reflexivity | split; [| split]]].
    + apply Forall_forall. intros t Ht. split.
      * destruct (Z.eqb_spec (dt_hour t) 0) as [E0 | N0]; [exact E0 |].
        exfalso. assert (X : existsb (fun t => negb (dt_hour t =? 0)%Z) dates = true).
        { apply existsb_exists. exists t. split; [exact Ht |].
          apply negb_true_iff, Z.eqb_neq, N0. }
        congruence.
      * destruct (Z.eqb_spec (dt_minute t) 0) as [E0 | N0]; [exact E0 |].
        exfalso. assert (X : existsb (fun t => negb (dt_minute t =? 0)%Z) dates = true).
        { apply existsb_exists. exists t. split; [exact Ht |].
          apply negb_true_iff, Z.eqb_neq, N0. }
        congruence.
    + unfold head. cbn [Z.leb Z.compare Z.to_nat Pos.to_nat]. rewrite length_firstn.
      apply Nat.le_min_l.
    + unfold head. cbn [Z.leb Z.compare]. rewrite <- firstn_map.
      apply StronglySorted_firstn, Hs.
    + unfold head. cbn [Z.leb Z.compare]. apply Forall_firstn_keep.
      eapply Forall_impl; [| exact Hrows]. intros row [_ H]. exact H.
Qed.

(** ** Fixed points of the sanitisation pass *)

(** The pass changes a tree exactly when the tree holds a non-finite
    float, and applying it twice is applying it once. *)
Theorem clean_nan_values_fixpoints (t : pyval) :
  (clean_nan_values t = t <-> all_finite t) /\
  clean_nan_values (clean_nan_values t) = clean_nan_values t.
Proof.
  split.
  - split.
    + intros E. rewrite <- E. apply clean_nan_values_finite.
    + apply clean_nan_values_fixes_finite.
  - apply clean_nan_values_fixes_finite, clean_nan_values_finite.
Qed.

(** ** The endpoint *)

Section EndpointFacts.

Variable lib : PyLib.
Variable raised_by_generate : AnalysisRequest -> exn.
Variable exn_text : exn -> string.

(** A request without records is answered with status 500, not 400: the
    400 raised inside the [try] block is not a [ValueError] and is caught
    by the last handler. *)
Theorem empty_request_answered_500
        (schema : option SchemaInfo) (options : AnalysisOptions) :
  analyze_dataset lib raised_by_generate exn_text
    {| req_data := []; req_schema := schema; req_options := options |} =
  Raised (HTTPException 500
            ("Analysis failed: "
             ++ exn_text (HTTPException 400 "Empty dataset provided"))%string).
Proof. reflexivity. Qed.

(** The endpoint returns a body without non-finite floats or raises an
    [HTTPException] with status 400 or 500; status 400 means that the
    generator raised a [ValueError] on a request with records. *)
Theorem endpoint_outcomes (request : AnalysisRequest) :
  match analyze_dataset lib raised_by_generate exn_text request with
  | Returned body =>
      all_finite body /\
      exists card, generate lib request = Ok card /\
                   body = clean_nan_values (model_dump card)
  | Raised (HTTPException status detail) =>
      (status = 400%nat /\ req_data request <> [] /\
       generate lib request = Raise /\
       exists msg, raised_by_generate request = ValueError msg) \/
      status = 500%nat
  | Raised _ => False
  end.
Proof.
  unfold analyze_dataset, analyze_dataset_body.
  destruct (req_data request) as [|r rest] eqn:Ed.
  - right. reflexivity.
  - destruct (generate lib request) as [card |] eqn:Eg.
    + split; [apply clean_nan_values_finite |]. exists card. auto.
    + destruct (raised_by_generate request) as [msg | code detail | msg] eqn:Er.
      * left. split; [reflexivity |]. split; [discriminate |].
        split; [reflexivity |]. exists msg. reflexivity.
      * right. reflexivity.
      * right. reflexivity.
Qed.

End EndpointFacts.

(** ** Cells of the frame *)

(** The frame gives back the records: the cell of a column at a row is
    the value the record of that row has for the key (a number as its
    reduced fraction), and is missing when the record has no such key or
    holds null; a name that is no key of any record has no column. *)
Theorem pd_DataFrame_cells (data : list record) (k : string) :
  let df := pd_DataFrame data in
  if mem k (columns df) then
    dict_get k (df_data df) = Some (map (fun r => cell_of (dict_get k r)) data) /\
    forall i, (i < length data)%nat ->
              nth i (column df k) None = cell_of (dict_get k (nth i data []))
  else dict_get k (df_data df) = None /\ column df k = [].
Proof.
  intros df. subst df. rewrite columns_pd_DataFrame.
  unfold column, pd_DataFrame. cbn [df_data].
  rewrite (dict_get_map_keys (fun k => map (fun r => cell_of (dict_get k r)) data)).
  destruct (mem k (all_keys data)).
  - split; [reflexivity |]. intros i Hi. cbn [option_default].
    change None with (cell_of (dict_get k (@nil (string * option scalar)))) at 1.
    apply (map_nth (fun r => cell_of (dict_get k r))).
  - split; reflexivity.
Qed.

(** ** A field with a single value *)

(** With a single non-missing value every location statistic is that
    value, the standard deviation is NaN, and the cleaned dump carries
    [None] for it. *)
Theorem single_value_field
        (fsqrt : Q -> Q) (series : list (option Q)) (x : Q)
        (method : string) (thr : Q) :
  values (dropna series) = [x] ->
  let st := analyze_numeric_field fsqrt series method thr in
  count st = 1%nat /\
  feq (mean st) (Fin x) /\ feq (median st) (Fin x) /\
  feq (min st) (Fin x) /\ feq (max st) (Fin x) /\
  feq (q25 st) (Fin x) /\ feq (q50 st) (Fin x) /\ feq (q75 st) (Fin x) /\
  std st = NaN /\
  exists d, clean_nan_values (dump_numeric st) = VDict d /\
            pydict_get "std" d = Some VNone /\
            pydict_get "count" d = Some (VInt 1).
Proof.
  intros Hv st. subst st. unfold analyze_numeric_field.
  assert (Hlen : length (dropna series) = 1%nat).
  { rewrite <- (length_map snd). fold (values (dropna series)). rewrite Hv. reflexivity. }
  rewrite Hlen. cbn [Nat.eqb]. rewrite Hv.
  cbn [count mean median min max q25 q50 q75 std feq].
  assert (Hq : forall q, quantile [x] q == x).
  { intros q. unfold quantile, interpolate. cbn [length Nat.sub sort_values fold_right
                                                   insert_asc].
    change (Qn 0) with 0.
    assert (E : q * 0 == 0) by ring.
    rewrite (Qfloor_comp _ _ E), (Qceiling_comp _ _ E), E. cbn. ring. }
  split; [reflexivity |].
  split; [unfold series_mean; cbn [Qsum length]; change (Qn 1) with 1; field |].
  split; [cbn; reflexivity |].
  split; [cbn; reflexivity |]. split; [cbn; reflexivity |].
  split; [apply Hq |]. split; [apply Hq |]. split; [apply Hq |].
  split; [reflexivity |].
  eexists. split; [reflexivity |]. split; reflexivity.
Qed.

Lemma single_value_field_witness :
  let series := [None; Some 5; None] in
  let st := analyze_numeric_field Qsqrt_approx series "zscore" 3 in
  values (dropna series) = [5] /\
  count st = 1%nat /\
  feq (mean st) (Fin 5) /\ feq (median st) (Fin 5) /\
  feq (min st) (Fin 5) /\ feq (max st) (Fin 5) /\
  feq (q25 st) (Fin 5) /\ feq (q50 st) (Fin 5) /\ feq (q75 st) (Fin 5) /\
  std st = NaN /\
  exists d, clean_nan_values (dump_numeric st) = VDict d /\
            pydict_get "std" d = Some VNone /\
            pydict_get "count" d = Some (VInt 1).
Proof.
  intros series st.
  assert (H1 : values (dropna series) = [5]) by reflexivity.
  split; [exact H1 |].
  exact (single_value_field Qsqrt_approx series 5 "zscore" 3 H1).
Defined.

(** ** Charts *)

Lemma insert_by_perm {A : Type} (prec : A -> A -> bool) (e : A) (l : list A) :
  Permutation (e :: l) (insert_by prec e l).
Proof.
  induction l as [|h t IH]; simpl.
  - apply Permutation_refl.
  - destruct (prec h e).
    + eapply perm_trans; [apply perm_swap | apply perm_skip, IH].
    + apply Permutation_refl.
Qed.

Lemma sorted_by_perm {A : Type} (prec : A -> A -> bool) (l : list A) :
  Permutation l (sorted_by prec l).
Proof.
  induction l as [|e l IH]; simpl.
  - constructor.
  - eapply perm_trans; [apply perm_skip, IH | apply insert_by_perm].
Qed.

Lemma sorted_by_key {A : Type} (key : A -> nat) (l : list A) :
  StronglySorted (fun a b => (key a <= key b)%nat)
                 (sorted_by (fun h e => (key h <? key e)%nat) l).
Proof.
  induction l as [|e l IH]; simpl; [constructor |].
  set (s := sorted_by (fun h e0 => (key h <? key e0)%nat) l) in *.
  clearbody s. induction IH as [|h t Hs IHt Hall]; simpl.
  - repeat constructor.
  - destruct (key h <? key e)%nat eqn:E.
    + apply Nat.ltb_lt in E. constructor; [exact IHt |].
      rewrite Forall_forall in *. intros z Hz.
      eapply Permutation_in in Hz; [| apply Permutation_sym, insert_by_perm].
      destruct Hz as [<- | Hz]; [lia | apply Hall, Hz].
    + apply Nat.ltb_ge in E. constructor; [constructor; assumption |].
      constructor; [exact E |].
      eapply Forall_impl; [| exact Hall]. intros z Hz. simpl in Hz. lia.
Qed.

Lemma flat_map_at_most_one {A B : Type} (f : A -> list B) (l : list A) :
  (forall a, (length (f a) <= 1)%nat) -> (length (flat_map f l) <= length l)%nat.
Proof.
  intros H. induction l as [|a l IH]; simpl; [lia |].
  rewrite length_app. specialize (H a). lia.
Qed.

(** The charts are the histograms followed by the bar charts.  There is at
    most one histogram per numeric entry, each for a column of the frame
    with at least one value; the bar charts are those of the categorical
    entries with a non-empty top-N, by increasing number of distinct
    values, and do not depend on what the histogram routine does. *)
Theorem chart_data_layout
        (lib : PyLib) (df : DataFrame) (schema : SchemaInfo)
        (numeric_stats : list (string * NumericStats))
        (categorical_stats : list (string * CategoricalStats)) :
  exists hist by_unique,
    _generate_chart_data lib df schema numeric_stats categorical_stats =
      hist ++ flat_map bar_chart by_unique /\
    Permutation categorical_stats by_unique /\
    StronglySorted (fun a b => (unique_count (snd a) <= unique_count (snd b))%nat)
                   by_unique /\
    (length hist <= length numeric_stats)%nat /\
    Forall (fun c => c_type c = "histogram" /\
                     exists stats col,
                       In (c_field c, stats) numeric_stats /\
                       dict_get (c_field c) (df_data df) = Some col /\
                       (1 <= non_missing col)%nat) hist /\
    Forall (fun c => c_type c = "bar") (flat_map bar_chart by_unique) /\
    map c_field (flat_map bar_chart by_unique) =
      map fst (filter (fun it => match top_n (snd it) with
                                 | [] => false
                                 | _ :: _ => true
                                 end) by_unique).
Proof.
  unfold _generate_chart_data.
  set (ns := sorted_by (fun h e => flt (std (snd e)) (std (snd h))) numeric_stats).
  set (cs := sorted_by (fun h e => (unique_count (snd h) <? unique_count (snd e))%nat)
                       categorical_stats).
  exists (flat_map (histogram_chart lib df) ns), cs.
  split; [reflexivity |].
  split; [apply sorted_by_perm |].
  split; [apply (sorted_by_key (fun it : string * CategoricalStats =>
                                  unique_count (snd it))) |].
  assert (Hns : Permutation numeric_stats ns) by apply sorted_by_perm.
  split; [| split; [| split]].
  - rewrite (Permutation_length Hns). apply flat_map_at_most_one.
    intros [field stats]. unfold histogram_chart.
    destruct (dict_get field (df_data df)); [| simpl; lia].
    destruct (0 <? _)%nat; [| simpl; lia].
    destruct (np_histogram lib _ 20) as [[h b] |]; simpl; lia.
  - apply Forall_forall. intros c Hc. apply in_flat_map in Hc.
    destruct Hc as [[field stats] [Hin Hc]].
    apply (Permutation_in _ (Permutation_sym Hns)) in Hin.
    unfold histogram_chart in Hc.
    destruct (dict_get field (df_data df)) as [col |] eqn:Eg; [| contradiction].
    destruct (0 <? length (values (dropna col)))%nat eqn:El; [| contradiction].
    destruct (np_histogram lib _ 20) as [[h b] |]; [| contradiction].
    destruct Hc as [<- | []]. cbn [c_type c_field]. split; [reflexivity |].
    exists stats, col. split; [exact Hin |]. split; [exact Eg |].
    apply Nat.ltb_lt in El. unfold values in El.
    rewrite length_map, dropna_length in El. lia.
  - apply Forall_forall. intros c Hc. apply in_flat_map in Hc.
    destruct Hc as [[field stats] [_ Hc]]. unfold bar_chart in Hc.
    destruct (top_n stats); [contradiction |].
    destruct Hc as [<- | []]. reflexivity.
  - clear. induction cs as [|[field stats] cs IH]; [reflexivity |].
    cbn [flat_map filter snd]. unfold bar_chart at 1.
    destruct (top_n stats); cbn [app map fst c_field]; rewrite IH; reflexivity.
Qed.

(** ** The summary and the temporal statistics *)

Lemma pydict_get_app (k : string) (a b : pydict) :
  pydict_get k (a ++ b) =
  match pydict_get k a with
  | Some v => Some v
  | None => pydict_get k b
  end.
Proof.
  induction a as [|[[k' | z] v] a IH]; cbn [app pydict_get]; [reflexivity | |exact IH].
  destruct (String.eqb k k'); [reflexivity | exact IH].
Qed.

(** When the numeric hints name numeric columns only, the summary is
    returned; it counts the rows and the columns of the frame, and when
    the first temporal field is a column with a parseable timestamp its
    time range is the start and the end that the temporal analyzer reports
    for that field. *)
Theorem summary_agrees_with_temporal_stats
        (lib : PyLib) (df : DataFrame) (schema : SchemaInfo)
        (first : string) (rest : list string) (col : list (option scalar)) :
  (forall f, In f (numeric schema) ->
             forall c, dict_get f (df_data df) = Some c ->
                       is_numeric_dtype c = true) ->
  temporal schema = first :: rest ->
  dict_get first (df_data df) = Some col ->
  (1 <= non_missing (pd_to_datetime lib col))%nat ->
  exists s,
    _generate_summary lib df schema = Ok s /\
    pydict_get "record_count" s = Some (Vnat (df_len df)) /\
    pydict_get "field_count" s = Some (Vnat (length (columns df))) /\
    pydict_get "time_range" s =
      Some (VDict (firstn 2 (t_range (analyze_temporal_field
                                        (pd_to_datetime lib) (ts_isoformat lib)
                                        (date_to_str lib) (pd_timedelta_mean lib)
                                        col)))).
Proof.
  intros Hnum Ht Hg Hn. unfold _generate_summary.
  set (base := [(KStr "record_count", Vnat (df_len df));
                (KStr "field_count", Vnat (length (columns df)));
                (KStr "numeric_fields", Vnat (length (numeric schema)));
                (KStr "categorical_fields", Vnat (length (categorical schema)));
                (KStr "temporal_fields", Vnat (length (temporal schema)))]).
  assert (Hfirst : exists s1,
             match find (fun field => mem field (columns df) && mem field (numeric schema))
                        ["amount"; "notional"; "value"] with
             | Some field =>
                 match dict_get field (df_data df) with
                 | Some col =>
                     total <- column_sum col ;;
                     Ok (base ++ [(KStr "total_notional", Vnum total)])
                 | None => Ok base
                 end
             | None => Ok base
             end = Ok s1 /\
             pydict_get "record_count" s1 = Some (Vnat (df_len df)) /\
             pydict_get "field_count" s1 = Some (Vnat (length (columns df))) /\
             pydict_get "time_range" s1 = None).
  { destruct (find _ _) as [field |] eqn:Ef;
      [| exists base; repeat split; reflexivity].
    apply find_some in Ef. destruct Ef as [_ Ef].
    apply andb_true_iff in Ef. destruct Ef as [_ Ef]. apply mem_In in Ef.
    destruct (dict_get field (df_data df)) as [c |] eqn:Eg;
      [| exists base; repeat split; reflexivity].
    destruct (as_numbers_numeric c (Hnum field Ef c Eg)) as [nums En].
    unfold column_sum. rewrite En. cbn [bind]. eexists.
    split; [reflexivity |]. repeat split; reflexivity. }
  destruct Hfirst as [s1 [E1 [R1 [F1 T1]]]]. rewrite E1. cbn [bind].
  rewrite Ht, Hg.
  rewrite <- dropna_length in Hn.
  set (parsed := values (dropna (pd_to_datetime lib col))).
  assert (Hlen : (1 <= length parsed)%nat)
    by (subst parsed; unfold values; rewrite length_map; exact Hn).
  replace (0 <? length parsed)%nat with true by (symmetry; apply Nat.ltb_lt; lia).
  eexists. split; [reflexivity |].
  rewrite !pydict_get_app, R1, F1, T1.
  split; [reflexivity |]. split; [reflexivity |].
  unfold analyze_temporal_field. fold parsed.
  replace (length parsed =? 0)%nat with false by (symmetry; apply Nat.eqb_neq; lia).
  assert (Hne : parsed <> []) by (intros E; rewrite E in Hlen; simpl in Hlen; lia).
  destruct (sorted_extremes parsed Hne) as [E0 E2].
  cbn [t_range firstn]. rewrite E0, E2. reflexivity.
Qed.

Lemma summary_agrees_with_temporal_stats_witness :
  let df := pd_DataFrame [[("when", Some (SNum 86400000000000)); ("amount", Some (SNum 3))];
                          [("when", Some (SNum 0)); ("amount", Some (SNum 4))]] in
  let schema := {| numeric := ["amount"]; categorical := []; temporal := ["when"] |} in
  let col := [Some (SNum 86400000000000); Some (SNum 0)] in
  (forall f, In f (numeric schema) ->
             forall c, dict_get f (df_data df) = Some c ->
                       is_numeric_dtype c = true) /\
  temporal schema = ["when"] /\
  dict_get "when" (df_data df) = Some col /\
  (1 <= non_missing (pd_to_datetime demo_lib col))%nat /\
  exists s,
    _generate_summary demo_lib df schema = Ok s /\
    pydict_get "record_count" s = Some (Vnat (df_len df)) /\
    pydict_get "field_count" s = Some (Vnat (length (columns df))) /\
    pydict_get "time_range" s =
      Some (VDict (firstn 2 (t_range (analyze_temporal_field
                                        (pd_to_datetime demo_lib) (ts_isoformat demo_lib)
                                        (date_to_str demo_lib)
                                        (pd_timedelta_mean demo_lib) col)))).
Proof.
  intros df schema col.
  assert (H1 : forall f, In f (numeric schema) ->
                         forall c, dict_get f (df_data df) = Some c ->
                                   is_numeric_dtype c = true).
  { intros f [<- | []] c Hc. vm_compute in Hc. inversion Hc; subst. reflexivity. }
  assert (H2 : temporal schema = ["when"]) by reflexivity.
  assert (H3 : dict_get "when" (df_data df) = Some col) by reflexivity.
  assert (H4 : (1 <= non_missing (pd_to_datetime demo_lib col))%nat)
    by (vm_compute; lia).
  split; [exact H1 |]. split; [exact H2 |]. split; [exact H3 |]. split; [exact H4 |].
  exact (summary_agrees_with_temporal_stats demo_lib df schema "when" [] col
           H1 H2 H3 H4).
Defined.
